(** * Cheque lifecycle of the bill application (src/App.js)

    A shallow embedding of the three command handlers of [App.js]
    ([handleCreateCheque], [handleActivateCheque], [handleDeleteCheque]),
    of [changeBalance] and [generateShortId], over a model of the three
    Firestore locations the handlers touch:

    - [artifacts/{appId}/users/{uid}/data/profile]     (one profile per user),
    - [artifacts/{appId}/users/{uid}/cheques/{id}]     (the sender's copy),
    - [artifacts/{appId}/public/data/cheques/{id}]     (the public copy).

    JavaScript numbers are IEEE-754 binary64 values; they are modelled by
    Rocq's primitive floats, whose operations are the binary64 operations
    with rounding to nearest, ties to even.

    A handler runs in a monad over the store, the messages shown and a
    schedule that says which of the coming write calls the store rejects:
    the handlers catch such rejections ([try]/[catch]), and no handler uses
    a transaction.  The handlers close over the React state of the component
    ([Session]); the snapshot listeners refresh it from the store. *)

From Stdlib Require Import ZArith Floats String Ascii List Lia.
From stdpp Require Import gmap strings list fin_maps sorting.

Set Warnings "-inexact-float".
Local Open Scope string_scope.
Local Open Scope Z_scope.

(** ** JavaScript numbers *)

Module JsNumber.

(** [isNaN(x)] for a number [x]. *)
Definition isNaN (x : float) : bool := PrimFloat.is_nan x.

(** Truthiness of a number: [0], [-0] and [NaN] are falsy. *)
Definition truthy (x : float) : bool :=
  negb (isNaN x || PrimFloat.eqb x 0%float).

(** [x || 0] for a number [x]. *)
Definition or_zero (x : float) : float :=
  if truthy x then x else 0%float.

End JsNumber.

(** ** Firestore documents *)

(** [users/{uid}/data/profile]. *)
Record Profile := mkProfile {
  first_name : string;
  username : string;
  balance : float;
  join_date : string
}.

(** A cheque document.  The sender's copy carries no owner names; the
    public copy carries both ([owner_first_name], [owner_username]). *)
Record Cheque := mkCheque {
  short_id : string;
  owner_id : string;
  amount : float;
  active : Z;
  anonymous : bool;
  created_at : string;
  owner_first_name : option string;
  owner_username : option string
}.

(** [updateDoc(ref, { active: v })] on the fields of a cheque. *)
Definition set_active (v : Z) (c : Cheque) : Cheque :=
  {| short_id := short_id c; owner_id := owner_id c; amount := amount c;
     active := v; anonymous := anonymous c; created_at := created_at c;
     owner_first_name := owner_first_name c;
     owner_username := owner_username c |}.

(** [updateDoc(ref, { balance: b })] on the fields of a profile. *)
Definition set_balance (b : float) (p : Profile) : Profile :=
  {| first_name := first_name p; username := username p; balance := b;
     join_date := join_date p |}.

(** The database: the three collections of the application. *)
Record Db := mkDb {
  profiles : gmap string Profile;
  user_cheques : gmap string (gmap string Cheque);
  public_cheques : gmap string Cheque
}.

(** The collection [users/{uid}/cheques]. *)
Definition cheques_of (uid : string) (d : Db) : gmap string Cheque :=
  default ∅ (user_cheques d !! uid).

(** The store with [users/{uid}/cheques/{id}] set to [c]. *)
Definition put_user_cheque (uid id : string) (c : Cheque) (d : Db) : Db :=
  {| profiles := profiles d;
     user_cheques := <[uid := <[id := c]> (cheques_of uid d)]> (user_cheques d);
     public_cheques := public_cheques d |}.

(** The store with [public/data/cheques/{id}] set to [c]. *)
Definition put_public_cheque (id : string) (c : Cheque) (d : Db) : Db :=
  {| profiles := profiles d;
     user_cheques := user_cheques d;
     public_cheques := <[id := c]> (public_cheques d) |}.

(** The store with the profile of [uid] set to [p]. *)
Definition put_profile (uid : string) (p : Profile) (d : Db) : Db :=
  {| profiles := <[uid := p]> (profiles d);
     user_cheques := user_cheques d;
     public_cheques := public_cheques d |}.

Definition empty_db : Db :=
  {| profiles := ∅; user_cheques := ∅; public_cheques := ∅ |}.

(** ** Messages shown by [showMessage] *)

Inductive Message :=
| MsgBalanceUpdated (amount : float)   (* 'Баланс успешно обновлен на ...' *)
| MsgBalanceError                      (* 'Ошибка обновления баланса.' *)
| MsgInvalidAmount                     (* 'Пожалуйста, введите корректную сумму.' *)
| MsgInsufficientFunds                 (* 'Недостаточно средств на балансе.' *)
| MsgChequeCreated (amount : float) (chequeId : string)
                                       (* 'Чек на сумму ... успешно создан! ID: ...' *)
| MsgCreateError                       (* 'Ошибка при создании чека.' *)
| MsgEnterChequeId                     (* 'Пожалуйста, введите ID чека.' *)
| MsgChequeDoesNotExist                (* 'Данного чека не существует.' *)
| MsgChequeActivatedOrDeleted          (* 'Данный чек был активирован или удалён.' *)
| MsgOwnCheque                         (* 'Вы не можете активировать свой чек.' *)
| MsgActivatedAnonymous (amount : float)
                                       (* 'Вы активировали анонимный чек на сумму ...' *)
| MsgActivatedFrom (first_name username : option string) (amount : float)
                                       (* 'Вы активировали чек от ... (@...) на сумму ...' *)
| MsgActivateError                     (* 'Ошибка при активации чека.' *)
| MsgChequeDeleted (short_id : string) (amount : float)
                                       (* 'Чек ... был успешно удален. Сумма ... возвращена на баланс.' *)
| MsgDeleteError.                      (* 'Ошибка при удалении чека.' *)

(** ** The world of a handler run, and the monad of the handlers *)

(** [faults] is the schedule of the store: for each coming write call
    ([setDoc], [updateDoc]), in order, whether the store rejects it; past
    the end of the list every write is accepted.  [log] holds the messages
    shown so far, the latest last. *)
Record World := mkWorld {
  db : Db;
  faults : list bool;
  log : list Message
}.

Inductive Result (A : Type) :=
| Ok (a : A)
| Throw.
Arguments Ok {A} a.
Arguments Throw {A}.

Definition M (A : Type) : Type := World -> Result A * World.

#[global] Instance M_ret : MRet M := fun A a w => (Ok a, w).

#[global] Instance M_bind : MBind M := fun A B k m w =>
  match m w with
  | (Ok a, w') => k a w'
  | (Throw, w') => (Throw, w')
  end.

(** [try { body } catch (error) { handler }]. *)
Definition try_catch {A} (body : M A) (handler : M A) : M A :=
  fun w => match body w with
           | (Ok a, w') => (Ok a, w')
           | (Throw, w') => handler w'
           end.

Definition showMessage (m : Message) : M unit :=
  fun w => (Ok tt, {| db := db w; faults := faults w; log := log w ++ [m] |}).

(** A write call on the store: rejected when the schedule says so, and
    when the update itself is refused ([None]). *)
Definition write (f : Db -> option Db) : M unit :=
  fun w =>
    match faults w with
    | true :: fs => (Throw, {| db := db w; faults := fs; log := log w |})
    | _ =>
        match f (db w) with
        | Some d => (Ok tt, {| db := d; faults := tail (faults w); log := log w |})
        | None => (Throw, {| db := db w; faults := tail (faults w); log := log w |})
        end
    end.

(** A read of the store. *)
Definition read {A} (f : Db -> A) : M A := fun w => (Ok (f (db w)), w).

(** *** Firestore calls *)

Inductive ChequeRef :=
| SenderChequeRef (uid id : string)   (* users/{uid}/cheques/{id} *)
| PublicChequeRef (id : string).      (* public/data/cheques/{id} *)

(** [setDoc(ref, data)] creates the document or overwrites it. *)
Definition setDoc (r : ChequeRef) (c : Cheque) : M unit :=
  write (fun d =>
    match r with
    | SenderChequeRef uid id => Some (put_user_cheque uid id c d)
    | PublicChequeRef id => Some (put_public_cheque id c d)
    end).

(** [updateDoc(ref, { active: v })]; [updateDoc] fails on a document that
    does not exist. *)
Definition updateDoc_active (r : ChequeRef) (v : Z) : M unit :=
  write (fun d =>
    match r with
    | SenderChequeRef uid id =>
        c ← cheques_of uid d !! id;
        Some (put_user_cheque uid id (set_active v c) d)
    | PublicChequeRef id =>
        c ← public_cheques d !! id;
        Some (put_public_cheque id (set_active v c) d)
    end).

(** [updateDoc(userDocRef, { balance: b })]. *)
Definition updateDoc_balance (uid : string) (b : float) : M unit :=
  write (fun d =>
    p ← profiles d !! uid;
    Some (put_profile uid (set_balance b p) d)).

(** [setDoc(userDocRef, profile)]. *)
Definition setDoc_profile (uid : string) (p : Profile) : M unit :=
  write (fun d => Some (put_profile uid p d)).

(** Documents of a collection in the order a query returns them: by
    document id, ascending. *)
Definition by_id (x y : string * Cheque) : Prop := String.le x.1 y.1.

Definition docs_in_order (m : gmap string Cheque) : list (string * Cheque) :=
  merge_sort by_id (map_to_list m).

(** [query(publicChequesRef, where('short_id', '==', code))]: the public
    cheques whose [short_id] is [code], in document-id order. *)
Definition where_short_id (code : string) (d : Db) : list (string * Cheque) :=
  List.filter (fun x => String.eqb (short_id x.2) code)
              (docs_in_order (public_cheques d)).

(** [getDocs(q)] for that query. *)
Definition getDocs_short_id (code : string) : M (list (string * Cheque)) :=
  read (where_short_id code).

(** The documents of [users/{uid}/cheques] with [active == 1], as the
    snapshot listener receives them. *)
Definition active_cheques_of (uid : string) (d : Db) : list (string * Cheque) :=
  List.filter (fun x => Z.eqb (active x.2) 1) (docs_in_order (cheques_of uid d)).

(** ** [generateShortId] *)

(** [v.toString(16)] for [v] in [0..15]. *)
Definition hex_digit (v : Z) : ascii :=
  match v with
  | 0 => "0" | 1 => "1" | 2 => "2" | 3 => "3" | 4 => "4" | 5 => "5"
  | 6 => "6" | 7 => "7" | 8 => "8" | 9 => "9" | 10 => "a" | 11 => "b"
  | 12 => "c" | 13 => "d" | 14 => "e" | 15 => "f" | _ => "?"
  end%char.

(** [template.replace(/[xy]/g, c => ...)]: every [x] or [y] of the template
    is replaced by one hexadecimal digit.  [rs] lists the successive values
    of [Math.random() * 16 | 0], each in [0..15]; one is drawn per replaced
    character ([0] once the list is used up). *)
Fixpoint replace_xy (template : string) (rs : list Z) : string :=
  match template with
  | EmptyString => EmptyString
  | String c t =>
      if (Ascii.eqb c "x" || Ascii.eqb c "y")%bool then
        let r := hd 0 rs in
        let v := if Ascii.eqb c "x" then r else Z.lor (Z.land r 3) 8 in
        String (hex_digit v) (replace_xy t (tl rs))
      else String c (replace_xy t rs)
  end.

Definition generateShortId (rs : list Z) : string :=
  replace_xy "xxxxxxxxxx" rs.

(** ** The state of the component *)

(** The React state and the authentication data the handlers close over.
    [userBalance] and [activeCheques] are the component's view of the store,
    refreshed by the snapshot listeners ([onSnapshot] below).  [userId] is
    the empty string as long as nobody is signed in; the handlers return at
    once then ([if (!db || !userId) return]). *)
Record Session := mkSession {
  userId : string;
  userName : string;
  email : option string;              (* auth.currentUser?.email *)
  userBalance : float;
  activeCheques : list (string * Cheque)   (* { id: doc.id, ...doc.data() } *)
}.

(** [email.split('@')[0]]. *)
Fixpoint before_at (s : string) : string :=
  match s with
  | EmptyString => EmptyString
  | String c t => if Ascii.eqb c "@" then EmptyString else String c (before_at t)
  end.

(** [email ? email.split('@')[0] : `user-${uid.substring(0, 8)}`]. *)
Definition username_of (mail : option string) (uid : string) : string :=
  match mail with
  | Some e => if String.eqb e "" then "user-" +:+ substring 0 8 uid else before_at e
  | None => "user-" +:+ substring 0 8 uid
  end.

(** [name || 'Пользователь']. *)
Definition name_or_default (name : string) : string :=
  if String.eqb name "" then "Пользователь" else name.

(** The two snapshot listeners: the profile listener sets [userBalance] to
    [data.balance || 0] and [userName] when the profile exists; the cheque
    listener sets [activeCheques] to the user's cheques with [active == 1]. *)
Definition onSnapshot (d : Db) (s : Session) : Session :=
  {| userId := userId s;
     userName := match profiles d !! userId s with
                 | Some p => name_or_default (first_name p)
                 | None => userName s
                 end;
     email := email s;
     userBalance := match profiles d !! userId s with
                    | Some p => JsNumber.or_zero (balance p)
                    | None => userBalance s
                    end;
     activeCheques := active_cheques_of (userId s) d |}.

(** ** [changeBalance] *)

Definition changeBalance (s : Session) (amount : float) : M unit :=
  if String.eqb (userId s) "" then mret tt
  else
    try_catch
      (updateDoc_balance (userId s) (userBalance s + amount)%float;;
       showMessage (MsgBalanceUpdated amount))
      (showMessage MsgBalanceError).

(** ** [handleCreateCheque] *)

(** What a run of [handleCreateCheque] takes from outside the store:
    [parsedAmount] is [parseFloat(createAmount)], [random16] the draws of
    [generateShortId], [now_sender] and [now_public] the two values of
    [new Date().toISOString()]. *)
Record CreateInput := mkCreateInput {
  parsedAmount : float;
  createIsAnonymous : bool;
  random16 : list Z;
  now_sender : string;
  now_public : string
}.

Definition fullChequeId_of (uid chequeId : string) : string :=
  uid +:+ "-" +:+ chequeId.

Definition sender_cheque (s : Session) (i : CreateInput) : Cheque :=
  {| short_id := generateShortId (random16 i);
     owner_id := userId s;
     amount := parsedAmount i;
     active := 1;
     anonymous := createIsAnonymous i;
     created_at := now_sender i;
     owner_first_name := None;
     owner_username := None |}.

Definition public_cheque (s : Session) (i : CreateInput) : Cheque :=
  {| short_id := generateShortId (random16 i);
     owner_id := userId s;
     amount := parsedAmount i;
     active := 1;
     anonymous := createIsAnonymous i;
     created_at := now_public i;
     owner_first_name := Some (userName s);
     owner_username := Some (username_of (email s) (userId s)) |}.

Definition handleCreateCheque (s : Session) (i : CreateInput) : M unit :=
  if String.eqb (userId s) "" then mret tt
  else
    let amount := parsedAmount i in
    if (JsNumber.isNaN amount || (amount <=? 0)%float)%bool then
      showMessage MsgInvalidAmount
    else if (userBalance s <? amount)%float then
      showMessage MsgInsufficientFunds
    else
      try_catch
        (let chequeId := generateShortId (random16 i) in
         let fullChequeId := fullChequeId_of (userId s) chequeId in
         changeBalance s (- amount)%float;;
         setDoc (SenderChequeRef (userId s) fullChequeId) (sender_cheque s i);;
         setDoc (PublicChequeRef fullChequeId) (public_cheque s i);;
         showMessage (MsgChequeCreated amount chequeId))
        (showMessage MsgCreateError).

(** ** [handleActivateCheque] *)

(** The text of the success message: without the owner's names for an
    anonymous cheque. *)
Definition messageText (chequeData : Cheque) : Message :=
  if anonymous chequeData then MsgActivatedAnonymous (amount chequeData)
  else MsgActivatedFrom (owner_first_name chequeData)
         (owner_username chequeData) (amount chequeData).

(** The loop over [querySnapshot.docs]: the first document whose [active]
    field is [1]. *)
Definition first_active (docs : list (string * Cheque)) : option (string * Cheque) :=
  List.find (fun x => Z.eqb (active x.2) 1) docs.

Definition handleActivateCheque (s : Session) (activateChequeId : string) : M unit :=
  if String.eqb (userId s) "" then mret tt
  else if String.eqb activateChequeId "" then showMessage MsgEnterChequeId
  else
    try_catch
      (docs ← getDocs_short_id activateChequeId;
       match docs with
       | [] => showMessage MsgChequeDoesNotExist
       | _ =>
           match first_active docs with
           | None => showMessage MsgChequeActivatedOrDeleted
           | Some (fullChequeId, chequeData) =>
               if String.eqb (owner_id chequeData) (userId s) then
                 showMessage MsgOwnCheque
               else
                 updateDoc_active (PublicChequeRef fullChequeId) 0;;
                 updateDoc_active
                   (SenderChequeRef (owner_id chequeData) fullChequeId) 0;;
                 changeBalance s (amount chequeData);;
                 showMessage (messageText chequeData)
           end
       end)
      (showMessage MsgActivateError).

(** ** [handleDeleteCheque] *)

(** The confirmed deletion ([onConfirm]) of the cheque object [cheque],
    an element of [activeCheques]: its id and its fields. *)
Definition handleDeleteCheque (s : Session) (cheque : string * Cheque) : M unit :=
  if String.eqb (userId s) "" then mret tt
  else
    try_catch
      (updateDoc_active (SenderChequeRef (userId s) cheque.1) 0;;
       updateDoc_active (PublicChequeRef cheque.1) 0;;
       changeBalance s (amount cheque.2);;
       showMessage (MsgChequeDeleted (short_id cheque.2) (amount cheque.2)))
      (showMessage MsgDeleteError).

(** ** First sighting of a user ([onAuthStateChanged]) *)

Definition new_profile (displayName : option string) (mail : option string)
    (uid now : string) : Profile :=
  {| first_name := name_or_default (default "" displayName);
     username := username_of mail uid;
     balance := 0%float;
     join_date := now |}.

(** The profile is created, with balance [0], when it does not exist. *)
Definition signIn (uid : string) (displayName mail : option string)
    (now : string) : M unit :=
  p ← read (fun d => profiles d !! uid);
  match p with
  | None => setDoc_profile uid (new_profile displayName mail uid now)
  | Some _ => mret tt
  end.

(** ** Runs of the application *)

(** A user command, issued from the component of user [cmd_user] once the
    snapshot listeners have delivered the current store. *)
Inductive Action :=
| SignIn (displayName : option string) (now : string)
| IssueCheque (i : CreateInput)
| RedeemCheque (code : string)
| CancelCheque (id : string).

Record Command := mkCommand {
  cmd_user : string;
  cmd_email : option string;
  cmd_action : Action
}.

(** The component's state after mounting: [useState(0)], [useState([])]. *)
Definition mounted (uid : string) (mail : option string) : Session :=
  {| userId := uid; userName := ""; email := mail;
     userBalance := 0%float; activeCheques := [] |}.

Definition session_of (uid : string) (mail : option string) (d : Db) : Session :=
  onSnapshot d (mounted uid mail).

(** [CancelCheque id] presses the delete button of the cheque [id] in the
    list of active cheques and confirms; there is no button for other
    cheques.  A rejected creation of the profile at sign-in is not handled
    by the application and changes nothing. *)
Definition run_command (c : Command) : M unit :=
  fun w =>
    let s := session_of (cmd_user c) (cmd_email c) (db w) in
    match cmd_action c with
    | SignIn name now =>
        try_catch (signIn (cmd_user c) name (cmd_email c) now) (mret tt) w
    | IssueCheque i => handleCreateCheque s i w
    | RedeemCheque code => handleActivateCheque s code w
    | CancelCheque id =>
        match List.find (fun x => String.eqb x.1 id) (activeCheques s) with
        | Some cheque => handleDeleteCheque s cheque w
        | None => (Ok tt, w)
        end
    end.

Fixpoint run_commands (cs : list Command) (w : World) : World :=
  match cs with
  | [] => w
  | c :: cs' => run_commands cs' (run_command c w).2
  end.

(** The world a handler starts in. *)
Definition start (d : Db) (fs : list bool) : World :=
  {| db := d; faults := fs; log := [] |}.

(** The outcome of a handler: the final world. *)
Definition exec {A} (m : M A) (d : Db) (fs : list bool) : World :=
  (m (start d fs)).2.

(** ** Properties of stores and of runs *)

(** A store that accepts every write. *)
Definition reliable (fs : list bool) : Prop := Forall (fun b => b = false) fs.

(** Every cheque of [users/{u}/cheques] is owned by [u]; every cheque, in a
    user's collection or in the public one, is stored under the id
    [`${owner_id}-${short_id}`], with a short id of ten characters. *)
Definition well_formed_cheque (id : string) (c : Cheque) : Prop :=
  id = fullChequeId_of (owner_id c) (short_id c) /\
  String.length (short_id c) = 10%nat.

Definition well_formed (d : Db) : Prop :=
  (forall u id c, cheques_of u d !! id = Some c ->
                  owner_id c = u /\ well_formed_cheque id c) /\
  (forall id c, public_cheques d !! id = Some c -> well_formed_cheque id c).

(** A handler preserves a property of the store. *)
Definition preserves {A} (P : Db -> Prop) (m : M A) : Prop :=
  forall w, P (db w) -> P (db (m w).2).

(** A store in which nothing has been issued yet: every profile has the
    balance [0] it was created with, and there is no cheque. *)
Definition untouched (d : Db) : Prop :=
  (forall u p, profiles d !! u = Some p -> balance p = 0%float) /\
  user_cheques d = ∅ /\
  public_cheques d = ∅.

(** A binary64 value that is not negative: a zero, a positive finite value
    or the positive infinity. *)
Definition SFnonneg (x : spec_float) : Prop :=
  match x with
  | S754_zero _ | S754_infinity false | S754_finite false _ _ => True
  | _ => False
  end.

(** A store whose balances and cheque amounts are not negative. *)
Definition nonneg_store (d : Db) : Prop :=
  (forall u p, profiles d !! u = Some p -> (0 <=? balance p)%float = true) /\
  (forall u id c, cheques_of u d !! id = Some c -> (0 <=? amount c)%float = true) /\
  (forall id c, public_cheques d !! id = Some c -> (0 <=? amount c)%float = true).

(** A command whose amount, when it is an issue, is a finite number (the
    user did not type [Infinity]). *)
Definition finite_input (c : Command) : Prop :=
  match cmd_action c with
  | IssueCheque i => PrimFloat.is_finite (parsedAmount i) = true
  | _ => True
  end.

(** ** Shapes of strings *)

(** Every character of [s] passes the test [f]. *)
Fixpoint all_chars (f : ascii -> bool) (s : string) : bool :=
  match s with
  | EmptyString => true
  | String c t => f c && all_chars f t
  end.

(** A lower-case hexadecimal digit. *)
Definition is_hex_digit (c : ascii) : bool :=
  existsb (Ascii.eqb c) (list_ascii_of_string "0123456789abcdef").

(** A value of [Math.random() * 16 | 0]. *)
Definition draw (r : Z) : Prop := 0 <= r < 16.

(** A command that is a sign-in. *)
Definition is_sign_in (c : Command) : Prop :=
  match cmd_action c with
  | SignIn _ _ => True
  | _ => False
  end.

(** ** Properties of cheques across runs *)

(** The public cheque [id] is [c], or [c] with its flag put to [0]. *)
Definition keeps_cheque (id : string) (c : Cheque) (d : Db) : Prop :=
  public_cheques d !! id = Some c \/
  public_cheques d !! id = Some (set_active 0 c).

(** A command that does not issue a cheque under the document id [id]. *)
Definition spares (id : string) (c : Command) : Prop :=
  match cmd_action c with
  | IssueCheque i =>
      fullChequeId_of (cmd_user c) (generateShortId (random16 i)) <> id
  | _ => True
  end.

(** A command that does not issue a cheque with the code [code]. *)
Definition avoids (code : string) (c : Command) : Prop :=
  match cmd_action c with
  | IssueCheque i => generateShortId (random16 i) <> code
  | _ => True
  end.

(** A well-formed store in which the code is spent: a public cheque carries
    it, and no public cheque that carries it is ACTIVE. *)
Definition spent (code : string) (d : Db) : Prop :=
  well_formed d /\
  (exists id c, public_cheques d !! id = Some c /\ short_id c = code) /\
  (forall id c, public_cheques d !! id = Some c -> short_id c = code ->
                active c <> 1).

(** The fields that the two copies of a cheque share: all but the creation
    time and the owner's names. *)
Definition same_cheque (a b : Cheque) : Prop :=
  short_id a = short_id b /\ owner_id a = owner_id b /\
  amount a = amount b /\ active a = active b /\ anonymous a = anonymous b.

(** Every cheque of a user's collection has its copy in the public
    collection under the same id, and every public cheque its copy in the
    collection of its owner. *)
Definition copies_agree (d : Db) : Prop :=
  (forall u id c, cheques_of u d !! id = Some c ->
                  exists pc, public_cheques d !! id = Some pc /\ same_cheque c pc) /\
  (forall id pc, public_cheques d !! id = Some pc ->
                 exists c, cheques_of (owner_id pc) d !! id = Some c /\
                           same_cheque c pc).

(** A handler leaves a store that accepts every write one that does. *)
Definition keeps_reliable {A} (m : M A) : Prop :=
  forall w, reliable (faults w) -> reliable (faults (m w).2).

(** * Sample data: three users, the scenarios of the specification *)

Module Sample.

Definition alice : Profile :=
  {| first_name := "Alice"; username := "alice"; balance := 50%float;
     join_date := "2024-01-01T00:00:00.000Z" |}.

Definition bob : Profile :=
  {| first_name := "Bob"; username := "bob"; balance := 5%float;
     join_date := "2024-01-02T00:00:00.000Z" |}.

Definition carol : Profile :=
  {| first_name := "Carol"; username := "carol"; balance := 0.3%float;
     join_date := "2024-01-03T00:00:00.000Z" |}.

(** Three users, no cheque yet. *)
Definition db0 : Db :=
  {| profiles := <["uidA" := alice]> (<["uidB" := bob]> (<["uidC" := carol]> ∅));
     user_cheques := ∅;
     public_cheques := ∅ |}.

Definition sessionA (d : Db) : Session := session_of "uidA" None d.
Definition sessionB (d : Db) : Session := session_of "uidB" None d.
Definition sessionC (d : Db) : Session := session_of "uidC" None d.

(** Alice issues 20.00; the draws give the code [0123456789]. *)
Definition issue20 : CreateInput :=
  {| parsedAmount := 20%float; createIsAnonymous := false;
     random16 := [0; 1; 2; 3; 4; 5; 6; 7; 8; 9];
     now_sender := "2024-02-01T10:00:00.000Z";
     now_public := "2024-02-01T10:00:00.001Z" |}.

Definition code20 : string := "0123456789".
Definition id20 : string := "uidA-0123456789".

(** The cheque object of Alice's list of active cheques after her issue. *)
Definition cheque20 : string * Cheque := (id20, sender_cheque (sessionA db0) issue20).

(** The store after Alice's issue. *)
Definition db1 : Db := db (exec (handleCreateCheque (sessionA db0) issue20) db0 []).

(** The store after Bob has redeemed Alice's cheque. *)
Definition db2 : Db := db (exec (handleActivateCheque (sessionB db1) code20) db1 []).

(** Carol issues 0.03; the draws give the same code as Alice's. *)
Definition issue003 : CreateInput :=
  {| parsedAmount := 0.03%float; createIsAnonymous := true;
     random16 := [0; 1; 2; 3; 4; 5; 6; 7; 8; 9];
     now_sender := "2024-02-02T10:00:00.000Z";
     now_public := "2024-02-02T10:00:00.001Z" |}.

Definition id003 : string := "uidC-0123456789".

(** The store after Alice's issue and Carol's issue. *)
Definition db1c : Db := db (exec (handleCreateCheque (sessionC db1) issue003) db1 []).

(** The store after Alice's issue, Bob's redemption and Carol's issue. *)
Definition db2c : Db := db (exec (handleCreateCheque (sessionC db2) issue003) db2 []).

End Sample.

(** * Facts about binary64 comparison and subtraction *)

Module JsNumberFacts.
Import JsNumber.

Lemma SFcompare_antisym x y :
  SFcompare y x = option_map CompOpp (SFcompare x y).
Proof.
  destruct x as [sx|sx| |sx mx ex], y as [sy|sy| |sy my ey]; simpl;
    try (destruct sx); try (destruct sy); try reflexivity;
    rewrite (Z.compare_antisym ex ey), (ZC4 my mx);
    destruct (ex ?= ey); simpl; try reflexivity;
    now rewrite CompOpp_involutive.
Qed.

Lemma Prim2SF_zero : Prim2SF 0%float = S754_zero false.
Proof. reflexivity. Qed.

Lemma cond_Zopp_negb s m : cond_Zopp (negb s) m = - cond_Zopp s m.
Proof. destruct s; simpl; lia. Qed.

Lemma SFadd_opp x y : SF64add x (SFopp y) = SF64sub x y.
Proof.
  unfold SF64add, SF64sub.
  destruct x as [sx|sx| |sx mx ex], y as [sy|sy| |sy my ey]; simpl;
    try (destruct sx); try (destruct sy); try reflexivity;
    now rewrite ?cond_Zopp_negb.
Qed.

(** [x + (-y)] and [x - y] are the same number. *)
Lemma add_opp (x y : float) : (x + - y = x - y)%float.
Proof.
  apply Prim2SF_inj. now rewrite FloatAxioms.add_spec, FloatAxioms.opp_spec, FloatAxioms.sub_spec, SFadd_opp.
Qed.

(** [a <= b] excludes [a > b]. *)
Lemma leb_not_gt (a b : float) :
  (a <=? b)%float = true -> (b <? a)%float = false.
Proof.
  rewrite FloatAxioms.leb_spec, FloatAxioms.ltb_spec. unfold SFleb, SFltb.
  rewrite (SFcompare_antisym (Prim2SF a) (Prim2SF b)).
  destruct (SFcompare (Prim2SF a) (Prim2SF b)) as [[]|]; simpl; congruence.
Qed.

(** A number above [0] passes the validity test of [handleCreateCheque]. *)
Lemma positive_valid (a : float) :
  (0 <? a)%float = true ->
  isNaN a = false /\ (a <=? 0)%float = false.
Proof.
  unfold isNaN, is_nan.
  rewrite FloatAxioms.ltb_spec, FloatAxioms.leb_spec, FloatAxioms.eqb_spec, Prim2SF_zero.
  unfold SFltb, SFleb, SFeqb.
  destruct (Prim2SF a) as [s|s| |s m e] eqn:E; simpl; try discriminate;
    destruct s; simpl; try discriminate; intros _;
    rewrite ?Z.compare_refl, ?Pos.compare_cont_refl; auto.
Qed.

(** A number that passes the validity test is above [0]. *)
Lemma valid_positive (a : float) :
  isNaN a = false -> (a <=? 0)%float = false -> (0 <? a)%float = true.
Proof.
  unfold isNaN, is_nan.
  rewrite FloatAxioms.ltb_spec, FloatAxioms.leb_spec, FloatAxioms.eqb_spec, Prim2SF_zero.
  unfold SFltb, SFleb, SFeqb.
  destruct (Prim2SF a) as [s|s| |s m e] eqn:E; simpl; try discriminate;
    destruct s; simpl; try discriminate; auto.
Qed.

(** Above a balance that is not negative there are only positive amounts. *)
Lemma above_nonneg_positive (b a : float) :
  (0 <=? b)%float = true -> (b <? a)%float = true -> (0 <? a)%float = true.
Proof.
  rewrite FloatAxioms.leb_spec, !FloatAxioms.ltb_spec, Prim2SF_zero.
  unfold SFltb, SFleb.
  destruct (Prim2SF b) as [sb|sb| |sb mb eb], (Prim2SF a) as [sa|sa| |sa ma ea];
    simpl; try discriminate;
    try (destruct sb); try (destruct sa); simpl; try discriminate; auto.
Qed.

(** ** Signs of sums and differences *)

Lemma SFnonneg_leb x : SFleb (S754_zero false) x = true <-> SFnonneg x.
Proof.
  unfold SFleb. destruct x as [s|s| |s m e]; simpl; try (destruct s); simpl;
    intuition congruence.
Qed.

Lemma shr_1_nonneg mrs : 0 <= shr_m mrs -> 0 <= shr_m (shr_1 mrs).
Proof.
  destruct mrs as [m r s]. simpl. intros H.
  destruct m as [|[p|p|]|p]; simpl; lia.
Qed.

Lemma iter_pos_shr_1_nonneg p mrs :
  0 <= shr_m mrs -> 0 <= shr_m (SpecFloat.iter_pos shr_1 p mrs).
Proof.
  revert mrs. induction p as [p IH|p IH|]; intros mrs H; simpl.
  - apply IH, IH. now apply shr_1_nonneg.
  - now apply IH, IH.
  - now apply shr_1_nonneg.
Qed.

Lemma shr_fexp_nonneg prec emax m e l :
  0 <= m -> 0 <= shr_m (fst (shr_fexp prec emax m e l)).
Proof.
  intros H. unfold shr_fexp, shr.
  assert (H0 : 0 <= shr_m (shr_record_of_loc m l))
    by (destruct l as [|[]]; exact H).
  destruct (fexp prec emax (Zdigits2 m + e) - e); simpl; try exact H0.
  now apply iter_pos_shr_1_nonneg.
Qed.

Lemma round_nearest_even_nonneg m l : 0 <= m -> 0 <= round_nearest_even m l.
Proof.
  intros H. unfold round_nearest_even.
  destruct l as [|[]]; try destruct (Z.even m); lia.
Qed.

Lemma binary_round_aux_nonneg prec emax m e l :
  0 <= m -> SFnonneg (binary_round_aux prec emax false m e l).
Proof.
  intros H. unfold binary_round_aux.
  pose proof (shr_fexp_nonneg prec emax m e l H) as H1.
  destruct (shr_fexp prec emax m e l) as [mrs' e']. simpl in H1.
  pose proof (shr_fexp_nonneg prec emax _ e' loc_Exact
                (round_nearest_even_nonneg _ (loc_of_shr_record mrs') H1)) as H2.
  destruct (shr_fexp prec emax _ e' loc_Exact) as [mrs'' e'']. simpl in H2.
  destruct (shr_m mrs'') as [|q|q]; simpl; try exact I; [| lia].
  now destruct (e'' <=? emax - prec).
Qed.

Lemma binary_normalize_nonneg prec emax m e :
  0 <= m -> SFnonneg (binary_normalize prec emax m e false).
Proof.
  intros H. destruct m as [|q|q]; simpl; try exact I; [| lia].
  unfold binary_round.
  destruct (shl_align q e _) as [mz ez]. now apply binary_round_aux_nonneg.
Qed.

(** The sum of two numbers that are not negative is not negative. *)
Lemma SFadd_nonneg x y : SFnonneg x -> SFnonneg y -> SFnonneg (SF64add x y).
Proof.
  unfold SF64add, SFadd.
  destruct x as [sx|sx| |[] mx ex], y as [sy|sy| |[] my ey];
    try (destruct sx); try (destruct sy); intros Hx Hy;
    try exact I; try contradiction.
  apply binary_normalize_nonneg. unfold cond_Zopp. lia.
Qed.

(** Mantissas *)
Lemma digits2_pos_bounds (m : positive) :
  2 ^ (Z.pos (digits2_pos m) - 1) <= Z.pos m < 2 ^ Z.pos (digits2_pos m).
Proof.
  induction m as [m IH|m IH|]; simpl digits2_pos.
  - rewrite Pos2Z.inj_succ.
    replace (Z.succ (Z.pos (digits2_pos m)) - 1) with (Z.succ (Z.pos (digits2_pos m) - 1)) by lia.
    rewrite !Z.pow_succ_r by lia. lia.
  - rewrite Pos2Z.inj_succ.
    replace (Z.succ (Z.pos (digits2_pos m)) - 1) with (Z.succ (Z.pos (digits2_pos m) - 1)) by lia.
    rewrite !Z.pow_succ_r by lia. lia.
  - simpl. lia.
Qed.

Lemma iter_xO (d m : positive) : Z.pos (Pos.iter xO m d) = Z.pos m * 2 ^ Z.pos d.
Proof.
  revert m. induction d as [|d IH] using Pos.peano_ind; intros m.
  - simpl. lia.
  - rewrite Pos.iter_succ, Pos2Z.inj_succ, Z.pow_succ_r by lia.
    rewrite Pos2Z.inj_xO, IH. lia.
Qed.

Lemma shl_align_fst (m : positive) (e e' : Z) :
  e' <= e -> Z.pos (fst (shl_align m e e')) = Z.pos m * 2 ^ (e - e').
Proof.
  intros H. unfold shl_align.
  destruct (e' - e) as [|q|q] eqn:E; simpl fst.
  - replace (e - e') with 0 by lia. simpl. lia.
  - lia.
  - rewrite iter_xO. f_equal. f_equal. lia.
Qed.

(** A valid mantissa has at most [prec] digits, and exactly [prec] above
    the least exponent; exponents are not below the least one. *)
Lemma valid_finite_bounds s m e :
  valid_binary (S754_finite s m e) = true ->
  SpecFloat.emin prec emax <= e /\ Z.pos m < 2 ^ prec /\
  (SpecFloat.emin prec emax < e -> 2 ^ (prec - 1) <= Z.pos m).
Proof.
  unfold SpecFloat.valid_binary, bounded, canonical_mantissa, fexp.
  intros H. apply andb_prop in H as [H _]. apply Z.eqb_eq in H.
  pose proof (digits2_pos_bounds m) as [Hlo Hhi].
  assert (Hp : prec = 53) by reflexivity.
  repeat split.
  - lia.
  - apply Z.lt_le_trans with (1 := Hhi). apply Z.pow_le_mono_r; lia.
  - intros He. replace (prec - 1) with (Z.pos (digits2_pos m) - 1) by lia.
    exact Hlo.
Qed.

(** Subtracting a covered positive finite number leaves a number that is
    not negative. *)
Lemma SFadd_opp_nonneg (b : spec_float) (ma : positive) (ea : Z) :
  valid_binary b = true ->
  valid_binary (S754_finite false ma ea) = true ->
  SFnonneg b ->
  SFltb b (S754_finite false ma ea) = false ->
  SFnonneg (SF64add b (SFopp (S754_finite false ma ea))).
Proof.
  intros Hvb Hva Hb Hlt. unfold SF64add, SFadd, SFopp. cbn [negb].
  destruct b as [sb|[]| |[] mb eb]; try contradiction; try exact I.
  - discriminate Hlt.
  - apply binary_normalize_nonneg. unfold cond_Zopp.
    rewrite !shl_align_fst by lia.
    apply valid_finite_bounds in Hvb as (Hb1 & Hb2 & Hb3).
    apply valid_finite_bounds in Hva as (Ha1 & Ha2 & Ha3).
    unfold SFltb, SFcompare in Hlt.
    assert (Hp : 2 ^ prec = 2 * 2 ^ (prec - 1)) by reflexivity.
    destruct (eb ?= ea) eqn:E.
    + apply Z.compare_eq in E. subst eb.
      rewrite Z.min_id, Z.sub_diag. change (2 ^ 0) with 1.
      destruct (Pos.compare_cont Eq mb ma) eqn:Em; try discriminate Hlt.
      * apply Pos.compare_eq in Em. subst. lia.
      * change (Pos.compare_cont Eq mb ma) with (mb ?= ma)%positive in Em.
        apply Pos.compare_gt_iff in Em. lia.
    + discriminate Hlt.
    + apply Z.compare_gt_iff in E.
      rewrite Z.min_r by lia. rewrite Z.sub_diag. change (2 ^ 0) with 1.
      assert (H2 : 2 <= 2 ^ (eb - ea)).
      { change 2 with (2 ^ 1) at 1. apply Z.pow_le_mono_r; lia. }
      specialize (Hb3 ltac:(lia)). nia.
Qed.

Lemma leb0_SFnonneg (x : float) :
  (0 <=? x)%float = true <-> SFnonneg (Prim2SF x).
Proof.
  rewrite FloatAxioms.leb_spec, Prim2SF_zero. apply SFnonneg_leb.
Qed.

(** [0 <= x] and [0 <= y] give [0 <= x + y]. *)
Lemma add_nonneg (x y : float) :
  (0 <=? x)%float = true -> (0 <=? y)%float = true ->
  (0 <=? x + y)%float = true.
Proof.
  rewrite !leb0_SFnonneg, FloatAxioms.add_spec. apply SFadd_nonneg.
Qed.

Lemma or_zero_nonneg (b : float) :
  (0 <=? b)%float = true -> (0 <=? JsNumber.or_zero b)%float = true.
Proof.
  intros H. unfold JsNumber.or_zero. now destruct (JsNumber.truthy b).
Qed.

Lemma Prim2SF_infinity : Prim2SF infinity = S754_infinity false.
Proof. reflexivity. Qed.

(** A finite number above [0] is a positive finite binary64 value. *)
Lemma positive_finite_spec (a : float) :
  (0 <? a)%float = true -> PrimFloat.is_finite a = true ->
  exists m e, Prim2SF a = S754_finite false m e.
Proof.
  unfold PrimFloat.is_finite, is_infinity, is_nan.
  rewrite FloatAxioms.ltb_spec, !FloatAxioms.eqb_spec, FloatAxioms.abs_spec,
    Prim2SF_zero, Prim2SF_infinity.
  unfold SFltb, SFeqb.
  destruct (Prim2SF a) as [s|s| |s m e]; simpl; try discriminate;
    destruct s; simpl; try discriminate; eauto.
Qed.

(** A covered positive finite amount leaves a balance that is not negative:
    [0 <= b], [0 < a], not [a > b] give [0 <= b + (-a)]. *)
Lemma covered_sub_nonneg (b a : float) :
  (0 <=? b)%float = true ->
  (0 <? a)%float = true -> PrimFloat.is_finite a = true ->
  (b <? a)%float = false ->
  (0 <=? b + - a)%float = true.
Proof.
  intros Hb Hpos Hfin Hlt.
  destruct (positive_finite_spec a Hpos Hfin) as (m & e & Ha).
  apply leb0_SFnonneg in Hb. apply leb0_SFnonneg.
  rewrite FloatAxioms.ltb_spec, Ha in Hlt.
  rewrite FloatAxioms.add_spec, FloatAxioms.opp_spec, Ha.
  apply SFadd_opp_nonneg; try assumption.
  - apply Prim2SF_valid.
  - rewrite <- Ha. apply Prim2SF_valid.
Qed.

End JsNumberFacts.

(** * Lookups in an updated store *)

Lemma cheques_of_put_user_cheque (u uid id : string) (c : Cheque) (d : Db) :
  cheques_of u (put_user_cheque uid id c d) =
  if decide (u = uid) then <[id := c]> (cheques_of uid d) else cheques_of u d.
Proof.
  unfold cheques_of at 1. simpl. case_decide as E.
  - subst u. now rewrite lookup_insert_eq.
  - now rewrite lookup_insert_ne by congruence.
Qed.

Lemma lookup_put_user_cheque_eq (uid id : string) (c : Cheque) (d : Db) :
  cheques_of uid (put_user_cheque uid id c d) !! id = Some c.
Proof.
  rewrite cheques_of_put_user_cheque. rewrite decide_True by reflexivity.
  apply lookup_insert_eq.
Qed.

Lemma lookup_put_user_cheque_ne (u k uid id : string) (c : Cheque) (d : Db) :
  (u, k) <> (uid, id) ->
  cheques_of u (put_user_cheque uid id c d) !! k = cheques_of u d !! k.
Proof.
  intros Hne. rewrite cheques_of_put_user_cheque. case_decide as E.
  - subst u. apply lookup_insert_ne. congruence.
  - reflexivity.
Qed.

Lemma cheques_of_put_public_cheque (u id : string) (c : Cheque) (d : Db) :
  cheques_of u (put_public_cheque id c d) = cheques_of u d.
Proof. reflexivity. Qed.

Lemma cheques_of_put_profile (u uid : string) (p : Profile) (d : Db) :
  cheques_of u (put_profile uid p d) = cheques_of u d.
Proof. reflexivity. Qed.

(** * Running the handlers *)

Lemma reliable_nil : reliable [].
Proof. constructor. Qed.

Lemma reliable_tail fs : reliable fs -> reliable (tail fs).
Proof. destruct 1; [constructor | assumption]. Qed.

Lemma bind_run {A B} (m : M A) (k : A -> M B) (w : World) :
  (m ≫= k) w = match m w with
               | (Ok a, w') => k a w'
               | (Throw, w') => (Throw, w')
               end.
Proof. reflexivity. Qed.

Lemma write_accepted f d fs l d' :
  reliable fs -> f d = Some d' ->
  write f (mkWorld d fs l) = (Ok tt, mkWorld d' (tail fs) l).
Proof.
  intros Hfs Hf. unfold write; simpl. rewrite Hf.
  destruct Hfs as [|b fs' Hb _]; [reflexivity | now subst b].
Qed.

Lemma showMessage_run m d fs l :
  showMessage m (mkWorld d fs l) = (Ok tt, mkWorld d fs (l ++ [m])).
Proof. reflexivity. Qed.

(** [changeBalance] on a reliable store, for a user with a profile. *)
Lemma changeBalance_run s a d fs l p :
  userId s <> "" -> reliable fs -> profiles d !! userId s = Some p ->
  changeBalance s a (mkWorld d fs l) =
  (Ok tt,
      mkWorld (put_profile (userId s) (set_balance (userBalance s + a)%float p) d)
           (tail fs) (l ++ [MsgBalanceUpdated a])).
Proof.
  intros Hu Hfs Hp. unfold changeBalance.
  apply String.eqb_neq in Hu. rewrite Hu.
  unfold try_catch, updateDoc_balance. rewrite bind_run.
  erewrite write_accepted; [reflexivity | assumption |].
  simpl. now rewrite Hp.
Qed.

(** * Issue *)

Section Issue.
Variables (s : Session) (i : CreateInput) (d : Db) (fs : list bool).

(** The world after a successful issue: the balance written is
    [userBalance - amount], and the cheque is stored twice under one id. *)
Lemma handleCreateCheque_run (p : Profile) :
  userId s <> "" ->
  reliable fs ->
  profiles d !! userId s = Some p ->
  (0 <? parsedAmount i)%float = true ->
  (parsedAmount i <=? userBalance s)%float = true ->
  exec (handleCreateCheque s i) d fs =
  mkWorld
    (put_public_cheque
       (fullChequeId_of (userId s) (generateShortId (random16 i)))
       (public_cheque s i)
       (put_user_cheque (userId s)
          (fullChequeId_of (userId s) (generateShortId (random16 i)))
          (sender_cheque s i)
          (put_profile (userId s)
             (set_balance (userBalance s - parsedAmount i)%float p) d)))
    (tail (tail (tail fs)))
    [MsgBalanceUpdated (- parsedAmount i)%float;
     MsgChequeCreated (parsedAmount i) (generateShortId (random16 i))].
Proof.
  intros Hu Hfs Hp Hpos Hle.
  unfold exec, start, handleCreateCheque.
  pose proof Hu as Hu'. apply String.eqb_neq in Hu'. rewrite Hu'.
  destruct (JsNumberFacts.positive_valid _ Hpos) as [-> ->].
  rewrite (JsNumberFacts.leb_not_gt _ _ Hle).
  cbv beta iota zeta delta [orb try_catch]. rewrite bind_run.
  erewrite changeBalance_run by eassumption.
  rewrite bind_run. unfold setDoc at 1.
  erewrite write_accepted; [| now apply reliable_tail | reflexivity].
  rewrite bind_run. unfold setDoc.
  erewrite write_accepted; [| now do 2 apply reliable_tail | reflexivity].
  rewrite showMessage_run. simpl.
  now rewrite JsNumberFacts.add_opp.
Qed.

End Issue.

(** * Claims about issue *)

(** When the view of the balance is current, a positive amount covered by
    the balance leaves the view unchanged by [x || 0]. *)
Lemma or_zero_covering (a b : float) :
  (0 <? a)%float = true -> (a <=? b)%float = true -> JsNumber.or_zero b = b.
Proof.
  unfold JsNumber.or_zero, JsNumber.truthy, JsNumber.isNaN, is_nan.
  rewrite FloatAxioms.ltb_spec, FloatAxioms.leb_spec, !FloatAxioms.eqb_spec,
    JsNumberFacts.Prim2SF_zero.
  unfold SFltb, SFleb, SFeqb.
  destruct (Prim2SF a) as [sa|sa| |sa ma ea], (Prim2SF b) as [sb|sb| |sb mb eb];
    simpl; try discriminate;
    try (destruct sa); try (destruct sb); simpl; try discriminate;
    rewrite ?Z.compare_refl, ?Pos.compare_cont_refl; reflexivity.
Qed.

(** C1, as amended.  Issue with [0 < amount <= balance], from a component
    whose view of the balance is current and on a store that accepts the
    writes: the owner's stored balance becomes [balance - amount], the
    subtraction of JavaScript numbers (binary64, rounded), and one cheque
    document is written, under the id [`${owner}-${code}`], in the owner's
    collection and in the public collection, with [active = 1] and the
    amount; no other profile or cheque changes.  Each collection grows by
    exactly one cheque when it had no document under that id. *)
Theorem issue_debits_and_creates_one_active_cheque
    (s : Session) (i : CreateInput) (d : Db) (fs : list bool) (p : Profile) :
  userId s <> "" ->
  reliable fs ->
  profiles d !! userId s = Some p ->
  userBalance s = JsNumber.or_zero (balance p) ->
  (0 <? parsedAmount i)%float = true ->
  (parsedAmount i <=? balance p)%float = true ->
  let d' := db (exec (handleCreateCheque s i) d fs) in
  let id := fullChequeId_of (userId s) (generateShortId (random16 i)) in
  balance <$> profiles d' !! userId s = Some (balance p - parsedAmount i)%float /\
  (exists c, cheques_of (userId s) d' !! id = Some c /\
             active c = 1 /\ amount c = parsedAmount i /\ owner_id c = userId s) /\
  (exists c, public_cheques d' !! id = Some c /\
             active c = 1 /\ amount c = parsedAmount i /\ owner_id c = userId s) /\
  (forall u k, (u, k) <> (userId s, id) -> cheques_of u d' !! k = cheques_of u d !! k) /\
  (forall k, k <> id -> public_cheques d' !! k = public_cheques d !! k) /\
  (forall u, u <> userId s -> profiles d' !! u = profiles d !! u) /\
  (cheques_of (userId s) d !! id = None ->
   size (cheques_of (userId s) d') = S (size (cheques_of (userId s) d))) /\
  (public_cheques d !! id = None ->
   size (public_cheques d') = S (size (public_cheques d))).
Proof.
  intros Hu Hfs Hp Hview Hpos Hle d' id.
  rewrite (or_zero_covering _ _ Hpos Hle) in Hview.
  assert (Hle' : (parsedAmount i <=? userBalance s)%float = true) by now rewrite Hview.
  subst d'. rewrite (handleCreateCheque_run s i d fs p Hu Hfs Hp Hpos Hle').
  cbn [db]. rewrite Hview. fold id.
  split; [| split; [| split; [| split; [| split; [| split; [| split]]]]]].
  - cbn. now rewrite lookup_insert_eq.
  - exists (sender_cheque s i).
    rewrite cheques_of_put_public_cheque, lookup_put_user_cheque_eq. now split.
  - exists (public_cheque s i). cbn. now rewrite lookup_insert_eq.
  - intros u k Hk.
    now rewrite cheques_of_put_public_cheque, lookup_put_user_cheque_ne.
  - intros k Hk. cbn. now rewrite lookup_insert_ne.
  - intros u Hne. cbn. now rewrite lookup_insert_ne.
  - intros Hfresh.
    rewrite cheques_of_put_public_cheque, cheques_of_put_user_cheque.
    rewrite decide_True by reflexivity. rewrite cheques_of_put_profile.
    now apply map_size_insert_None.
  - intros Hfresh. cbn [public_cheques put_public_cheque put_user_cheque put_profile].
    now apply map_size_insert_None.
Qed.

(** The scenario of the specification: balance 50.00, issue 20.00. *)
Lemma issue_debits_and_creates_one_active_cheque_witness :
  let d' := db (exec (handleCreateCheque (Sample.sessionA Sample.db0) Sample.issue20)
                  Sample.db0 []) in
  balance <$> profiles d' !! "uidA" = Some 30%float /\
  (exists c, public_cheques d' !! Sample.id20 = Some c /\
             active c = 1 /\ amount c = 20%float /\ owner_id c = "uidA") /\
  size (public_cheques d') = 1%nat.
Proof.
  pose proof (issue_debits_and_creates_one_active_cheque
                (Sample.sessionA Sample.db0) Sample.issue20 Sample.db0 []
                Sample.alice) as H.
  destruct H as (Hb & _ & Hc & _ & _ & _ & _ & Hsize); try reflexivity.
  - discriminate.
  - apply reliable_nil.
  - split; [exact Hb | split; [exact Hc | exact (Hsize eq_refl)]].
Defined.

(** C1, counterexample.  The debit is a rounded subtraction and the cheque
    is written with [setDoc].  With a balance of 50.00, an issue of [1e-17]
    meets [0 < amount <= balance] and succeeds: a cheque of that amount is
    ACTIVE and the stored balance is still 50.00.  With a balance of 30.00
    and Alice's cheque of 20.00 in the store, a second issue of 20.00 that
    draws the same code debits 20.00 again and writes over her cheque: the
    public collection still holds one cheque. *)
Lemma issue_leaves_balance_or_cheque_count :
  let tiny := {| parsedAmount := 1e-17%float; createIsAnonymous := false;
                 random16 := [0; 1; 2; 3; 4; 5; 6; 7; 8; 9];
                 now_sender := "2024-02-01T10:00:00.000Z";
                 now_public := "2024-02-01T10:00:00.001Z" |} in
  let w := exec (handleCreateCheque (Sample.sessionA Sample.db0) tiny) Sample.db0 [] in
  let w' := exec (handleCreateCheque (Sample.sessionA Sample.db1) Sample.issue20)
              Sample.db1 [] in
  ((0 <? 1e-17)%float = true /\ (1e-17 <=? 50)%float = true /\
   balance <$> profiles Sample.db0 !! "uidA" = Some 50%float /\
   balance <$> profiles (db w) !! "uidA" = Some 50%float /\
   (fun c => (active c, amount c)) <$> public_cheques (db w) !! Sample.id20
     = Some (1, 1e-17%float) /\
   log w = [MsgBalanceUpdated (- 1e-17)%float;
            MsgChequeCreated 1e-17%float Sample.code20]) /\
  (balance <$> profiles Sample.db1 !! "uidA" = Some 30%float /\
   size (public_cheques Sample.db1) = 1%nat /\
   balance <$> profiles (db w') !! "uidA" = Some 10%float /\
   size (public_cheques (db w')) = 1%nat /\
   size (cheques_of "uidA" (db w')) = 1%nat).
Proof. vm_compute. repeat split. Qed.

(** The view [balance || 0] of a balance that is not negative is below every
    amount the balance is below. *)
Lemma or_zero_below (b a : float) :
  (0 <=? b)%float = true -> (b <? a)%float = true ->
  (JsNumber.or_zero b <? a)%float = true.
Proof.
  intros Hb Hlt. unfold JsNumber.or_zero.
  destruct (JsNumber.truthy b); [assumption |].
  now apply JsNumberFacts.above_nonneg_positive with b.
Qed.

(** C6, as amended.  Issue of an amount (above [0]) that is above the
    balance the component holds in its view: the only effect is the message
    for insufficient funds; the store is unchanged, so there is no debit and
    no cheque, whatever the store would have answered to a write.  With the
    listeners up to date the view is the stored balance (or [0] for a falsy
    one), so an amount above a stored balance that is not negative is
    refused in the same way. *)
Theorem issue_above_balance_insufficient_funds
    (s : Session) (i : CreateInput) (d : Db) (fs : list bool) :
  userId s <> "" ->
  (0 <? parsedAmount i)%float = true ->
  (userBalance s <? parsedAmount i)%float = true ->
  exec (handleCreateCheque s i) d fs = mkWorld d fs [MsgInsufficientFunds] /\
  (forall mail p l,
     profiles d !! userId s = Some p ->
     (0 <=? balance p)%float = true ->
     (balance p <? parsedAmount i)%float = true ->
     run_command (mkCommand (userId s) mail (IssueCheque i)) (mkWorld d fs l)
     = (Ok tt, mkWorld d fs (l ++ [MsgInsufficientFunds])%list)).
Proof.
  intros Hu Hpos Hlt.
  assert (Hrun : forall s' w, userId s' <> "" ->
            (userBalance s' <? parsedAmount i)%float = true ->
            handleCreateCheque s' i w
            = (Ok tt, mkWorld (db w) (faults w) (log w ++ [MsgInsufficientFunds])%list)).
  { intros s' w Hu' Hlt'. unfold handleCreateCheque.
    apply String.eqb_neq in Hu'. rewrite Hu'.
    destruct (JsNumberFacts.positive_valid _ Hpos) as [-> ->].
    rewrite Hlt'. reflexivity. }
  split.
  - unfold exec, start. now rewrite Hrun.
  - intros mail p l Hp Hb Hlt'. unfold run_command.
    cbn [cmd_action cmd_user cmd_email db].
    rewrite Hrun; [reflexivity | exact Hu |].
    unfold session_of, onSnapshot. cbn [userBalance userId mounted].
    rewrite Hp. now apply or_zero_below.
Qed.

(** The scenario of the specification: balance 5.00, issue 10.00. *)
Lemma issue_above_balance_insufficient_funds_witness :
  exec (handleCreateCheque (Sample.sessionB Sample.db0)
          {| parsedAmount := 10%float; createIsAnonymous := false;
             random16 := []; now_sender := ""; now_public := "" |})
       Sample.db0 [false; true]
  = mkWorld Sample.db0 [false; true] [MsgInsufficientFunds].
Proof.
  exact (proj1 (issue_above_balance_insufficient_funds
                  (Sample.sessionB Sample.db0)
                  {| parsedAmount := 10%float; createIsAnonymous := false;
                     random16 := []; now_sender := ""; now_public := "" |}
                  Sample.db0 [false; true]
                  ltac:(intros [=]) eq_refl eq_refl)).
Defined.

(** C6, counterexample.  The test reads the component's state, not the
    store.  Alice's stored balance is 30.00 after her issue of 20.00; a
    component that still holds the view 50.00 issues 40.00: the amount is
    above the stored balance, the issue succeeds, a cheque of 40.00 is ACTIVE
    and the stored balance becomes 10.00. *)
Lemma issue_above_stored_balance_succeeds :
  let i := {| parsedAmount := 40%float; createIsAnonymous := false;
              random16 := [9; 8; 7; 6; 5; 4; 3; 2; 1; 0];
              now_sender := "2024-02-01T10:00:01.000Z";
              now_public := "2024-02-01T10:00:01.001Z" |} in
  let w := exec (handleCreateCheque (Sample.sessionA Sample.db0) i) Sample.db1 [] in
  balance <$> profiles Sample.db1 !! "uidA" = Some 30%float /\
  (30 <? parsedAmount i)%float = true /\
  userBalance (Sample.sessionA Sample.db0) = 50%float /\
  log w = [MsgBalanceUpdated (-40)%float; MsgChequeCreated 40%float "9876543210"] /\
  balance <$> profiles (db w) !! "uidA" = Some 10%float /\
  (fun c => (active c, amount c)) <$> public_cheques (db w) !! "uidA-9876543210"
    = Some (1, 40%float).
Proof. vm_compute. repeat split. Qed.

(** * Queries on the public collection *)

Lemma In_docs_in_order (m : gmap string Cheque) (id : string) (c : Cheque) :
  In (id, c) (docs_in_order m) <-> m !! id = Some c.
Proof.
  unfold docs_in_order. rewrite <- list_elem_of_In.
  rewrite (merge_sort_Permutation by_id (map_to_list m)).
  apply elem_of_map_to_list.
Qed.

Lemma In_where_short_id (code : string) (d : Db) (id : string) (c : Cheque) :
  In (id, c) (where_short_id code d) <->
  public_cheques d !! id = Some c /\ short_id c = code.
Proof.
  unfold where_short_id. rewrite filter_In, In_docs_in_order. simpl.
  now rewrite String.eqb_eq.
Qed.

(** The loop stops at a document of the query result whose flag is [1]. *)
Lemma first_active_Some (docs : list (string * Cheque)) id c :
  first_active docs = Some (id, c) -> In (id, c) docs /\ active c = 1.
Proof.
  unfold first_active. intros H. apply find_some in H as [Hin Hact].
  split; [assumption | now apply Z.eqb_eq in Hact].
Qed.

(** It finds nothing exactly when no document of the result has flag [1]. *)
Lemma first_active_None (docs : list (string * Cheque)) :
  first_active docs = None <-> (forall x, In x docs -> active x.2 <> 1).
Proof.
  unfold first_active. split.
  - intros H x Hin Hact. apply (find_none _ _ H) in Hin.
    apply Z.eqb_neq in Hin. contradiction.
  - intros H. destruct (find _ docs) as [x|] eqn:E; [| reflexivity].
    apply find_some in E as [Hin Hact]. apply Z.eqb_eq in Hact.
    now apply H in Hin.
Qed.

(** It is the first such document, in the order of the result. *)
Lemma first_active_app (l1 l2 : list (string * Cheque)) (x : string * Cheque) :
  Forall (fun y => active y.2 <> 1) l1 -> active x.2 = 1 ->
  first_active (l1 ++ x :: l2) = Some x.
Proof.
  intros Hl1 Hx. unfold first_active.
  induction Hl1 as [|y l1 Hy _ IH]; simpl.
  - now rewrite Hx.
  - apply Z.eqb_neq in Hy. now rewrite Hy.
Qed.

(** When at most one active cheque carries the code, the code resolves to
    that cheque. *)
Lemma first_active_unique (code : string) (d : Db) id c :
  public_cheques d !! id = Some c -> short_id c = code -> active c = 1 ->
  (forall id' c', public_cheques d !! id' = Some c' -> short_id c' = code ->
                  active c' = 1 -> id' = id) ->
  first_active (where_short_id code d) = Some (id, c).
Proof.
  intros Hc Hcode Hact Huniq.
  destruct (first_active (where_short_id code d)) as [[id' c']|] eqn:E.
  - apply first_active_Some in E as [Hin Hact'].
    apply In_where_short_id in Hin as [Hc' Hcode'].
    assert (id' = id) by eauto. subst id'. congruence.
  - exfalso. apply (proj1 (first_active_None _) E (id, c)); [| assumption].
    now apply In_where_short_id.
Qed.

(** * Redeem *)

Section Redeem.
Variables (s : Session) (code : string) (d : Db) (fs : list bool).
Hypothesis signed_in : userId s <> "".
Hypothesis code_entered : code <> "".

Lemma handleActivateCheque_unfold (w : World) :
  db w = d ->
  handleActivateCheque s code w =
  try_catch
    (match where_short_id code d with
     | [] => showMessage MsgChequeDoesNotExist
     | _ =>
         match first_active (where_short_id code d) with
         | None => showMessage MsgChequeActivatedOrDeleted
         | Some (fullChequeId, chequeData) =>
             if String.eqb (owner_id chequeData) (userId s) then
               showMessage MsgOwnCheque
             else
               updateDoc_active (PublicChequeRef fullChequeId) 0;;
               updateDoc_active
                 (SenderChequeRef (owner_id chequeData) fullChequeId) 0;;
               changeBalance s (amount chequeData);;
               showMessage (messageText chequeData)
         end
     end)
    (showMessage MsgActivateError) w.
Proof.
  intros <-. unfold handleActivateCheque.
  apply String.eqb_neq in signed_in, code_entered.
  rewrite signed_in, code_entered.
  unfold try_catch, getDocs_short_id, read. rewrite bind_run.
  reflexivity.
Qed.

(** No document carries the code. *)
Lemma handleActivateCheque_unknown :
  where_short_id code d = [] ->
  exec (handleActivateCheque s code) d fs = mkWorld d fs [MsgChequeDoesNotExist].
Proof.
  intros H. unfold exec. rewrite handleActivateCheque_unfold by reflexivity.
  now rewrite H.
Qed.

(** Documents carry the code, none with flag [1]. *)
Lemma handleActivateCheque_inactive :
  where_short_id code d <> [] ->
  first_active (where_short_id code d) = None ->
  exec (handleActivateCheque s code) d fs =
  mkWorld d fs [MsgChequeActivatedOrDeleted].
Proof.
  intros Hne H. unfold exec. rewrite handleActivateCheque_unfold by reflexivity.
  rewrite H. now destruct (where_short_id code d).
Qed.

(** The code resolves to a cheque of the caller. *)
Lemma handleActivateCheque_own id c :
  first_active (where_short_id code d) = Some (id, c) ->
  owner_id c = userId s ->
  exec (handleActivateCheque s code) d fs = mkWorld d fs [MsgOwnCheque].
Proof.
  intros H Hown. unfold exec. rewrite handleActivateCheque_unfold by reflexivity.
  rewrite H. apply String.eqb_eq in Hown. rewrite Hown.
  destruct (where_short_id code d); [discriminate H | reflexivity].
Qed.

(** The code resolves to a cheque of another user, and every write is
    accepted. *)
Lemma handleActivateCheque_run id c pc p :
  reliable fs ->
  first_active (where_short_id code d) = Some (id, c) ->
  owner_id c <> userId s ->
  cheques_of (owner_id c) d !! id = Some pc ->
  profiles d !! userId s = Some p ->
  exec (handleActivateCheque s code) d fs =
  mkWorld
  (put_profile (userId s) (set_balance (userBalance s + amount c)%float p)
     (put_user_cheque (owner_id c) id (set_active 0 pc)
        (put_public_cheque id (set_active 0 c) d)))
  (tail (tail (tail fs)))
    [MsgBalanceUpdated (amount c); messageText c].
Proof.
  intros Hfs H Hown Hpc Hp.
  unfold exec. rewrite handleActivateCheque_unfold by reflexivity.
  rewrite H. apply String.eqb_neq in Hown. rewrite Hown.
  pose proof (first_active_Some _ _ _ H) as [Hin _].
  apply In_where_short_id in Hin as [Hc _].
  destruct (where_short_id code d) as [|x docs]; [discriminate H |].
  unfold try_catch, start. rewrite bind_run. unfold updateDoc_active at 1.
  erewrite write_accepted; [| assumption | simpl; rewrite Hc; reflexivity].
  rewrite bind_run. unfold updateDoc_active.
  erewrite write_accepted;
    [| now apply reliable_tail
     | rewrite cheques_of_put_public_cheque, Hpc; reflexivity].
  rewrite bind_run.
  erewrite changeBalance_run;
    [| assumption | now do 2 apply reliable_tail | simpl; exact Hp].
  rewrite showMessage_run. reflexivity.
Qed.

End Redeem.

(** * Claims about redeem *)

(** C2, as amended.  The code resolves to an ACTIVE cheque of another user,
    the redeemer's view of the balance is current and the store accepts the
    writes of the call: the cheque's flag goes from [1] to [0], in the public
    collection and in the owner's, its amount is untouched, and the
    redeemer's stored balance becomes [balance + amount] (the addition of
    JavaScript numbers). *)
Theorem redeem_deactivates_and_credits
    (s : Session) (code : string) (d : Db) (fs : list bool)
    (id : string) (c pc : Cheque) (p : Profile) :
  userId s <> "" ->
  code <> "" ->
  reliable fs ->
  first_active (where_short_id code d) = Some (id, c) ->
  owner_id c <> userId s ->
  cheques_of (owner_id c) d !! id = Some pc ->
  profiles d !! userId s = Some p ->
  userBalance s = balance p ->
  let d' := db (exec (handleActivateCheque s code) d fs) in
  active c = 1 /\
  public_cheques d' !! id = Some (set_active 0 c) /\
  cheques_of (owner_id c) d' !! id = Some (set_active 0 pc) /\
  balance <$> profiles d' !! userId s = Some (balance p + amount c)%float.
Proof.
  intros Hu Hcode Hfs Hres Hown Hpc Hp Hview d'. subst d'.
  rewrite (handleActivateCheque_run s code d fs Hu Hcode id c pc p) by assumption.
  cbn [db]. rewrite cheques_of_put_profile, lookup_put_user_cheque_eq.
  cbn. rewrite !lookup_insert_eq, Hview.
  repeat split. now apply first_active_Some in Hres.
Qed.

(** Bob redeems the cheque Alice issued: 5.00 + 20.00. *)
Lemma redeem_deactivates_and_credits_witness :
  let d' := db (exec (handleActivateCheque (Sample.sessionB Sample.db1) Sample.code20)
                  Sample.db1 []) in
  active <$> public_cheques d' !! Sample.id20 = Some 0 /\
  balance <$> profiles d' !! "uidB" = Some 25%float.
Proof.
  destruct (redeem_deactivates_and_credits
              (Sample.sessionB Sample.db1) Sample.code20 Sample.db1 []
              Sample.id20 (public_cheque (Sample.sessionA Sample.db0) Sample.issue20)
              (sender_cheque (Sample.sessionA Sample.db0) Sample.issue20) Sample.bob)
    as (_ & Hpub & _ & Hbal); try reflexivity.
  - discriminate.
  - discriminate.
  - apply reliable_nil.
  - discriminate.
  - split; [now rewrite Hpub | exact Hbal].
Defined.

(** C2, counterexample.  The flag and the credit are separate writes.  When
    the store rejects the third write of the call, Alice's cheque is
    deactivated in both collections, Bob's balance is still 5.00, and Bob is
    told the cheque was activated; when it rejects the second, the public
    copy is deactivated, the owner's copy is still active and nothing is
    credited. *)
Lemma redeem_not_atomic :
  let w := exec (handleActivateCheque (Sample.sessionB Sample.db1) Sample.code20)
             Sample.db1 [false; false; true] in
  let w' := exec (handleActivateCheque (Sample.sessionB Sample.db1) Sample.code20)
              Sample.db1 [false; true] in
  (active <$> public_cheques (db w) !! Sample.id20 = Some 0 /\
   active <$> cheques_of "uidA" (db w) !! Sample.id20 = Some 0 /\
   balance <$> profiles (db w) !! "uidB" = Some 5%float /\
   log w = [MsgBalanceError;
            MsgActivatedFrom (Some "Alice") (Some "user-uidA") 20%float]) /\
  (active <$> public_cheques (db w') !! Sample.id20 = Some 0 /\
   active <$> cheques_of "uidA" (db w') !! Sample.id20 = Some 1 /\
   balance <$> profiles (db w') !! "uidB" = Some 5%float /\
   log w' = [MsgActivateError]).
Proof. vm_compute. repeat split. Qed.

(** C4, as amended.  The code resolves to an ACTIVE cheque issued by the
    caller (the first document of the query result whose flag is [1]): the
    only effect is the message that one's own cheque cannot be activated;
    the store is unchanged, so the cheque is still ACTIVE and no balance is
    credited, whatever the store would have answered to a write. *)
Theorem redeem_own_cheque_refused
    (s : Session) (code : string) (d : Db) (fs : list bool)
    (id : string) (c : Cheque) :
  userId s <> "" ->
  code <> "" ->
  first_active (where_short_id code d) = Some (id, c) ->
  owner_id c = userId s ->
  exec (handleActivateCheque s code) d fs = mkWorld d fs [MsgOwnCheque] /\
  public_cheques d !! id = Some c /\ active c = 1.
Proof.
  intros Hu Hcode Hres Hown. split.
  - now apply handleActivateCheque_own with id c.
  - apply first_active_Some in Hres as [Hin Hact].
    now apply In_where_short_id in Hin as [Hc _].
Qed.

(** Alice enters the code of her own cheque. *)
Lemma redeem_own_cheque_refused_witness :
  exec (handleActivateCheque (Sample.sessionA Sample.db1) Sample.code20)
       Sample.db1 [false; true]
  = mkWorld Sample.db1 [false; true] [MsgOwnCheque].
Proof.
  apply (redeem_own_cheque_refused
           (Sample.sessionA Sample.db1) Sample.code20 Sample.db1 [false; true]
           Sample.id20 (public_cheque (Sample.sessionA Sample.db0) Sample.issue20));
    try reflexivity; intros [=].
Defined.

(** C4, counterexample.  The refusal protects the cheque the code resolves
    to, not every ACTIVE cheque of the caller.  Alice's cheque and Carol's
    are ACTIVE and carry the same code; Alice's comes first in the query
    result.  Carol enters the code of her own cheque: Alice's cheque is
    redeemed and Carol is credited its 20.00. *)
Lemma redeem_own_code_credits_issuer :
  let w := exec (handleActivateCheque (Sample.sessionC Sample.db1c) Sample.code20)
             Sample.db1c [] in
  (fun c => (owner_id c, short_id c, active c))
    <$> public_cheques Sample.db1c !! Sample.id003
    = Some ("uidC", Sample.code20, 1) /\
  userId (Sample.sessionC Sample.db1c) = "uidC" /\
  log w = [MsgBalanceUpdated 20%float;
           MsgActivatedFrom (Some "Alice") (Some "user-uidA") 20%float] /\
  balance <$> profiles Sample.db1c !! "uidC" = Some (0.3 - 0.03)%float /\
  balance <$> profiles (db w) !! "uidC" = Some (0.3 - 0.03 + 20)%float /\
  active <$> public_cheques (db w) !! Sample.id20 = Some 0 /\
  active <$> public_cheques (db w) !! Sample.id003 = Some 1.
Proof. vm_compute. repeat split. Qed.

(** C3, as amended.  A non-empty code that resolves to no ACTIVE cheque:
    redeem changes nothing in the store and shows one message.  The message
    says that the cheque does not exist when no cheque carries the code, and
    that the cheque was activated or deleted when cheques carry it; redeemed
    and cancelled cheques are both just cheques whose flag is [0], so these
    two cases give the same message. *)
Theorem redeem_without_active_cheque
    (s : Session) (code : string) (d : Db) (fs : list bool) :
  userId s <> "" ->
  code <> "" ->
  (forall id c, public_cheques d !! id = Some c -> short_id c = code ->
                active c <> 1) ->
  exists m,
    exec (handleActivateCheque s code) d fs = mkWorld d fs [m] /\
    ((m = MsgChequeDoesNotExist /\
      forall id c, public_cheques d !! id = Some c -> short_id c <> code) \/
     (m = MsgChequeActivatedOrDeleted /\
      exists id c, public_cheques d !! id = Some c /\ short_id c = code /\
                   active c <> 1)).
Proof.
  intros Hu Hcode Hnone.
  assert (Hfa : first_active (where_short_id code d) = None).
  { apply first_active_None. intros [id c] Hin.
    apply In_where_short_id in Hin as [Hc Hsc]. simpl. eauto. }
  destruct (where_short_id code d) as [|[id c] docs] eqn:E.
  - exists MsgChequeDoesNotExist. split.
    + now apply handleActivateCheque_unknown.
    + left. split; [reflexivity |]. intros id c Hc Hsc.
      assert (Hin : In (id, c) (where_short_id code d))
        by now apply In_where_short_id.
      now rewrite E in Hin.
  - exists MsgChequeActivatedOrDeleted. split.
    + apply handleActivateCheque_inactive; try assumption.
      * now rewrite E.
      * now rewrite E.
    + right. split; [reflexivity |].
      assert (Hin : In (id, c) (where_short_id code d)) by (rewrite E; now left).
      apply In_where_short_id in Hin as [Hc Hsc]. exists id, c. eauto.
Qed.

(** After Bob's redemption, Alice's code resolves to no ACTIVE cheque. *)
Lemma redeem_without_active_cheque_witness :
  exists m,
    exec (handleActivateCheque (Sample.sessionB Sample.db2) Sample.code20)
         Sample.db2 []
    = mkWorld Sample.db2 [] [m].
Proof.
  destruct (redeem_without_active_cheque
              (Sample.sessionB Sample.db2) Sample.code20 Sample.db2 [])
    as (m & Hm & _).
  - intros [=].
  - intros [=].
  - intros id c Hc Hsc.
    assert (Hin : In (id, c) (where_short_id Sample.code20 Sample.db2))
      by (apply In_where_short_id; split; assumption).
    vm_compute in Hin. destruct Hin as [[= <- <-] | []]. intros [=].
  - exists m. exact Hm.
Defined.

(** C3, counterexample.  In the store where Alice's cheque has been redeemed,
    neither her code nor a code never issued resolves to an ACTIVE cheque,
    and the caller is shown two different messages. *)
Lemma redeem_unknown_and_redeemed_differ :
  let redeemed := exec (handleActivateCheque (Sample.sessionB Sample.db2)
                          Sample.code20) Sample.db2 [] in
  let unknown := exec (handleActivateCheque (Sample.sessionB Sample.db2)
                         "ffffffffff") Sample.db2 [] in
  first_active (where_short_id Sample.code20 Sample.db2) = None /\
  first_active (where_short_id "ffffffffff" Sample.db2) = None /\
  log redeemed = [MsgChequeActivatedOrDeleted] /\
  log unknown = [MsgChequeDoesNotExist] /\
  log redeemed <> log unknown.
Proof. vm_compute. repeat split. intros [=]. Qed.

(** C10, as amended.  Several public cheques carry the code; the query
    result lists them in order, [before ++ (id, c) :: after], where no cheque
    of [before] has flag [1] and [c] has.  Redeem selects [c] and never looks
    at [after].  When [c] is the caller's own cheque, the redeem is refused
    with the own-cheque message and nothing changes, whatever [after] holds.
    When [c] is another user's, the store accepts the writes, the owner's
    collection holds the copy of [c] and the caller has a profile, redeem
    sets the caller's balance to the view plus the amount of [c], sets the
    flag of [c] to [0] in both collections, and leaves every other cheque as
    it was, those of [after] included. *)
Theorem redeem_selects_first_active
    (s : Session) (code : string) (d : Db)
    (before after : list (string * Cheque)) (id : string) (c : Cheque) :
  userId s <> "" ->
  code <> "" ->
  where_short_id code d = (before ++ (id, c) :: after)%list ->
  Forall (fun x => active x.2 <> 1) before ->
  active c = 1 ->
  (owner_id c = userId s ->
   forall fs, exec (handleActivateCheque s code) d fs = mkWorld d fs [MsgOwnCheque]) /\
  (owner_id c <> userId s ->
   forall (fs : list bool) (pc : Cheque) (p : Profile),
     reliable fs ->
     cheques_of (owner_id c) d !! id = Some pc ->
     profiles d !! userId s = Some p ->
     let w := exec (handleActivateCheque s code) d fs in
     log w = [MsgBalanceUpdated (amount c); messageText c] /\
     balance <$> profiles (db w) !! userId s = Some (userBalance s + amount c)%float /\
     public_cheques (db w) !! id = Some (set_active 0 c) /\
     cheques_of (owner_id c) (db w) !! id = Some (set_active 0 pc) /\
     (forall id', id' <> id ->
                  public_cheques (db w) !! id' = public_cheques d !! id') /\
     (forall u k, (u, k) <> (owner_id c, id) ->
                  cheques_of u (db w) !! k = cheques_of u d !! k) /\
     (forall u, u <> userId s -> profiles (db w) !! u = profiles d !! u)).
Proof.
  intros Hu Hcode Hdocs Hbefore Hact.
  assert (Hres : first_active (where_short_id code d) = Some (id, c)).
  { rewrite Hdocs. now apply first_active_app. }
  split.
  - intros Hown fs. now apply handleActivateCheque_own with id c.
  - intros Hown fs pc p Hfs Hpc Hp w. subst w.
    rewrite (handleActivateCheque_run s code d fs Hu Hcode id c pc p) by assumption.
    cbn [db log]. rewrite cheques_of_put_profile, lookup_put_user_cheque_eq.
    cbn. rewrite !lookup_insert_eq.
    split; [reflexivity |]. split; [reflexivity |]. split; [reflexivity |].
    split; [reflexivity |]. split; [| split].
    + intros id' Hne. now rewrite lookup_insert_ne.
    + intros u k Hne.
      now rewrite cheques_of_put_profile, lookup_put_user_cheque_ne.
    + intros u Hne. now rewrite lookup_insert_ne.
Qed.

(** Alice's cheque and Carol's carry the same code; Alice's has been
    redeemed.  Bob enters the code: Alice's cheque is passed over, Carol's
    0.03 are credited. *)
Lemma redeem_selects_first_active_witness :
  let d' := db (exec (handleActivateCheque (Sample.sessionB Sample.db2c) Sample.code20)
                  Sample.db2c []) in
  balance <$> profiles d' !! "uidB" = Some (25 + 0.03)%float /\
  active <$> public_cheques d' !! Sample.id003 = Some 0 /\
  public_cheques d' !! Sample.id20 = public_cheques Sample.db2c !! Sample.id20.
Proof.
  destruct (proj2 (redeem_selects_first_active
                     (Sample.sessionB Sample.db2c) Sample.code20 Sample.db2c
                     [(Sample.id20,
                       set_active 0
                         (public_cheque (Sample.sessionA Sample.db0) Sample.issue20))]
                     []
                     Sample.id003
                     (public_cheque (Sample.sessionC Sample.db2) Sample.issue003)
                     ltac:(intros [=]) ltac:(intros [=]) eq_refl
                     ltac:(repeat constructor; simpl; intros [=]) eq_refl)
                  ltac:(intros [=]) []
                  (sender_cheque (Sample.sessionC Sample.db2) Sample.issue003)
                  (set_balance 25%float Sample.bob)
                  reliable_nil eq_refl eq_refl)
    as (_ & Hbal & Hpub & _ & Hother & _).
  split; [exact Hbal | split].
  - exact (f_equal (fmap active) Hpub).
  - apply Hother. intros [=].
Defined.

(** C10, counterexample.  The first cheque with flag [1] is selected, but
    it is not always credited and deactivated.  Alice's cheque and Carol's
    are ACTIVE with the same code, Alice's first: when Alice enters the code,
    the redeem is refused and Carol's cheque, which she could redeem, is not
    considered.  And the credit is added to the view: after Alice's cheque
    was redeemed by Bob (stored balance 25.00), a component of Bob that still
    holds the view 5.00 redeems Carol's cheque of 0.03, and Bob's stored
    balance becomes 5.03. *)
Lemma redeem_first_active_refused_or_miscredited :
  let w := exec (handleActivateCheque (Sample.sessionA Sample.db1c) Sample.code20)
             Sample.db1c [] in
  let w' := exec (handleActivateCheque (Sample.sessionB Sample.db1) Sample.code20)
              Sample.db2c [] in
  ((fun x => (x.1, active x.2)) <$> where_short_id Sample.code20 Sample.db1c
     = [(Sample.id20, 1); (Sample.id003, 1)] /\
   w = mkWorld Sample.db1c [] [MsgOwnCheque]) /\
  (balance <$> profiles Sample.db2c !! "uidB" = Some 25%float /\
   userBalance (Sample.sessionB Sample.db1) = 5%float /\
   log w' = [MsgBalanceUpdated 0.03%float; MsgActivatedAnonymous 0.03%float] /\
   balance <$> profiles (db w') !! "uidB" = Some (5 + 0.03)%float /\
   active <$> public_cheques (db w') !! Sample.id003 = Some 0).
Proof. vm_compute. repeat split. Qed.

(** * Document ids *)

Lemma length_append_string (a b : string) :
  String.length (a +:+ b) = (String.length a + String.length b)%nat.
Proof. induction a as [|ch a IH]; simpl; [reflexivity | now rewrite IH]. Qed.

(** Two strings that agree after appending suffixes of one length. *)
Lemma append_inj_suffix (u v x y : string) :
  String.length x = String.length y -> u +:+ x = v +:+ y -> u = v /\ x = y.
Proof.
  intros Hlen. revert v.
  induction u as [|a u IH]; intros [|b v] H.
  - now split.
  - exfalso. change ("" +:+ x) with x in H. rewrite H in Hlen.
    rewrite length_append_string in Hlen. simpl in Hlen. lia.
  - exfalso. change ("" +:+ y) with y in H. rewrite <- H in Hlen.
    rewrite length_append_string in Hlen. simpl in Hlen. lia.
  - injection H as -> H. destruct (IH v H) as [-> ->]. now split.
Qed.

(** A full id determines the user id and the short id, for short ids of one
    length. *)
Lemma fullChequeId_of_inj (u v x y : string) :
  String.length x = String.length y ->
  fullChequeId_of u x = fullChequeId_of v y -> u = v /\ x = y.
Proof.
  unfold fullChequeId_of. intros Hlen H.
  apply append_inj_suffix in H as [-> H];
    [| rewrite !length_append_string; congruence].
  change (String "-" x = String "-" y) in H. now injection H as ->.
Qed.

Lemma length_replace_xy (template : string) (rs : list Z) :
  String.length (replace_xy template rs) = String.length template.
Proof.
  revert rs. induction template as [|c t IH]; intros rs; simpl; [reflexivity |].
  destruct (Ascii.eqb c "x" || Ascii.eqb c "y")%bool; simpl; now rewrite IH.
Qed.

(** The short id has ten characters. *)
Lemma length_generateShortId (rs : list Z) :
  String.length (generateShortId rs) = 10%nat.
Proof. unfold generateShortId. now rewrite length_replace_xy. Qed.

(** * Well-formed stores *)

Lemma well_formed_empty : well_formed empty_db.
Proof. split; intros *; unfold cheques_of; simpl; now rewrite ?lookup_empty. Qed.

(** In a well-formed store, a cheque stored publicly under [id] for one
    owner has no document under [id] in another user's collection. *)
Lemma well_formed_foreign_id (d : Db) (u id : string) (c : Cheque) :
  well_formed d ->
  public_cheques d !! id = Some c -> owner_id c <> u ->
  cheques_of u d !! id = None.
Proof.
  intros [Hpriv Hpub] Hc Hown.
  destruct (cheques_of u d !! id) as [c'|] eqn:E; [exfalso | reflexivity].
  destruct (Hpriv _ _ _ E) as (Hu & Hid' & Hlen').
  destruct (Hpub _ _ Hc) as (Hid & Hlen).
  rewrite Hid in Hid'.
  apply fullChequeId_of_inj in Hid' as [Ho _]; congruence.
Qed.

(** ** Handlers preserve properties of the store *)

Section Preserves.
Variable P : Db -> Prop.

Lemma preserves_ret {A} (a : A) : preserves P (mret a).
Proof. intros w H. exact H. Qed.

Lemma preserves_bind {A B} (m : M A) (k : A -> M B) :
  preserves P m -> (forall a, preserves P (k a)) -> preserves P (m ≫= k).
Proof.
  intros Hm Hk w H. rewrite bind_run. specialize (Hm w H).
  destruct (m w) as [[a|] w']; simpl in *; [now apply Hk | assumption].
Qed.

Lemma preserves_try_catch {A} (body handler : M A) :
  preserves P body -> preserves P handler -> preserves P (try_catch body handler).
Proof.
  intros Hb Hh w H. unfold try_catch. specialize (Hb w H).
  destruct (body w) as [[a|] w']; simpl in *; [assumption | now apply Hh].
Qed.

Lemma preserves_showMessage (m : Message) : preserves P (showMessage m).
Proof. intros w H. exact H. Qed.

Lemma preserves_read {A} (f : Db -> A) : preserves P (read f).
Proof. intros w H. exact H. Qed.

Lemma preserves_write (f : Db -> option Db) :
  (forall d d', P d -> f d = Some d' -> P d') -> preserves P (write f).
Proof.
  intros Hf w H. unfold write.
  destruct (faults w) as [|[] fs']; simpl; try assumption;
    destruct (f (db w)) as [d'|] eqn:E; simpl; eauto.
Qed.

End Preserves.

Create HintDb preserves.

#[local] Hint Resolve preserves_ret preserves_showMessage preserves_read
  preserves_bind preserves_try_catch : preserves.

Lemma well_formed_put_profile d uid p :
  well_formed d -> well_formed (put_profile uid p d).
Proof. intros H. exact H. Qed.

Lemma well_formed_put_public_cheque d id c :
  well_formed d -> well_formed_cheque id c ->
  well_formed (put_public_cheque id c d).
Proof.
  intros [Hpriv Hpub] Hc. split; [exact Hpriv |].
  intros id' c'. simpl. rewrite lookup_insert.
  case_decide; [intros [= <-]; now subst | apply Hpub].
Qed.

Lemma well_formed_put_user_cheque d uid id c :
  well_formed d -> owner_id c = uid -> well_formed_cheque id c ->
  well_formed (put_user_cheque uid id c d).
Proof.
  intros [Hpriv Hpub] Hown Hc. split; [| exact Hpub].
  intros u id' c'. rewrite cheques_of_put_user_cheque.
  case_decide; [subst u | apply Hpriv].
  rewrite lookup_insert. case_decide; [intros [= <-]; now subst | apply Hpriv].
Qed.

Lemma preserves_updateDoc_balance uid b :
  preserves well_formed (updateDoc_balance uid b).
Proof.
  apply preserves_write. intros d d' Hd H.
  destruct (profiles d !! uid); simpl in H; [| discriminate].
  injection H as <-. now apply well_formed_put_profile.
Qed.

Lemma preserves_updateDoc_active r v :
  preserves well_formed (updateDoc_active r v).
Proof.
  apply preserves_write. intros d d' Hd H. destruct r as [uid id|id].
  - destruct (cheques_of uid d !! id) as [c|] eqn:E; simpl in H; [| discriminate].
    injection H as <-. destruct (proj1 Hd _ _ _ E) as [Ho Hc].
    now apply well_formed_put_user_cheque.
  - destruct (public_cheques d !! id) as [c|] eqn:E; simpl in H; [| discriminate].
    injection H as <-. pose proof (proj2 Hd _ _ E).
    now apply well_formed_put_public_cheque.
Qed.

Lemma preserves_changeBalance s a : preserves well_formed (changeBalance s a).
Proof.
  unfold changeBalance. destruct (String.eqb (userId s) ""); auto with preserves.
  apply preserves_try_catch; auto with preserves.
  apply preserves_bind; auto using preserves_updateDoc_balance with preserves.
Qed.

Lemma preserves_handleCreateCheque s i :
  preserves well_formed (handleCreateCheque s i).
Proof.
  unfold handleCreateCheque.
  destruct (String.eqb (userId s) ""); auto with preserves.
  destruct (_ || _)%bool; auto with preserves.
  destruct (_ <? _)%float; auto with preserves.
  assert (Hs : well_formed_cheque
                 (fullChequeId_of (userId s) (generateShortId (random16 i)))
                 (sender_cheque s i))
    by (split; [reflexivity | apply length_generateShortId]).
  apply preserves_try_catch; auto with preserves. cbv zeta.
  apply preserves_bind; [apply preserves_changeBalance | intros _].
  apply preserves_bind; [| intros _; apply preserves_bind; auto with preserves].
  - apply preserves_write. intros d d' Hd [= <-].
    now apply well_formed_put_user_cheque.
  - apply preserves_write. intros d d' Hd [= <-].
    now apply well_formed_put_public_cheque.
Qed.

Lemma preserves_handleActivateCheque s code :
  preserves well_formed (handleActivateCheque s code).
Proof.
  unfold handleActivateCheque.
  destruct (String.eqb (userId s) ""); auto with preserves.
  destruct (String.eqb code ""); auto with preserves.
  apply preserves_try_catch; auto with preserves.
  apply preserves_bind; [apply preserves_read | intros docs].
  destruct docs; auto with preserves.
  destruct (first_active _) as [[id c]|]; auto with preserves.
  destruct (String.eqb _ _); auto with preserves.
  repeat (apply preserves_bind;
          [first [apply preserves_updateDoc_active | apply preserves_changeBalance]
          | intros _]).
  apply preserves_showMessage.
Qed.

Lemma preserves_handleDeleteCheque s cheque :
  preserves well_formed (handleDeleteCheque s cheque).
Proof.
  unfold handleDeleteCheque.
  destruct (String.eqb (userId s) ""); auto with preserves.
  apply preserves_try_catch; auto with preserves.
  repeat (apply preserves_bind;
          [first [apply preserves_updateDoc_active | apply preserves_changeBalance]
          | intros _]).
  apply preserves_showMessage.
Qed.

Lemma preserves_run_command c : preserves well_formed (run_command c).
Proof.
  intros w H. unfold run_command. destruct (cmd_action c) as [name now|i|code|id].
  - apply preserves_try_catch; auto with preserves.
    unfold signIn. apply preserves_bind; [apply preserves_read | intros [p|]];
      auto with preserves.
    apply preserves_write. intros d d' Hd [= <-]. exact Hd.
  - now apply preserves_handleCreateCheque.
  - now apply preserves_handleActivateCheque.
  - destruct (find _ _); [now apply preserves_handleDeleteCheque | exact H].
Qed.

(** Every store the application builds from a well-formed one is
    well-formed, whatever the store answers to the writes. *)
Lemma well_formed_run_commands (cs : list Command) (w : World) :
  well_formed (db w) -> well_formed (db (run_commands cs w)).
Proof.
  revert w. induction cs as [|c cs IH]; intros w H; simpl; [exact H |].
  apply IH. now apply preserves_run_command.
Qed.

(** The stores the application builds from the empty one are well-formed. *)
Lemma well_formed_reachable (cs : list Command) (fs : list bool) :
  well_formed (db (run_commands cs (start empty_db fs))).
Proof. apply well_formed_run_commands, well_formed_empty. Qed.

(** * Cancel *)

(** The confirmed deletion on a store that accepts the writes, for a cheque
    object whose id names a document of the caller's collection and of the
    public collection. *)
Lemma handleDeleteCheque_run
    (s : Session) (cheque : string * Cheque) (d : Db) (fs : list bool)
    (l : list Message) (pc c : Cheque) (p : Profile) :
  userId s <> "" ->
  reliable fs ->
  cheques_of (userId s) d !! cheque.1 = Some pc ->
  public_cheques d !! cheque.1 = Some c ->
  profiles d !! userId s = Some p ->
  handleDeleteCheque s cheque (mkWorld d fs l) =
  (Ok tt,
   mkWorld
     (put_profile (userId s)
        (set_balance (userBalance s + amount cheque.2)%float p)
        (put_public_cheque cheque.1 (set_active 0 c)
           (put_user_cheque (userId s) cheque.1 (set_active 0 pc) d)))
     (tail (tail (tail fs)))
     (l ++ [MsgBalanceUpdated (amount cheque.2);
            MsgChequeDeleted (short_id cheque.2) (amount cheque.2)])).
Proof.
  intros Hu Hfs Hpc Hc Hp. unfold handleDeleteCheque.
  pose proof Hu as Hu'. apply String.eqb_neq in Hu'. rewrite Hu'.
  unfold try_catch. rewrite bind_run. unfold updateDoc_active at 1.
  erewrite write_accepted; [| assumption | rewrite Hpc; reflexivity].
  rewrite bind_run. unfold updateDoc_active.
  erewrite write_accepted; [| now apply reliable_tail | cbn; rewrite Hc; reflexivity].
  rewrite bind_run.
  erewrite changeBalance_run;
    [| assumption | now do 2 apply reliable_tail | exact Hp].
  rewrite showMessage_run. now rewrite <- app_assoc.
Qed.

(** The confirmed deletion when the caller's collection has no document
    under the cheque's id: the first update fails. *)
Lemma handleDeleteCheque_missing
    (s : Session) (cheque : string * Cheque) (d : Db) (fs : list bool) :
  userId s <> "" ->
  cheques_of (userId s) d !! cheque.1 = None ->
  exec (handleDeleteCheque s cheque) d fs = mkWorld d (tail fs) [MsgDeleteError].
Proof.
  intros Hu Hnone. unfold exec, start, handleDeleteCheque.
  apply String.eqb_neq in Hu. rewrite Hu.
  unfold try_catch. rewrite bind_run. unfold updateDoc_active at 1, write.
  cbn [db faults log]. rewrite Hnone.
  destruct fs as [|[] fs']; reflexivity.
Qed.

(** C5, as amended.  The handler checks neither the owner nor the state of
    the cheque; it updates [users/{caller}/cheques/{id}] first.  In a
    well-formed store, for a cheque that the public collection holds under
    its id for another owner than the caller, that first update fails: the
    store is unchanged and the message is the general deletion error,
    whatever the store would have answered to a write. *)
Theorem cancel_by_non_owner_changes_nothing
    (s : Session) (cheque : string * Cheque) (d : Db) (fs : list bool)
    (c : Cheque) :
  userId s <> "" ->
  well_formed d ->
  public_cheques d !! cheque.1 = Some c ->
  owner_id c <> userId s ->
  exec (handleDeleteCheque s cheque) d fs = mkWorld d (tail fs) [MsgDeleteError].
Proof.
  intros Hu Hwf Hc Hown. apply handleDeleteCheque_missing; [assumption |].
  now apply well_formed_foreign_id with c.
Qed.

Lemma well_formed_sample_db1 : well_formed Sample.db1.
Proof.
  apply (preserves_handleCreateCheque _ _ (start Sample.db0 [])).
  split; intros *; unfold cheques_of; simpl; now rewrite ?lookup_empty.
Qed.

(** Bob confirms the deletion of Alice's cheque. *)
Lemma cancel_by_non_owner_changes_nothing_witness :
  exec (handleDeleteCheque (Sample.sessionB Sample.db1) Sample.cheque20)
       Sample.db1 []
  = mkWorld Sample.db1 [] [MsgDeleteError].
Proof.
  apply (cancel_by_non_owner_changes_nothing
           (Sample.sessionB Sample.db1) Sample.cheque20 Sample.db1 []
           (public_cheque (Sample.sessionA Sample.db0) Sample.issue20)).
  - intros [=].
  - exact well_formed_sample_db1.
  - vm_compute. reflexivity.
  - intros [=].
Defined.

(** C5, counterexample.  Alice has pressed the delete button of her cheque
    while it was ACTIVE; Bob redeems the cheque; Alice confirms.  The cheque
    is Alice's and is no longer ACTIVE, and the deletion succeeds: Alice's
    balance goes from 30.00 back to 50.00, while Bob keeps the 20.00 he
    redeemed. *)
Lemma cancel_redeemed_cheque_is_refunded :
  let w := exec (handleDeleteCheque (Sample.sessionA Sample.db1) Sample.cheque20)
             Sample.db2 [] in
  active <$> public_cheques Sample.db2 !! Sample.id20 = Some 0 /\
  active <$> cheques_of "uidA" Sample.db2 !! Sample.id20 = Some 0 /\
  owner_id Sample.cheque20.2 = userId (Sample.sessionA Sample.db1) /\
  balance <$> profiles Sample.db2 !! "uidA" = Some 30%float /\
  balance <$> profiles Sample.db2 !! "uidB" = Some 25%float /\
  log w = [MsgBalanceUpdated 20%float; MsgChequeDeleted Sample.code20 20%float] /\
  balance <$> profiles (db w) !! "uidA" = Some 50%float /\
  balance <$> profiles (db w) !! "uidB" = Some 25%float.
Proof. vm_compute. repeat split. Qed.

(** * Issue, then cancel *)

(** The delete button of an active cheque of the user's collection is in
    the list of active cheques. *)
Lemma find_active_cheque (uid : string) (d : Db) (id : string) (c : Cheque) :
  cheques_of uid d !! id = Some c -> active c = 1 ->
  List.find (fun x => String.eqb x.1 id) (active_cheques_of uid d) = Some (id, c).
Proof.
  intros Hc Hact.
  assert (Hin : In (id, c) (active_cheques_of uid d)).
  { unfold active_cheques_of. apply filter_In. split.
    - now apply In_docs_in_order.
    - simpl. now apply Z.eqb_eq. }
  destruct (find _ (active_cheques_of uid d)) as [[id' c']|] eqn:E.
  - apply find_some in E as [Hin' Hid]. simpl in Hid.
    apply String.eqb_eq in Hid. subst id'.
    unfold active_cheques_of in Hin'. apply filter_In in Hin' as [Hin' _].
    apply In_docs_in_order in Hin'. congruence.
  - apply (find_none _ _ E) in Hin. simpl in Hin.
    now rewrite String.eqb_refl in Hin.
Qed.

(** C7, as amended.  Issue of an amount [0 < amount <= balance] followed by
    the deletion of the cheque just issued, both from a component whose
    snapshot listeners are up to date and on a store that accepts the
    writes: the stored balance ends at [((balance - amount) || 0) + amount],
    computed with the subtraction and the addition of JavaScript numbers,
    and the cheque ends with flag [0] in both collections. *)
Theorem issue_then_cancel_balance
    (uid : string) (mail : option string) (i : CreateInput) (d : Db)
    (fs : list bool) (p : Profile) :
  uid <> "" ->
  reliable fs ->
  profiles d !! uid = Some p ->
  (0 <? parsedAmount i)%float = true ->
  (parsedAmount i <=? balance p)%float = true ->
  let id := fullChequeId_of uid (generateShortId (random16 i)) in
  let w := run_commands
             [mkCommand uid mail (IssueCheque i);
              mkCommand uid mail (CancelCheque id)] (start d fs) in
  balance <$> profiles (db w) !! uid =
    Some (JsNumber.or_zero (balance p - parsedAmount i) + parsedAmount i)%float /\
  active <$> cheques_of uid (db w) !! id = Some 0 /\
  active <$> public_cheques (db w) !! id = Some 0.
Proof.
  intros Hu Hfs Hp Hpos Hle id w. subst w.
  set (s := session_of uid mail d).
  assert (Hview : userBalance s = balance p).
  { unfold s, session_of, onSnapshot. cbn. rewrite Hp.
    now apply or_zero_covering with (parsedAmount i). }
  pose proof (handleCreateCheque_run s i d fs p Hu Hfs Hp Hpos) as Hrun.
  rewrite Hview in Hrun. specialize (Hrun Hle). fold id in Hrun.
  change (run_commands _ (start d fs))
    with (run_command (mkCommand uid mail (CancelCheque id))
            (exec (handleCreateCheque s i) d fs)).2.
  rewrite Hrun. clear Hrun.
  change (userId s) with uid. fold id.
  set (d1 := put_public_cheque id _ _).
  unfold run_command. cbn [cmd_action cmd_user cmd_email db].
  set (s1 := session_of uid mail d1).
  assert (Hpc : cheques_of uid d1 !! id = Some (sender_cheque s i)).
  { unfold d1. rewrite cheques_of_put_public_cheque.
    apply lookup_put_user_cheque_eq. }
  assert (Hpub : public_cheques d1 !! id = Some (public_cheque s i)).
  { unfold d1. cbn. apply lookup_insert_eq. }
  assert (Hp1 : profiles d1 !! uid
                = Some (set_balance (balance p - parsedAmount i)%float p)).
  { unfold d1. cbn. apply lookup_insert_eq. }
  assert (Hfind : List.find (fun x => String.eqb x.1 id) (activeCheques s1)
                  = Some (id, sender_cheque s i)).
  { unfold s1, session_of, onSnapshot. cbn [activeCheques userId mounted].
    now apply find_active_cheque. }
  assert (Hview1 : userBalance s1 = JsNumber.or_zero (balance p - parsedAmount i)).
  { unfold s1, session_of, onSnapshot. cbn [userBalance userId mounted].
    now rewrite Hp1. }
  rewrite Hfind.
  erewrite (handleDeleteCheque_run s1 (id, sender_cheque s i) d1);
    [| exact Hu | now do 3 apply reliable_tail | exact Hpc | exact Hpub | exact Hp1].
  cbn [snd db fst]. change (userId s1) with uid. rewrite Hview1.
  rewrite cheques_of_put_profile, cheques_of_put_public_cheque,
    lookup_put_user_cheque_eq.
  unfold put_profile, put_public_cheque. cbn [profiles public_cheques].
  rewrite !lookup_insert_eq. repeat split.
Qed.

(** The scenario of the specification: balance 50.00, issue 20.00, cancel. *)
Lemma issue_then_cancel_balance_witness :
  let w := run_commands
             [mkCommand "uidA" None (IssueCheque Sample.issue20);
              mkCommand "uidA" None (CancelCheque Sample.id20)]
             (start Sample.db0 []) in
  balance <$> profiles (db w) !! "uidA" = Some 50%float.
Proof.
  exact (proj1 (issue_then_cancel_balance "uidA" None Sample.issue20 Sample.db0 []
                 Sample.alice ltac:(intros [=]) reliable_nil
                 eq_refl eq_refl eq_refl)).
Defined.

(** C7, counterexample.  Carol's balance is 0.3; she issues 0.03 and deletes
    the cheque: her balance ends at 0.30000000000000004. *)
Lemma issue_then_cancel_drifts :
  let w := run_commands
             [mkCommand "uidC" None (IssueCheque Sample.issue003);
              mkCommand "uidC" None (CancelCheque Sample.id003)]
             (start Sample.db0 []) in
  balance <$> profiles Sample.db0 !! "uidC" = Some 0.3%float /\
  balance <$> profiles (db w) !! "uidC" = Some 0.30000000000000004%float /\
  (0.30000000000000004 =? 0.3)%float = false /\
  log w = [MsgBalanceUpdated (-0.03)%float;
           MsgChequeCreated 0.03%float Sample.code20;
           MsgBalanceUpdated 0.03%float;
           MsgChequeDeleted Sample.code20 0.03%float].
Proof. vm_compute. repeat split. Qed.

(** * Code collisions *)

(** C8, as amended.  Issue draws the short id once, from [generateShortId],
    and writes the cheque under it without reading the stored codes: there is
    no retry and no outcome for exhausted code generation.  When an ACTIVE
    cheque of another user already carries the drawn code, in a well-formed
    store that accepts the writes, the issue succeeds all the same; the old
    cheque is untouched, and two ACTIVE public cheques carry the code. *)
Theorem issue_commits_colliding_code
    (s : Session) (i : CreateInput) (d : Db) (fs : list bool) (p : Profile)
    (id' : string) (c' : Cheque) :
  userId s <> "" ->
  reliable fs ->
  profiles d !! userId s = Some p ->
  (0 <? parsedAmount i)%float = true ->
  (parsedAmount i <=? userBalance s)%float = true ->
  well_formed d ->
  public_cheques d !! id' = Some c' ->
  short_id c' = generateShortId (random16 i) ->
  active c' = 1 ->
  owner_id c' <> userId s ->
  let w := exec (handleCreateCheque s i) d fs in
  let id := fullChequeId_of (userId s) (generateShortId (random16 i)) in
  id <> id' /\
  public_cheques (db w) !! id = Some (public_cheque s i) /\
  public_cheques (db w) !! id' = Some c' /\
  short_id (public_cheque s i) = short_id c' /\
  active (public_cheque s i) = 1 /\
  last (log w) = Some (MsgChequeCreated (parsedAmount i) (short_id c')).
Proof.
  intros Hu Hfs Hp Hpos Hle [_ Hpub] Hc' Hcode Hact Hown w id. subst w.
  assert (Hne : id <> id').
  { intros E. destruct (Hpub _ _ Hc') as [Hid' Hlen]. subst id.
    rewrite Hid' in E. apply fullChequeId_of_inj in E as [E _].
    - now symmetry in E.
    - now rewrite length_generateShortId. }
  rewrite (handleCreateCheque_run s i d fs p Hu Hfs Hp Hpos Hle).
  cbn [db log]. unfold put_public_cheque at 1 2. cbn [public_cheques].
  fold id. rewrite lookup_insert_eq, lookup_insert_ne by assumption.
  rewrite Hcode. repeat split; assumption.
Qed.

(** Carol's draws give the code of Alice's cheque. *)
Lemma issue_commits_colliding_code_witness :
  let w := exec (handleCreateCheque (Sample.sessionC Sample.db1) Sample.issue003)
             Sample.db1 [] in
  Sample.id003 <> Sample.id20 /\
  public_cheques (db w) !! Sample.id003
    = Some (public_cheque (Sample.sessionC Sample.db1) Sample.issue003) /\
  public_cheques (db w) !! Sample.id20
    = Some (public_cheque (Sample.sessionA Sample.db0) Sample.issue20).
Proof.
  pose proof (issue_commits_colliding_code
                (Sample.sessionC Sample.db1) Sample.issue003 Sample.db1 []
                Sample.carol Sample.id20
                (public_cheque (Sample.sessionA Sample.db0) Sample.issue20)
                ltac:(intros [=]) reliable_nil eq_refl eq_refl eq_refl
                well_formed_sample_db1 eq_refl eq_refl eq_refl
                ltac:(intros [=])) as (H1 & H2 & H3 & _).
  exact (conj H1 (conj H2 H3)).
Defined.

(** C8, counterexample.  After Alice's issue, Carol's issue draws the same
    code: it is committed at once, and the public collection holds two
    ACTIVE cheques with the code [0123456789]. *)
Lemma issue_collision_is_committed :
  let w := exec (handleCreateCheque (Sample.sessionC Sample.db1) Sample.issue003)
             Sample.db1 [] in
  (fun c => (short_id c, active c)) <$> public_cheques Sample.db1 !! Sample.id20
    = Some (Sample.code20, 1) /\
  log w = [MsgBalanceUpdated (-0.03)%float;
           MsgChequeCreated 0.03%float Sample.code20] /\
  (fun c => (short_id c, active c)) <$> public_cheques (db w) !! Sample.id20
    = Some (Sample.code20, 1) /\
  (fun c => (short_id c, active c)) <$> public_cheques (db w) !! Sample.id003
    = Some (Sample.code20, 1) /\
  Sample.id20 <> Sample.id003.
Proof. vm_compute. repeat split. intros [=]. Qed.

(** * Balances from the first sighting on *)

Lemma untouched_empty : untouched empty_db.
Proof. split; [| now split]. intros u p. simpl. now rewrite lookup_empty. Qed.

(** With a balance view of [0], no amount passes both tests of
    [handleCreateCheque]. *)
Lemma handleCreateCheque_without_funds (s : Session) (i : CreateInput) (w : World) :
  userBalance s = 0%float -> db (handleCreateCheque s i w).2 = db w.
Proof.
  intros Hb. unfold handleCreateCheque. rewrite Hb.
  destruct (String.eqb (userId s) ""); [reflexivity |].
  destruct (JsNumber.isNaN (parsedAmount i)) eqn:Hnan; [reflexivity |].
  destruct (parsedAmount i <=? 0)%float eqn:Hle; [reflexivity |].
  now rewrite (JsNumberFacts.valid_positive _ Hnan Hle).
Qed.






(** * Balances that are not negative stay so *)

Lemma nonneg_store_put_profile d uid p :
  nonneg_store d -> (0 <=? balance p)%float = true ->
  nonneg_store (put_profile uid p d).
Proof.
  intros (Hbal & Hpriv & Hpub) Hp. split; [| now split].
  intros u q. cbn. rewrite lookup_insert.
  case_decide; [intros [= <-]; exact Hp | apply Hbal].
Qed.

Lemma nonneg_store_put_public_cheque d id c :
  nonneg_store d -> (0 <=? amount c)%float = true ->
  nonneg_store (put_public_cheque id c d).
Proof.
  intros (Hbal & Hpriv & Hpub) Hc. split; [exact Hbal | split; [exact Hpriv |]].
  intros id' c'. cbn. rewrite lookup_insert.
  case_decide; [intros [= <-]; exact Hc | apply Hpub].
Qed.

Lemma nonneg_store_put_user_cheque d uid id c :
  nonneg_store d -> (0 <=? amount c)%float = true ->
  nonneg_store (put_user_cheque uid id c d).
Proof.
  intros (Hbal & Hpriv & Hpub) Hc. split; [exact Hbal | split; [| exact Hpub]].
  intros u id' c'. rewrite cheques_of_put_user_cheque.
  case_decide; [subst u | apply Hpriv].
  rewrite lookup_insert. case_decide; [intros [= <-]; exact Hc | apply Hpriv].
Qed.

Lemma nonneg_updateDoc_active r v : preserves nonneg_store (updateDoc_active r v).
Proof.
  apply preserves_write. intros d d' Hd H. destruct r as [uid id|id].
  - destruct (cheques_of uid d !! id) as [c|] eqn:E; simpl in H; [| discriminate].
    injection H as <-. apply nonneg_store_put_user_cheque; [assumption |].
    exact (proj1 (proj2 Hd) _ _ _ E).
  - destruct (public_cheques d !! id) as [c|] eqn:E; simpl in H; [| discriminate].
    injection H as <-. apply nonneg_store_put_public_cheque; [assumption |].
    exact (proj2 (proj2 Hd) _ _ E).
Qed.

Lemma nonneg_changeBalance s a :
  (0 <=? userBalance s + a)%float = true ->
  preserves nonneg_store (changeBalance s a).
Proof.
  intros Hsum. unfold changeBalance.
  destruct (String.eqb (userId s) ""); auto with preserves.
  apply preserves_try_catch; auto with preserves.
  apply preserves_bind; auto with preserves.
  apply preserves_write. intros d d' Hd H.
  destruct (profiles d !! userId s); simpl in H; [| discriminate].
  injection H as <-. now apply nonneg_store_put_profile.
Qed.

Lemma nonneg_handleCreateCheque s i :
  (0 <=? userBalance s)%float = true ->
  PrimFloat.is_finite (parsedAmount i) = true ->
  preserves nonneg_store (handleCreateCheque s i).
Proof.
  intros Hb Hfin. unfold handleCreateCheque.
  destruct (String.eqb (userId s) ""); auto with preserves.
  destruct (JsNumber.isNaN (parsedAmount i)) eqn:Hnan;
    [apply preserves_showMessage |].
  destruct (parsedAmount i <=? 0)%float eqn:Hle;
    [apply preserves_showMessage |].
  destruct (userBalance s <? parsedAmount i)%float eqn:Hlt;
    [apply preserves_showMessage |].
  pose proof (JsNumberFacts.valid_positive _ Hnan Hle) as Hpos.
  assert (Hamount : (0 <=? parsedAmount i)%float = true).
  { apply JsNumberFacts.leb0_SFnonneg.
    destruct (JsNumberFacts.positive_finite_spec _ Hpos Hfin) as (m & e & ->).
    exact I. }
  cbn [orb]. apply preserves_try_catch; auto with preserves. cbv zeta.
  apply preserves_bind; [| intros _].
  { apply nonneg_changeBalance. now apply JsNumberFacts.covered_sub_nonneg. }
  apply preserves_bind; [| intros _; apply preserves_bind; auto with preserves].
  - apply preserves_write. intros d d' Hd [= <-].
    now apply nonneg_store_put_user_cheque.
  - apply preserves_write. intros d d' Hd [= <-].
    now apply nonneg_store_put_public_cheque.
Qed.

Lemma nonneg_handleActivateCheque s code :
  (0 <=? userBalance s)%float = true ->
  preserves nonneg_store (handleActivateCheque s code).
Proof.
  intros Hb w Hw. unfold handleActivateCheque.
  destruct (String.eqb (userId s) ""); [exact Hw |].
  destruct (String.eqb code ""); [exact Hw |].
  unfold try_catch, getDocs_short_id, read. rewrite bind_run.
  destruct (where_short_id code (db w)) as [|x docs] eqn:E; [exact Hw |].
  rewrite <- E. clear E x docs.
  destruct (first_active (where_short_id code (db w))) as [[id c]|] eqn:E;
    [| exact Hw].
  destruct (String.eqb (owner_id c) (userId s)); [exact Hw |].
  apply first_active_Some in E as [Hin _].
  apply In_where_short_id in Hin as [Hc _].
  pose proof (proj2 (proj2 Hw) _ _ Hc) as Hamount.
  assert (Hk : preserves nonneg_store
                 (try_catch
                    (updateDoc_active (PublicChequeRef id) 0;;
                     updateDoc_active (SenderChequeRef (owner_id c) id) 0;;
                     changeBalance s (amount c);;
                     showMessage (messageText c))
                    (showMessage MsgActivateError))).
  { apply preserves_try_catch; auto with preserves.
    repeat (apply preserves_bind; [| intros _]);
      auto using nonneg_updateDoc_active with preserves.
    apply nonneg_changeBalance. now apply JsNumberFacts.add_nonneg. }
  exact (Hk w Hw).
Qed.

Lemma nonneg_handleDeleteCheque s cheque :
  (0 <=? userBalance s)%float = true ->
  (0 <=? amount cheque.2)%float = true ->
  preserves nonneg_store (handleDeleteCheque s cheque).
Proof.
  intros Hb Hc. unfold handleDeleteCheque.
  destruct (String.eqb (userId s) ""); auto with preserves.
  apply preserves_try_catch; auto with preserves.
  repeat (apply preserves_bind; [| intros _]);
    auto using nonneg_updateDoc_active with preserves.
  apply nonneg_changeBalance. now apply JsNumberFacts.add_nonneg.
Qed.

(** The view of a store with balances that are not negative. *)
Lemma session_of_nonneg (uid : string) (mail : option string) (d : Db) :
  nonneg_store d ->
  (0 <=? userBalance (session_of uid mail d))%float = true /\
  (forall x, In x (activeCheques (session_of uid mail d)) ->
             (0 <=? amount x.2)%float = true).
Proof.
  intros (Hbal & Hpriv & _). unfold session_of, onSnapshot. cbn. split.
  - destruct (profiles d !! uid) as [p|] eqn:E; [| reflexivity].
    apply JsNumberFacts.or_zero_nonneg. eauto.
  - intros [id c] Hin. unfold active_cheques_of in Hin.
    apply filter_In in Hin as [Hin _]. apply In_docs_in_order in Hin. eauto.
Qed.

Lemma nonneg_run_command (c : Command) :
  finite_input c -> preserves nonneg_store (run_command c).
Proof.
  intros Hfin w Hw. unfold run_command. unfold finite_input in Hfin.
  destruct (session_of_nonneg (cmd_user c) (cmd_email c) (db w) Hw) as [Hb Ha].
  destruct (cmd_action c) as [name now|i|code|id].
  - apply preserves_try_catch; auto with preserves.
    unfold signIn. apply preserves_bind; [apply preserves_read | intros [p|]];
      auto with preserves.
    apply preserves_write. intros d d' Hd [= <-].
    now apply nonneg_store_put_profile.
  - now apply nonneg_handleCreateCheque.
  - now apply nonneg_handleActivateCheque.
  - destruct (find _ _) as [cheque|] eqn:E; [| exact Hw].
    apply find_some in E as [Hin _].
    apply nonneg_handleDeleteCheque; auto.
Qed.

(** From any store whose balances and cheque amounts are not negative, for
    every sequence of commands whose issued amounts are finite numbers, and
    whatever the store answers to the writes, no balance becomes negative. *)
Lemma nonneg_run_commands (cs : list Command) (w : World) :
  Forall finite_input cs ->
  nonneg_store (db w) -> nonneg_store (db (run_commands cs w)).
Proof.
  intros Hcs. revert w.
  induction Hcs as [|c cs Hc _ IH]; intros w H; simpl; [exact H |].
  apply IH. now apply nonneg_run_command.
Qed.

(** The empty store, before any user is seen. *)
Lemma nonneg_store_empty : nonneg_store empty_db.
Proof.
  split; [| split]; intros *; unfold cheques_of; simpl;
    rewrite ?lookup_empty; simpl; rewrite ?lookup_empty; intros [=].
Qed.

Lemma nonneg_store_sample_db0 : nonneg_store Sample.db0.
Proof.
  split; [| split].
  - intros u p H. unfold Sample.db0 in H. cbn [profiles] in H.
    apply lookup_insert_Some in H as [[_ <-] | [_ H]]; [reflexivity |].
    apply lookup_insert_Some in H as [[_ <-] | [_ H]]; [reflexivity |].
    apply lookup_insert_Some in H as [[_ <-] | [_ H]]; [reflexivity |].
    rewrite lookup_empty in H. discriminate H.
  - intros u id c H. unfold cheques_of in H. simpl in H.
    rewrite lookup_empty in H. simpl in H. rewrite lookup_empty in H.
    discriminate H.
  - intros id c H. simpl in H. rewrite lookup_empty in H. discriminate H.
Qed.




(** * Further properties: [generateShortId] *)

Lemma hex_digit_is_hex (v : Z) : 0 <= v < 16 -> is_hex_digit (hex_digit v) = true.
Proof.
  intros H.
  assert (E : v = 0 \/ v = 1 \/ v = 2 \/ v = 3 \/ v = 4 \/ v = 5 \/ v = 6 \/ v = 7 \/
              v = 8 \/ v = 9 \/ v = 10 \/ v = 11 \/ v = 12 \/ v = 13 \/ v = 14 \/
              v = 15) by lia.
  repeat (destruct E as [-> | E]; [reflexivity |]). now subst v.
Qed.

Lemma hex_digit_inj (v v' : Z) :
  0 <= v < 16 -> 0 <= v' < 16 -> hex_digit v = hex_digit v' -> v = v'.
Proof.
  intros H H'.
  assert (E : v = 0 \/ v = 1 \/ v = 2 \/ v = 3 \/ v = 4 \/ v = 5 \/ v = 6 \/ v = 7 \/
              v = 8 \/ v = 9 \/ v = 10 \/ v = 11 \/ v = 12 \/ v = 13 \/ v = 14 \/
              v = 15) by lia.
  assert (E' : v' = 0 \/ v' = 1 \/ v' = 2 \/ v' = 3 \/ v' = 4 \/ v' = 5 \/ v' = 6 \/
               v' = 7 \/ v' = 8 \/ v' = 9 \/ v' = 10 \/ v' = 11 \/ v' = 12 \/
               v' = 13 \/ v' = 14 \/ v' = 15) by lia.
  clear H H'.
  repeat (destruct E as [-> | E]);
    try subst v;
    repeat (destruct E' as [-> | E']); try subst v';
    first [reflexivity | intros [=]].
Qed.

(** The variant nibble [r & 0x3 | 0x8] is one of 8, 9, 10, 11, whatever [r]. *)
Lemma variant_nibble (r : Z) : 8 <= Z.lor (Z.land r 3) 8 < 12.
Proof.
  change 3 with (Z.ones 2). rewrite Z.land_ones by lia.
  assert (H : 0 <= r mod 2 ^ 2 < 4) by (apply Z.mod_pos_bound; lia).
  assert (E : r mod 2 ^ 2 = 0 \/ r mod 2 ^ 2 = 1 \/ r mod 2 ^ 2 = 2 \/ r mod 2 ^ 2 = 3)
    by lia.
  destruct E as [E | [E | [E | E]]]; rewrite E; vm_compute; intuition congruence.
Qed.

Lemma draw_hd (rs : list Z) : Forall draw rs -> draw (hd 0 rs).
Proof. destruct 1; simpl; [unfold draw; lia | assumption]. Qed.

Lemma draw_tl (rs : list Z) : Forall draw rs -> Forall draw (tl rs).
Proof. destruct 1; simpl; [constructor | assumption]. Qed.

(** The replaced characters become hexadecimal digits; the others stay. *)
Lemma replace_xy_hex (template : string) (rs : list Z) :
  Forall draw rs ->
  all_chars (fun c => Ascii.eqb c "x" || Ascii.eqb c "y" || is_hex_digit c)%bool
            template = true ->
  all_chars is_hex_digit (replace_xy template rs) = true.
Proof.
  revert rs. induction template as [|c t IH]; intros rs Hrs H; [reflexivity |].
  simpl in H. apply andb_prop in H as [Hc Ht]. simpl.
  destruct (Ascii.eqb c "x" || Ascii.eqb c "y")%bool eqn:Exy; simpl.
  - rewrite IH by (try apply draw_tl; assumption). rewrite andb_true_r.
    apply hex_digit_is_hex. pose proof (draw_hd rs Hrs) as Hd. unfold draw in Hd.
    destruct (Ascii.eqb c "x"); [exact Hd |].
    pose proof (variant_nibble (hd 0 rs)). lia.
  - rewrite IH by assumption. simpl in Hc. now rewrite Hc.
Qed.

(** X1.  The public code drawn by [generateShortId] has exactly ten
    characters, each a lower-case hexadecimal digit, for every sequence of
    draws of [Math.random() * 16 | 0]. *)
Theorem generateShortId_format (rs : list Z) :
  Forall draw rs ->
  String.length (generateShortId rs) = 10%nat /\
  all_chars is_hex_digit (generateShortId rs) = true.
Proof.
  intros Hrs. split; [apply length_generateShortId |].
  unfold generateShortId. now apply replace_xy_hex.
Qed.

Lemma generateShortId_format_witness :
  String.length (generateShortId [15; 0; 10; 3]) = 10%nat /\
  all_chars is_hex_digit (generateShortId [15; 0; 10; 3]) = true.
Proof.
  apply generateShortId_format. repeat constructor; unfold draw; lia.
Defined.

(** A template of [n] characters [x]. *)
Lemma replace_xy_all_x_inj (n : nat) (rs rs' : list Z) :
  length rs = n -> length rs' = n -> Forall draw rs -> Forall draw rs' ->
  replace_xy (String.string_of_list_ascii (repeat "x"%char n)) rs =
  replace_xy (String.string_of_list_ascii (repeat "x"%char n)) rs' ->
  rs = rs'.
Proof.
  revert rs rs'. induction n as [|n IH]; intros rs rs' Hl Hl' Hd Hd' E.
  - destruct rs, rs'; try discriminate; reflexivity.
  - destruct rs as [|r rs], rs' as [|r' rs']; try discriminate.
    simpl in E. injection E as Ec Et.
    inversion Hd; inversion Hd'; subst.
    f_equal.
    + now apply hex_digit_inj.
    + apply IH; auto.
Qed.

(** X2.  Different draws give different codes: ten draws are determined by
    the code they produce, so the sixteen-to-the-ten sequences of draws give
    as many codes. *)
Theorem generateShortId_injective (rs rs' : list Z) :
  length rs = 10%nat -> length rs' = 10%nat ->
  Forall draw rs -> Forall draw rs' ->
  generateShortId rs = generateShortId rs' -> rs = rs'.
Proof.
  intros. now apply (replace_xy_all_x_inj 10).
Qed.

Lemma generateShortId_injective_witness :
  [0; 1; 2; 3; 4; 5; 6; 7; 8; 9] = [0; 1; 2; 3; 4; 5; 6; 7; 8; 9 + 0].
Proof.
  apply generateShortId_injective; try reflexivity;
    repeat constructor; unfold draw; lia.
Defined.

(** X3.  In a template, a character [y] is replaced by one of the digits
    [8], [9], [a], [b], whatever the draw (the callback's branch
    [r & 0x3 | 0x8]). *)
Theorem replace_y_variant (r : Z) (rs : list Z) :
  In (replace_xy "y" (r :: rs)) ["8"; "9"; "a"; "b"].
Proof.
  simpl. pose proof (variant_nibble r) as H.
  assert (E : Z.lor (Z.land r 3) 8 = 8 \/ Z.lor (Z.land r 3) 8 = 9 \/
              Z.lor (Z.land r 3) 8 = 10 \/ Z.lor (Z.land r 3) 8 = 11) by lia.
  destruct E as [-> | [-> | [-> | ->]]]; simpl; auto.
Qed.

(** X4.  Document ids of different users never coincide: the id
    [`${userId}-${chequeId}`] of a cheque determines the user id and the
    code, whatever characters the user id contains. *)
Theorem fullChequeId_determines_owner (u v : string) (rs rs' : list Z) :
  fullChequeId_of u (generateShortId rs) = fullChequeId_of v (generateShortId rs') ->
  u = v /\ generateShortId rs = generateShortId rs'.
Proof.
  apply fullChequeId_of_inj. now rewrite !length_generateShortId.
Qed.

Lemma fullChequeId_determines_owner_witness :
  "uidA" = "uidA" /\
  generateShortId [0; 1; 2; 3; 4; 5; 6; 7; 8; 9] = generateShortId [0; 1; 2; 3; 4; 5; 6; 7; 8; 9].
Proof.
  exact (fullChequeId_determines_owner "uidA" "uidA"
           [0; 1; 2; 3; 4; 5; 6; 7; 8; 9] [0; 1; 2; 3; 4; 5; 6; 7; 8; 9] eq_refl).
Defined.

(** * Further properties: sign-in and user names *)

Lemma run_sign_in_keeps (c : Command) (w : World) :
  is_sign_in c ->
  user_cheques (db (run_command c w).2) = user_cheques (db w) /\
  public_cheques (db (run_command c w).2) = public_cheques (db w) /\
  (forall u p, profiles (db w) !! u = Some p ->
               profiles (db (run_command c w).2) !! u = Some p).
Proof.
  unfold is_sign_in, run_command.
  destruct (cmd_action c) as [name now| | |]; try contradiction. intros _.
  unfold try_catch, signIn, read. rewrite bind_run. cbn [fst snd].
  destruct (profiles (db w) !! cmd_user c) as [q|] eqn:E; [now repeat split |].
  unfold setDoc_profile, write.
  destruct (faults w) as [|[] fs']; cbn [fst snd db]; try (now repeat split);
    (repeat split; intros u p Hp; cbn; rewrite lookup_insert_ne; congruence).
Qed.

(** X5.  Sign-ins never overwrite: whatever users sign in, how often, and
    whatever the store answers, every profile that exists keeps its fields,
    its balance among them, and no cheque changes. *)
Theorem sign_ins_keep_profiles_and_cheques
    (cs : list Command) (w : World) (u : string) (p : Profile) :
  Forall is_sign_in cs ->
  profiles (db w) !! u = Some p ->
  profiles (db (run_commands cs w)) !! u = Some p /\
  user_cheques (db (run_commands cs w)) = user_cheques (db w) /\
  public_cheques (db (run_commands cs w)) = public_cheques (db w).
Proof.
  intros Hcs. revert w.
  induction Hcs as [|c cs Hc _ IH]; intros w Hp; simpl; [now repeat split |].
  destruct (run_sign_in_keeps c w Hc) as (Hu & Hpub & Hprof).
  destruct (IH (run_command c w).2 (Hprof _ _ Hp)) as (H1 & H2 & H3).
  repeat split; congruence.
Qed.

Lemma sign_ins_keep_profiles_and_cheques_witness :
  let cs := [mkCommand "uidA" None (SignIn None "2024-03-01T00:00:00.000Z");
             mkCommand "uidD" None (SignIn (Some "Dave") "2024-03-01T00:00:00.000Z")] in
  profiles (db (run_commands cs (start Sample.db1 []))) !! "uidA"
  = Some (set_balance 30%float Sample.alice).
Proof.
  intros cs.
  apply (sign_ins_keep_profiles_and_cheques cs (start Sample.db1 []) "uidA").
  - repeat constructor.
  - vm_compute. reflexivity.
Defined.

Lemma before_at_app (l r : string) :
  all_chars (fun c => negb (Ascii.eqb c "@")) l = true ->
  before_at (l +:+ String "@" r) = l.
Proof.
  induction l as [|c l IH]; simpl; intros H; [reflexivity |].
  apply andb_prop in H as [Hc Hl]. apply negb_true_iff in Hc.
  rewrite Hc. now rewrite IH.
Qed.

(** X6.  The user name stored for a user with an e-mail address is the
    part of the address before its first [@]: for a local part without
    [@], the name derived from [local@domain] is [local]. *)
Theorem username_of_email (loc domain uid : string) :
  all_chars (fun c => negb (Ascii.eqb c "@")) loc = true ->
  username_of (Some (loc +:+ "@" +:+ domain)) uid = loc.
Proof.
  intros Hl. unfold username_of.
  destruct (String.eqb (loc +:+ "@" +:+ domain) "") eqn:E.
  - apply String.eqb_eq in E. destruct loc; discriminate.
  - now apply before_at_app.
Qed.

Lemma username_of_email_witness :
  username_of (Some "alice.smith@example.org") "uidA" = "alice.smith".
Proof.
  exact (username_of_email "alice.smith" "example.org" "uidA" eq_refl).
Defined.

(** * Further properties: the snapshot listeners *)

Lemma NoDup_fst_filter {A B} (f : A * B -> bool) (l : list (A * B)) :
  NoDup (map fst l) -> NoDup (map fst (List.filter f l)).
Proof.
  induction l as [|x l IH]; simpl; intros H; [constructor |].
  apply NoDup_cons in H as [Hx Hl].
  destruct (f x); simpl; [| now apply IH].
  apply NoDup_cons. split; [| now apply IH].
  intros Hin. apply Hx. apply list_elem_of_In in Hin. apply list_elem_of_In.
  apply in_map_iff in Hin as (y & Hy & Hin). apply in_map_iff.
  exists y. split; [assumption |]. now apply filter_In in Hin as [Hin _].
Qed.

Lemma NoDup_fst_docs_in_order (m : gmap string Cheque) :
  NoDup (map fst (docs_in_order m)).
Proof.
  unfold docs_in_order.
  change (map fst (merge_sort by_id (map_to_list m)))
    with ((merge_sort by_id (map_to_list m)).*1).
  rewrite (merge_sort_Permutation by_id (map_to_list m)).
  apply NoDup_fst_map_to_list.
Qed.

(** X7.  The list of active cheques the cheque listener delivers holds
    exactly the cheques of the user's own collection whose flag is [1], each
    under its document id and each once. *)
Theorem activeCheques_are_the_active_own_cheques (d : Db) (s : Session) :
  (forall id c, In (id, c) (activeCheques (onSnapshot d s)) <->
                cheques_of (userId s) d !! id = Some c /\ active c = 1) /\
  NoDup (map fst (activeCheques (onSnapshot d s))).
Proof.
  cbn [activeCheques onSnapshot]. unfold active_cheques_of. split.
  - intros id c. rewrite filter_In, In_docs_in_order. simpl.
    now rewrite Z.eqb_eq.
  - apply NoDup_fst_filter, NoDup_fst_docs_in_order.
Qed.

(** X8.  A stored balance that is falsy ([0], [-0] or [NaN]) is seen as
    [0] by the component, and admits no issue: whatever amount is entered,
    the issue command leaves the store unchanged. *)
Theorem falsy_balance_admits_no_issue
    (uid : string) (mail : option string) (i : CreateInput) (w : World)
    (p : Profile) :
  profiles (db w) !! uid = Some p ->
  JsNumber.truthy (balance p) = false ->
  userBalance (session_of uid mail (db w)) = 0%float /\
  db (run_command (mkCommand uid mail (IssueCheque i)) w).2 = db w.
Proof.
  intros Hp Hfalsy.
  assert (Hb : userBalance (session_of uid mail (db w)) = 0%float).
  { unfold session_of, onSnapshot. cbn. rewrite Hp.
    unfold JsNumber.or_zero. now rewrite Hfalsy. }
  split; [exact Hb |].
  unfold run_command. cbn [cmd_action cmd_user cmd_email].
  now apply handleCreateCheque_without_funds.
Qed.

Lemma falsy_balance_admits_no_issue_witness :
  let d := put_profile "uidA" (set_balance nan Sample.alice) Sample.db0 in
  db (run_command (mkCommand "uidA" None (IssueCheque Sample.issue20))
        (start d [])).2 = d.
Proof.
  intros d.
  apply (falsy_balance_admits_no_issue "uidA" None Sample.issue20 (start d [])
           (set_balance nan Sample.alice)); reflexivity.
Defined.

(** * Further properties: issue *)

(** X9.  Every amount that is not above [0] (zero, negative zero, a
    negative number, [NaN]) is refused as invalid: the only effect of the
    issue is the message for an incorrect amount, whatever the balance and
    whatever the store would have answered. *)
Theorem issue_refuses_amounts_not_above_zero
    (s : Session) (i : CreateInput) (d : Db) (fs : list bool) :
  userId s <> "" ->
  (0 <? parsedAmount i)%float = false ->
  exec (handleCreateCheque s i) d fs = mkWorld d fs [MsgInvalidAmount].
Proof.
  intros Hu Hnot. unfold exec, start, handleCreateCheque.
  apply String.eqb_neq in Hu. rewrite Hu.
  destruct (JsNumber.isNaN (parsedAmount i)) eqn:Hnan; [reflexivity |].
  destruct (parsedAmount i <=? 0)%float eqn:Hle; [reflexivity |].
  rewrite (JsNumberFacts.valid_positive _ Hnan Hle) in Hnot. discriminate.
Qed.

Lemma issue_refuses_amounts_not_above_zero_witness :
  exec (handleCreateCheque (Sample.sessionA Sample.db0)
          {| parsedAmount := (-0)%float; createIsAnonymous := false;
             random16 := []; now_sender := ""; now_public := "" |})
       Sample.db0 []
  = mkWorld Sample.db0 [] [MsgInvalidAmount].
Proof.
  apply issue_refuses_amounts_not_above_zero; [intros [=] | reflexivity].
Defined.

(** [changeBalance] when the store rejects the update: the error is shown
    and swallowed. *)
Lemma changeBalance_rejected s a d fs l :
  userId s <> "" ->
  changeBalance s a (mkWorld d (true :: fs) l) =
  (Ok tt, mkWorld d fs (l ++ [MsgBalanceError])).
Proof.
  intros Hu. unfold changeBalance. apply String.eqb_neq in Hu. now rewrite Hu.
Qed.

Section IssueFaults.
Variables (s : Session) (i : CreateInput) (d : Db).
Hypothesis signed_in : userId s <> "".
Hypothesis positive : (0 <? parsedAmount i)%float = true.
Hypothesis covered : (parsedAmount i <=? userBalance s)%float = true.

Lemma handleCreateCheque_body (w : World) :
  handleCreateCheque s i w =
  try_catch
    (changeBalance s (- parsedAmount i)%float;;
     setDoc (SenderChequeRef (userId s)
               (fullChequeId_of (userId s) (generateShortId (random16 i))))
            (sender_cheque s i);;
     setDoc (PublicChequeRef
               (fullChequeId_of (userId s) (generateShortId (random16 i))))
            (public_cheque s i);;
     showMessage (MsgChequeCreated (parsedAmount i) (generateShortId (random16 i))))
    (showMessage MsgCreateError) w.
Proof.
  unfold handleCreateCheque.
  pose proof signed_in as Hu. apply String.eqb_neq in Hu. rewrite Hu.
  destruct (JsNumberFacts.positive_valid _ positive) as [-> ->].
  now rewrite (JsNumberFacts.leb_not_gt _ _ covered).
Qed.

(** The debit is rejected, the cheque writes are accepted. *)
Lemma handleCreateCheque_debit_rejected (fs : list bool) :
  reliable fs ->
  exec (handleCreateCheque s i) d (true :: fs) =
  mkWorld
    (put_public_cheque
       (fullChequeId_of (userId s) (generateShortId (random16 i)))
       (public_cheque s i)
       (put_user_cheque (userId s)
          (fullChequeId_of (userId s) (generateShortId (random16 i)))
          (sender_cheque s i) d))
    (tail (tail fs))
    [MsgBalanceError;
     MsgChequeCreated (parsedAmount i) (generateShortId (random16 i))].
Proof.
  intros Hfs. unfold exec, start. rewrite handleCreateCheque_body.
  unfold try_catch. rewrite bind_run, changeBalance_rejected by assumption.
  rewrite bind_run. unfold setDoc at 1.
  erewrite write_accepted; [| assumption | reflexivity].
  rewrite bind_run. unfold setDoc.
  erewrite write_accepted; [| now apply reliable_tail | reflexivity].
  now rewrite showMessage_run.
Qed.

(** The debit is accepted, the write of the sender's copy is rejected. *)
Lemma handleCreateCheque_sender_rejected (fs : list bool) (p : Profile) :
  profiles d !! userId s = Some p ->
  exec (handleCreateCheque s i) d (false :: true :: fs) =
  mkWorld
    (put_profile (userId s)
       (set_balance (userBalance s + - parsedAmount i)%float p) d)
    fs
    [MsgBalanceUpdated (- parsedAmount i)%float; MsgCreateError].
Proof.
  intros Hp. unfold exec, start. rewrite handleCreateCheque_body.
  unfold try_catch. rewrite bind_run. unfold changeBalance.
  pose proof signed_in as Hu. apply String.eqb_neq in Hu. rewrite Hu.
  unfold try_catch, updateDoc_balance. rewrite bind_run. unfold write at 1.
  cbn [faults db log]. rewrite Hp. cbn [mbind option_bind tail].
  rewrite showMessage_run. rewrite bind_run. unfold setDoc at 1, write at 1.
  cbn [faults db log]. now rewrite showMessage_run.
Qed.

(** The debit and the sender's copy are accepted, the write of the public
    copy is rejected. *)
Lemma handleCreateCheque_public_rejected (fs : list bool) (p : Profile) :
  profiles d !! userId s = Some p ->
  exec (handleCreateCheque s i) d (false :: false :: true :: fs) =
  mkWorld
    (put_user_cheque (userId s)
       (fullChequeId_of (userId s) (generateShortId (random16 i)))
       (sender_cheque s i)
       (put_profile (userId s)
          (set_balance (userBalance s + - parsedAmount i)%float p) d))
    fs
    [MsgBalanceUpdated (- parsedAmount i)%float; MsgCreateError].
Proof.
  intros Hp. unfold exec, start. rewrite handleCreateCheque_body.
  unfold try_catch. rewrite bind_run. unfold changeBalance.
  pose proof signed_in as Hu. apply String.eqb_neq in Hu. rewrite Hu.
  unfold try_catch, updateDoc_balance. rewrite bind_run. unfold write at 1.
  cbn [faults db log]. rewrite Hp. cbn [mbind option_bind tail].
  rewrite showMessage_run. rewrite bind_run. unfold setDoc at 1, write at 1.
  cbn [faults db log tail]. rewrite bind_run. unfold setDoc, write.
  cbn [faults db log]. now rewrite showMessage_run.
Qed.

End IssueFaults.

(** X10.  When the store rejects the balance update of an issue and
    accepts the two cheque writes, the failure is swallowed by
    [changeBalance]: the cheque is created in both collections, ACTIVE and
    redeemable, no profile changes (nothing is debited), and the success
    message follows the balance error. *)
Theorem issue_with_rejected_debit_creates_cheque
    (s : Session) (i : CreateInput) (d : Db) (fs : list bool) :
  userId s <> "" ->
  (0 <? parsedAmount i)%float = true ->
  (parsedAmount i <=? userBalance s)%float = true ->
  reliable fs ->
  let w := exec (handleCreateCheque s i) d (true :: fs) in
  let id := fullChequeId_of (userId s) (generateShortId (random16 i)) in
  profiles (db w) = profiles d /\
  cheques_of (userId s) (db w) !! id = Some (sender_cheque s i) /\
  public_cheques (db w) !! id = Some (public_cheque s i) /\
  log w = [MsgBalanceError;
           MsgChequeCreated (parsedAmount i) (generateShortId (random16 i))].
Proof.
  intros Hu Hpos Hle Hfs w id. subst w id.
  rewrite (handleCreateCheque_debit_rejected s i d Hu Hpos Hle fs Hfs).
  cbn [db log]. rewrite cheques_of_put_public_cheque, lookup_put_user_cheque_eq.
  repeat split. cbn. apply lookup_insert_eq.
Qed.

Lemma issue_with_rejected_debit_creates_cheque_witness :
  let w := exec (handleCreateCheque (Sample.sessionA Sample.db0) Sample.issue20)
             Sample.db0 [true] in
  balance <$> profiles (db w) !! "uidA" = Some 50%float /\
  active <$> public_cheques (db w) !! Sample.id20 = Some 1.
Proof.
  destruct (issue_with_rejected_debit_creates_cheque
              (Sample.sessionA Sample.db0) Sample.issue20 Sample.db0 []
              ltac:(intros [=]) eq_refl eq_refl reliable_nil)
    as (Hprof & _ & Hpub & _).
  split.
  - exact (f_equal (fun m => balance <$> m !! "uidA") Hprof).
  - exact (f_equal (fmap active) Hpub).
Defined.

(** X11.  When the store accepts the balance update of an issue and
    rejects a cheque write, the debit stays and the creation error is
    shown.  With the sender's copy rejected, no cheque document is written;
    with the public copy rejected, the sender's copy exists alone and the
    public collection, where codes are looked up, is unchanged. *)
Theorem issue_with_rejected_cheque_write_keeps_debit
    (s : Session) (i : CreateInput) (d : Db) (fs : list bool) (p : Profile) :
  userId s <> "" ->
  (0 <? parsedAmount i)%float = true ->
  (parsedAmount i <=? userBalance s)%float = true ->
  profiles d !! userId s = Some p ->
  let id := fullChequeId_of (userId s) (generateShortId (random16 i)) in
  let debited := set_balance (userBalance s - parsedAmount i)%float p in
  let w1 := exec (handleCreateCheque s i) d (false :: true :: fs) in
  let w2 := exec (handleCreateCheque s i) d (false :: false :: true :: fs) in
  (profiles (db w1) !! userId s = Some debited /\
   user_cheques (db w1) = user_cheques d /\
   public_cheques (db w1) = public_cheques d /\
   log w1 = [MsgBalanceUpdated (- parsedAmount i)%float; MsgCreateError]) /\
  (profiles (db w2) !! userId s = Some debited /\
   cheques_of (userId s) (db w2) !! id = Some (sender_cheque s i) /\
   public_cheques (db w2) = public_cheques d /\
   log w2 = [MsgBalanceUpdated (- parsedAmount i)%float; MsgCreateError]).
Proof.
  intros Hu Hpos Hle Hp id debited w1 w2. subst w1 w2 debited id.
  rewrite (handleCreateCheque_sender_rejected s i d Hu Hpos Hle fs p Hp).
  rewrite (handleCreateCheque_public_rejected s i d Hu Hpos Hle fs p Hp).
  cbn [db log]. rewrite lookup_put_user_cheque_eq, JsNumberFacts.add_opp.
  repeat split; cbn; apply lookup_insert_eq.
Qed.

Lemma issue_with_rejected_cheque_write_keeps_debit_witness :
  let w1 := exec (handleCreateCheque (Sample.sessionA Sample.db0) Sample.issue20)
              Sample.db0 [false; true] in
  balance <$> profiles (db w1) !! "uidA" = Some 30%float /\
  public_cheques (db w1) = public_cheques Sample.db0.
Proof.
  destruct (issue_with_rejected_cheque_write_keeps_debit
              (Sample.sessionA Sample.db0) Sample.issue20 Sample.db0 []
              Sample.alice ltac:(intros [=]) eq_refl eq_refl eq_refl)
    as ((Hprof & _ & Hpub & _) & _).
  split; [exact (f_equal (fmap balance) Hprof) | exact Hpub].
Defined.

(** X12.  When the code drawn for an issue is the code of a cheque the
    issuer already has, the new cheque is written over the old one: both
    collections hold the new cheque under the old id and no collection
    grows, so the amount of the old cheque is no longer recorded. *)
Theorem issue_overwrites_own_cheque_with_same_code
    (s : Session) (i : CreateInput) (d : Db) (fs : list bool) (p : Profile)
    (old old' : Cheque) :
  userId s <> "" ->
  reliable fs ->
  profiles d !! userId s = Some p ->
  (0 <? parsedAmount i)%float = true ->
  (parsedAmount i <=? userBalance s)%float = true ->
  let id := fullChequeId_of (userId s) (generateShortId (random16 i)) in
  cheques_of (userId s) d !! id = Some old ->
  public_cheques d !! id = Some old' ->
  let d' := db (exec (handleCreateCheque s i) d fs) in
  cheques_of (userId s) d' !! id = Some (sender_cheque s i) /\
  public_cheques d' !! id = Some (public_cheque s i) /\
  size (cheques_of (userId s) d') = size (cheques_of (userId s) d) /\
  size (public_cheques d') = size (public_cheques d).
Proof.
  intros Hu Hfs Hp Hpos Hle id Hold Hold' d'. subst d'.
  rewrite (handleCreateCheque_run s i d fs p Hu Hfs Hp Hpos Hle).
  cbn [db]. fold id.
  rewrite cheques_of_put_public_cheque, cheques_of_put_user_cheque.
  rewrite decide_True by reflexivity. rewrite cheques_of_put_profile.
  unfold put_public_cheque. cbn [public_cheques].
  rewrite !lookup_insert_eq.
  rewrite !map_size_insert_Some by eauto. repeat split.
Qed.

Lemma issue_overwrites_own_cheque_with_same_code_witness :
  let d' := db (exec (handleCreateCheque (Sample.sessionA Sample.db1)
                        {| parsedAmount := 7%float; createIsAnonymous := false;
                           random16 := [0; 1; 2; 3; 4; 5; 6; 7; 8; 9];
                           now_sender := ""; now_public := "" |})
                  Sample.db1 []) in
  amount <$> public_cheques Sample.db1 !! Sample.id20 = Some 20%float /\
  amount <$> public_cheques d' !! Sample.id20 = Some 7%float /\
  size (public_cheques d') = size (public_cheques Sample.db1).
Proof.
  destruct (issue_overwrites_own_cheque_with_same_code
              (Sample.sessionA Sample.db1)
              {| parsedAmount := 7%float; createIsAnonymous := false;
                 random16 := [0; 1; 2; 3; 4; 5; 6; 7; 8; 9];
                 now_sender := ""; now_public := "" |}
              Sample.db1 [] (set_balance 30%float Sample.alice)
              (sender_cheque (Sample.sessionA Sample.db0) Sample.issue20)
              (public_cheque (Sample.sessionA Sample.db0) Sample.issue20)
              ltac:(intros [=]) reliable_nil eq_refl eq_refl eq_refl
              eq_refl eq_refl)
    as (_ & Hpub & _ & Hsize).
  split; [reflexivity | split; [exact (f_equal (fmap amount) Hpub) | exact Hsize]].
Defined.

(** * Further properties: redeem and cancel, composed *)

(** The successful run of [handleActivateCheque] from any world. *)
Lemma handleActivateCheque_run_from
    (s : Session) (code : string) (d : Db) (fs : list bool) (l : list Message)
    (id : string) (c pc : Cheque) (p : Profile) :
  userId s <> "" ->
  code <> "" ->
  reliable fs ->
  first_active (where_short_id code d) = Some (id, c) ->
  owner_id c <> userId s ->
  cheques_of (owner_id c) d !! id = Some pc ->
  profiles d !! userId s = Some p ->
  handleActivateCheque s code (mkWorld d fs l) =
  (Ok tt,
   mkWorld
     (put_profile (userId s) (set_balance (userBalance s + amount c)%float p)
        (put_user_cheque (owner_id c) id (set_active 0 pc)
           (put_public_cheque id (set_active 0 c) d)))
     (tail (tail (tail fs)))
     (l ++ [MsgBalanceUpdated (amount c); messageText c])).
Proof.
  intros Hu Hcode Hfs H Hown Hpc Hp.
  rewrite (handleActivateCheque_unfold s code d Hu Hcode) by reflexivity.
  rewrite H. apply String.eqb_neq in Hown. rewrite Hown.
  pose proof (first_active_Some _ _ _ H) as [Hin _].
  apply In_where_short_id in Hin as [Hc _].
  destruct (where_short_id code d) as [|x docs]; [discriminate H |].
  unfold try_catch. rewrite bind_run. unfold updateDoc_active at 1.
  erewrite write_accepted; [| assumption | simpl; rewrite Hc; reflexivity].
  rewrite bind_run. unfold updateDoc_active.
  erewrite write_accepted;
    [| now apply reliable_tail
     | rewrite cheques_of_put_public_cheque, Hpc; reflexivity].
  rewrite bind_run.
  erewrite changeBalance_run;
    [| assumption | now do 2 apply reliable_tail | simpl; exact Hp].
  rewrite showMessage_run. now rewrite <- app_assoc.
Qed.

(** A spent code resolves to nothing. *)
Lemma spent_resolves_to_nothing (code : string) (d : Db) :
  spent code d ->
  where_short_id code d <> [] /\ first_active (where_short_id code d) = None.
Proof.
  intros (_ & (id & c & Hc & Hcode) & Hdead). split.
  - assert (Hin : In (id, c) (where_short_id code d))
      by now apply In_where_short_id.
    intros E. now rewrite E in Hin.
  - apply first_active_None. intros [id' c'] Hin. simpl.
    apply In_where_short_id in Hin as [Hc' Hcode']. eauto.
Qed.

(** The code of the only ACTIVE cheque that carried it is spent once the
    flag of that cheque is at [0]. *)
Lemma spent_after_deactivation (code : string) (d d' : Db) (id : string) (c : Cheque) :
  well_formed d' ->
  public_cheques d !! id = Some c ->
  short_id c = code ->
  (forall id' c', public_cheques d !! id' = Some c' -> short_id c' = code ->
                  active c' = 1 -> id' = id) ->
  public_cheques d' = <[id := set_active 0 c]> (public_cheques d) ->
  spent code d'.
Proof.
  intros Hwf Hc Hcode Huniq Hd'. split; [exact Hwf | split].
  - exists id, (set_active 0 c). rewrite Hd', lookup_insert_eq. now split.
  - intros id' c' Hc' Hcode'. rewrite Hd', lookup_insert in Hc'.
    case_decide as E.
    + injection Hc' as <-. simpl. lia.
    + intros Hact. apply E. symmetry. eauto.
Qed.

Lemma spent_put_profile code d uid p : spent code d -> spent code (put_profile uid p d).
Proof. intros H. exact H. Qed.

Lemma spent_put_user_cheque code d uid id c :
  spent code d -> owner_id c = uid -> well_formed_cheque id c ->
  spent code (put_user_cheque uid id c d).
Proof.
  intros (Hwf & Hex & Hdead) Hown Hc.
  split; [now apply well_formed_put_user_cheque | now split].
Qed.

Lemma spent_deactivate_public code d id c :
  spent code d -> public_cheques d !! id = Some c ->
  spent code (put_public_cheque id (set_active 0 c) d).
Proof.
  intros (Hwf & (id0 & c0 & Hc0 & Hcode0) & Hdead) Hc. split; [| split].
  - apply well_formed_put_public_cheque; [exact Hwf |]. exact (proj2 Hwf _ _ Hc).
  - cbn [public_cheques put_public_cheque].
    destruct (decide (id = id0)) as [-> | Hne].
    + exists id0, (set_active 0 c). rewrite lookup_insert_eq.
      split; [reflexivity |]. rewrite Hc0 in Hc. now injection Hc as <-.
    + exists id0, c0. now rewrite lookup_insert_ne.
  - intros id' c'. cbn [public_cheques put_public_cheque]. rewrite lookup_insert.
    case_decide; [intros [= <-] _; simpl; lia | apply Hdead].
Qed.

(** A cheque with another code, written under its own id. *)
Lemma spent_put_public_cheque code d id c :
  spent code d -> well_formed_cheque id c -> short_id c <> code ->
  spent code (put_public_cheque id c d).
Proof.
  intros (Hwf & (id0 & c0 & Hc0 & Hcode0) & Hdead) Hc Hne. split; [| split].
  - now apply well_formed_put_public_cheque.
  - exists id0, c0. split; [| exact Hcode0].
    cbn [public_cheques put_public_cheque]. rewrite lookup_insert_ne; [exact Hc0 |].
    intros E. subst id0. destruct Hc as [Hid Hlen].
    destruct (proj2 Hwf _ _ Hc0) as [Hid0 Hlen0]. rewrite Hid0 in Hid.
    apply fullChequeId_of_inj in Hid as [_ Hid]; congruence.
  - intros id' c'. cbn [public_cheques put_public_cheque]. rewrite lookup_insert.
    case_decide; [intros [= <-] Hcode; contradiction | apply Hdead].
Qed.

Lemma spent_updateDoc_active code r :
  preserves (spent code) (updateDoc_active r 0).
Proof.
  apply preserves_write. intros d d' Hd H. destruct r as [uid k|k].
  - destruct (cheques_of uid d !! k) as [c|] eqn:E; simpl in H; [| discriminate].
    injection H as <-. destruct (proj1 (proj1 Hd) _ _ _ E) as [Ho Hc].
    now apply spent_put_user_cheque.
  - destruct (public_cheques d !! k) as [c|] eqn:E; simpl in H; [| discriminate].
    injection H as <-. now apply spent_deactivate_public.
Qed.

Lemma spent_changeBalance code s a : preserves (spent code) (changeBalance s a).
Proof.
  unfold changeBalance. destruct (String.eqb (userId s) ""); auto with preserves.
  apply preserves_try_catch; auto with preserves.
  apply preserves_bind; auto with preserves.
  apply preserves_write. intros d d' Hd H.
  destruct (profiles d !! userId s); simpl in H; [| discriminate].
  injection H as <-. now apply spent_put_profile.
Qed.

Lemma spent_handleCreateCheque code s i :
  generateShortId (random16 i) <> code ->
  preserves (spent code) (handleCreateCheque s i).
Proof.
  intros Hne. unfold handleCreateCheque.
  destruct (String.eqb _ ""); [apply preserves_ret |].
  destruct (_ || _)%bool; [apply preserves_showMessage |].
  destruct (_ <? _)%float; [apply preserves_showMessage |].
  assert (Hs : well_formed_cheque
                 (fullChequeId_of (userId s) (generateShortId (random16 i)))
                 (sender_cheque s i))
    by (split; [reflexivity | apply length_generateShortId]).
  apply preserves_try_catch; auto with preserves. cbv zeta.
  apply preserves_bind; [apply spent_changeBalance | intros _].
  apply preserves_bind; [| intros _; apply preserves_bind; auto with preserves].
  - apply preserves_write. intros d d' Hd [= <-].
    now apply spent_put_user_cheque.
  - apply preserves_write. intros d d' Hd [= <-].
    now apply spent_put_public_cheque.
Qed.

Lemma spent_handleActivateCheque code s entered :
  preserves (spent code) (handleActivateCheque s entered).
Proof.
  unfold handleActivateCheque.
  destruct (String.eqb _ ""); [apply preserves_ret |].
  destruct (String.eqb entered ""); [apply preserves_showMessage |].
  apply preserves_try_catch; auto with preserves.
  apply preserves_bind; [apply preserves_read | intros docs].
  destruct docs; [apply preserves_showMessage |].
  destruct (first_active _) as [[k c0]|]; [| apply preserves_showMessage].
  destruct (String.eqb _ _); [apply preserves_showMessage |].
  repeat (apply preserves_bind;
          [first [apply spent_updateDoc_active | apply spent_changeBalance]
          | intros _]).
  apply preserves_showMessage.
Qed.

Lemma spent_handleDeleteCheque code s cheque :
  preserves (spent code) (handleDeleteCheque s cheque).
Proof.
  unfold handleDeleteCheque.
  destruct (String.eqb _ ""); [apply preserves_ret |].
  apply preserves_try_catch; auto with preserves.
  repeat (apply preserves_bind;
          [first [apply spent_updateDoc_active | apply spent_changeBalance]
          | intros _]).
  apply preserves_showMessage.
Qed.

Lemma spent_run_command code cmd :
  avoids code cmd -> preserves (spent code) (run_command cmd).
Proof.
  intros Hav w H. unfold run_command. cbv zeta. unfold avoids in Hav.
  destruct (cmd_action cmd) as [name now|i|entered|k].
  - apply preserves_try_catch; auto with preserves.
    unfold signIn. apply preserves_bind; [apply preserves_read | intros [p|]];
      auto with preserves.
    apply preserves_write. intros d d' Hd [= <-]. now apply spent_put_profile.
  - now apply spent_handleCreateCheque.
  - now apply spent_handleActivateCheque.
  - destruct (find _ _) as [cheque|]; [| exact H].
    now apply spent_handleDeleteCheque.
Qed.

(** A spent code stays spent as long as no issue draws it again. *)
Lemma spent_run_commands code (cs : list Command) (w : World) :
  Forall (avoids code) cs -> spent code (db w) ->
  spent code (db (run_commands cs w)).
Proof.
  intros Hcs. revert w.
  induction Hcs as [|cmd cs Hcmd _ IH]; intros w H; simpl; [exact H |].
  apply IH. now apply spent_run_command.
Qed.

(** X13.  A redeemed code stays spent: in a store whose documents carry
    the ids the application gives them, after a successful redemption of
    the only ACTIVE cheque that carries a code, and after any further
    commands by any users in which no issue draws that code again, whatever
    the store answers, every attempt to redeem the code, by any signed-in
    user, changes nothing and reports that the cheque was activated or
    deleted. *)
Theorem redeemed_code_cannot_be_redeemed_again
    (s s2 : Session) (code : string) (d : Db) (fs fs2 : list bool)
    (id : string) (c pc : Cheque) (p : Profile)
    (cs : list Command) (fs' : list bool) (l' : list Message) :
  userId s <> "" ->
  code <> "" ->
  reliable fs ->
  well_formed d ->
  first_active (where_short_id code d) = Some (id, c) ->
  (forall id' c', public_cheques d !! id' = Some c' -> short_id c' = code ->
                  active c' = 1 -> id' = id) ->
  owner_id c <> userId s ->
  cheques_of (owner_id c) d !! id = Some pc ->
  profiles d !! userId s = Some p ->
  Forall (avoids code) cs ->
  userId s2 <> "" ->
  let d1 := db (exec (handleActivateCheque s code) d fs) in
  let d2 := db (run_commands cs (mkWorld d1 fs' l')) in
  exec (handleActivateCheque s2 code) d2 fs2
  = mkWorld d2 fs2 [MsgChequeActivatedOrDeleted].
Proof.
  intros Hu Hcode Hfs Hwf Hres Huniq Hown Hpc Hp Hcs Hu2 d1 d2.
  pose proof (first_active_Some _ _ _ Hres) as [Hin _].
  apply In_where_short_id in Hin as [Hc Hsc].
  assert (Hwf1 : well_formed d1).
  { apply (preserves_handleActivateCheque s code (start d fs)). exact Hwf. }
  assert (Hd1 : public_cheques d1 = <[id := set_active 0 c]> (public_cheques d)).
  { subst d1.
    now rewrite (handleActivateCheque_run s code d fs Hu Hcode id c pc p). }
  pose proof (spent_after_deactivation code d d1 id c Hwf1 Hc Hsc Huniq Hd1) as Hsp.
  destruct (spent_resolves_to_nothing code d2
              (spent_run_commands code cs (mkWorld d1 fs' l') Hcs Hsp)).
  now apply handleActivateCheque_inactive.
Qed.

(** Bob redeems Alice's cheque; Carol issues a cheque with another code and
    Alice tries to delete hers; then Carol enters Alice's code. *)
Lemma redeemed_code_cannot_be_redeemed_again_witness :
  let cs := [mkCommand "uidC" None
               (IssueCheque (mkCreateInput 0.03%float true
                               [9; 8; 7; 6; 5; 4; 3; 2; 1; 0]
                               "2024-02-02T10:00:00.000Z"
                               "2024-02-02T10:00:00.001Z"));
             mkCommand "uidA" None (CancelCheque Sample.id20)] in
  let d2 := db (run_commands cs (mkWorld Sample.db2 [false; true] [])) in
  exec (handleActivateCheque (Sample.sessionC d2) Sample.code20) d2 [true]
  = mkWorld d2 [true] [MsgChequeActivatedOrDeleted].
Proof.
  intros cs d2.
  apply (redeemed_code_cannot_be_redeemed_again
           (Sample.sessionB Sample.db1) (Sample.sessionC d2)
           Sample.code20 Sample.db1 [] [true] Sample.id20
           (public_cheque (Sample.sessionA Sample.db0) Sample.issue20)
           (sender_cheque (Sample.sessionA Sample.db0) Sample.issue20)
           Sample.bob cs [false; true] []);
    try reflexivity; try (intros [=]; fail).
  - apply reliable_nil.
  - exact well_formed_sample_db1.
  - intros id' c' Hc' Hsc _.
    assert (Hin : In (id', c') (where_short_id Sample.code20 Sample.db1))
      by (apply In_where_short_id; split; assumption).
    vm_compute in Hin. destruct Hin as [[= <- _] | []]. reflexivity.
  - repeat constructor. intros [=].
Defined.

(** X14.  The confirmed deletion of a cheque of the caller's list, with a
    current view of the balance and a store that accepts the writes: the
    flag goes to [0] in the caller's collection and in the public one, the
    caller's balance becomes [balance + amount] for the amount shown in the
    list, the deletion message is shown, and no other profile or cheque
    changes. *)
Theorem cancel_deactivates_and_refunds
    (s : Session) (cheque : string * Cheque) (d : Db) (fs : list bool)
    (pc c : Cheque) (p : Profile) :
  userId s <> "" ->
  reliable fs ->
  cheques_of (userId s) d !! cheque.1 = Some pc ->
  public_cheques d !! cheque.1 = Some c ->
  profiles d !! userId s = Some p ->
  userBalance s = balance p ->
  let w := exec (handleDeleteCheque s cheque) d fs in
  cheques_of (userId s) (db w) !! cheque.1 = Some (set_active 0 pc) /\
  public_cheques (db w) !! cheque.1 = Some (set_active 0 c) /\
  balance <$> profiles (db w) !! userId s
    = Some (balance p + amount cheque.2)%float /\
  log w = [MsgBalanceUpdated (amount cheque.2);
           MsgChequeDeleted (short_id cheque.2) (amount cheque.2)] /\
  (forall u k, (u, k) <> (userId s, cheque.1) ->
               cheques_of u (db w) !! k = cheques_of u d !! k) /\
  (forall k, k <> cheque.1 -> public_cheques (db w) !! k = public_cheques d !! k) /\
  (forall u, u <> userId s -> profiles (db w) !! u = profiles d !! u).
Proof.
  intros Hu Hfs Hpc Hc Hp Hview w. subst w. unfold exec, start.
  rewrite (handleDeleteCheque_run s cheque d fs [] pc c p) by assumption.
  cbn [snd db log app]. rewrite Hview.
  set (d1 := put_user_cheque (userId s) cheque.1 (set_active 0 pc) d).
  set (d2 := put_public_cheque cheque.1 (set_active 0 c) d1).
  set (p' := set_balance (balance p + amount cheque.2)%float p).
  split; [| split; [| split; [| split; [| split; [| split]]]]].
  - rewrite cheques_of_put_profile. subst d2.
    rewrite cheques_of_put_public_cheque. apply lookup_put_user_cheque_eq.
  - cbn [public_cheques put_profile d2 put_public_cheque]. apply lookup_insert_eq.
  - cbn [profiles put_profile]. now rewrite lookup_insert_eq.
  - reflexivity.
  - intros u k Hne. rewrite cheques_of_put_profile. subst d2.
    rewrite cheques_of_put_public_cheque. now apply lookup_put_user_cheque_ne.
  - intros k Hne. cbn [public_cheques put_profile]. subst d2.
    cbn [public_cheques put_public_cheque]. now rewrite lookup_insert_ne.
  - intros u Hne. cbn [profiles put_profile]. now rewrite lookup_insert_ne.
Qed.

Lemma cancel_deactivates_and_refunds_witness :
  let w := exec (handleDeleteCheque (Sample.sessionA Sample.db1) Sample.cheque20)
             Sample.db1 [] in
  balance <$> profiles (db w) !! "uidA" = Some 50%float /\
  active <$> public_cheques (db w) !! Sample.id20 = Some 0.
Proof.
  destruct (cancel_deactivates_and_refunds
              (Sample.sessionA Sample.db1) Sample.cheque20 Sample.db1 []
              (sender_cheque (Sample.sessionA Sample.db0) Sample.issue20)
              (public_cheque (Sample.sessionA Sample.db0) Sample.issue20)
              (set_balance 30%float Sample.alice)
              ltac:(intros [=]) reliable_nil eq_refl eq_refl eq_refl eq_refl)
    as (_ & Hpub & Hbal & _).
  split; [exact Hbal | exact (f_equal (fmap active) Hpub)].
Defined.

(** X15.  A cancelled code stays spent: in a store whose documents carry
    the ids the application gives them, after the successful deletion of
    the only ACTIVE cheque that carries a code, and after any further
    commands by any users in which no issue draws that code again, whatever
    the store answers, every attempt to redeem the code, by any signed-in
    user, changes nothing and reports that the cheque was activated or
    deleted. *)
Theorem cancelled_code_cannot_be_redeemed
    (s s2 : Session) (cheque : string * Cheque) (d : Db) (fs fs2 : list bool)
    (pc c : Cheque) (p : Profile)
    (cs : list Command) (fs' : list bool) (l' : list Message) :
  userId s <> "" ->
  reliable fs ->
  well_formed d ->
  cheques_of (userId s) d !! cheque.1 = Some pc ->
  public_cheques d !! cheque.1 = Some c ->
  profiles d !! userId s = Some p ->
  (forall id' c', public_cheques d !! id' = Some c' -> short_id c' = short_id c ->
                  active c' = 1 -> id' = cheque.1) ->
  Forall (avoids (short_id c)) cs ->
  userId s2 <> "" ->
  let d1 := db (exec (handleDeleteCheque s cheque) d fs) in
  let d2 := db (run_commands cs (mkWorld d1 fs' l')) in
  exec (handleActivateCheque s2 (short_id c)) d2 fs2
  = mkWorld d2 fs2 [MsgChequeActivatedOrDeleted].
Proof.
  intros Hu Hfs Hwf Hpc Hc Hp Huniq Hcs Hu2 d1 d2.
  assert (Hcode : short_id c <> "").
  { destruct (proj2 Hwf _ _ Hc) as [_ Hlen]. intros E. now rewrite E in Hlen. }
  assert (Hwf1 : well_formed d1).
  { apply (preserves_handleDeleteCheque s cheque (start d fs)). exact Hwf. }
  assert (Hd1 : public_cheques d1
                = <[cheque.1 := set_active 0 c]> (public_cheques d)).
  { subst d1. unfold exec, start.
    now rewrite (handleDeleteCheque_run s cheque d fs [] pc c p). }
  pose proof (spent_after_deactivation (short_id c) d d1 cheque.1 c Hwf1 Hc
                eq_refl Huniq Hd1) as Hsp.
  destruct (spent_resolves_to_nothing (short_id c) d2
              (spent_run_commands (short_id c) cs (mkWorld d1 fs' l') Hcs Hsp)).
  now apply handleActivateCheque_inactive.
Qed.

(** Alice deletes her cheque; Carol issues a cheque with another code and
    Bob tries the code; then Bob enters Alice's code again. *)
Lemma cancelled_code_cannot_be_redeemed_witness :
  let d1 := db (exec (handleDeleteCheque (Sample.sessionA Sample.db1)
                        Sample.cheque20) Sample.db1 []) in
  let cs := [mkCommand "uidC" None
               (IssueCheque (mkCreateInput 0.03%float true
                               [9; 8; 7; 6; 5; 4; 3; 2; 1; 0]
                               "2024-02-02T10:00:00.000Z"
                               "2024-02-02T10:00:00.001Z"));
             mkCommand "uidB" None (RedeemCheque Sample.code20)] in
  let d2 := db (run_commands cs (mkWorld d1 [true] [])) in
  exec (handleActivateCheque (Sample.sessionB d2) Sample.code20) d2 []
  = mkWorld d2 [] [MsgChequeActivatedOrDeleted].
Proof.
  intros d1 cs d2.
  apply (cancelled_code_cannot_be_redeemed
           (Sample.sessionA Sample.db1) (Sample.sessionB d2)
           Sample.cheque20 Sample.db1 [] []
           (sender_cheque (Sample.sessionA Sample.db0) Sample.issue20)
           (public_cheque (Sample.sessionA Sample.db0) Sample.issue20)
           (set_balance 30%float Sample.alice) cs [true] []);
    try reflexivity; try (intros [=]; fail).
  - apply reliable_nil.
  - exact well_formed_sample_db1.
  - intros id' c' Hc' Hsc _.
    assert (Hin : In (id', c') (where_short_id Sample.code20 Sample.db1))
      by (apply In_where_short_id; split; assumption).
    vm_compute in Hin. destruct Hin as [[= <- _] | []]. reflexivity.
  - repeat constructor. intros [=].
Defined.

(** A cheque that is not in the caller's collection with flag [1] has no
    delete button. *)
Lemma find_unlisted_cheque (uid : string) (d : Db) (id : string) :
  (forall c, cheques_of uid d !! id = Some c -> active c <> 1) ->
  List.find (fun x => String.eqb x.1 id) (active_cheques_of uid d) = None.
Proof.
  intros H.
  destruct (find _ (active_cheques_of uid d)) as [[id' c']|] eqn:E; [| reflexivity].
  exfalso. apply find_some in E as [Hin Hid]. simpl in Hid.
  apply String.eqb_eq in Hid. subst id'.
  unfold active_cheques_of in Hin. apply filter_In in Hin as [Hin Hact].
  apply In_docs_in_order in Hin. simpl in Hact. apply Z.eqb_eq in Hact.
  exact (H _ Hin Hact).
Qed.

(** X16.  From a component whose listeners are up to date, a delete
    command acts only on the caller's own ACTIVE cheques: for an id that the
    caller's collection does not hold with flag [1] (another user's cheque, a
    redeemed or cancelled one, an unknown id), the command does nothing and
    shows nothing. *)
Theorem cancel_command_needs_listed_cheque
    (uid : string) (mail : option string) (id : string) (w : World) :
  (forall c, cheques_of uid (db w) !! id = Some c -> active c <> 1) ->
  run_command (mkCommand uid mail (CancelCheque id)) w = (Ok tt, w).
Proof.
  intros H. unfold run_command. cbn [cmd_action cmd_user cmd_email].
  unfold session_of, onSnapshot. cbn [activeCheques userId mounted].
  now rewrite find_unlisted_cheque.
Qed.

Lemma cancel_command_needs_listed_cheque_witness :
  run_command (mkCommand "uidB" None (CancelCheque Sample.id20))
    (start Sample.db1 [])
  = (Ok tt, start Sample.db1 []).
Proof.
  apply cancel_command_needs_listed_cheque.
  intros c Hc. vm_compute in Hc. discriminate Hc.
Defined.



(** X18.  A cheque carries its amount from the issuer to the redeemer: when
    a user issues a cheque whose code no ACTIVE public cheque carries yet,
    and another user with a profile then redeems that code, both on a store
    that accepts the writes, the issuer's balance is [view - amount], the
    redeemer's is [view + amount], the cheque is inactive in both
    collections, and the redeemer is shown the amount. *)
Theorem issue_then_redeem_transfers
    (s s2 : Session) (i : CreateInput) (d : Db) (fs fs2 : list bool)
    (p p2 : Profile) :
  userId s <> "" ->
  userId s2 <> "" ->
  userId s2 <> userId s ->
  reliable fs ->
  reliable fs2 ->
  profiles d !! userId s = Some p ->
  profiles d !! userId s2 = Some p2 ->
  (0 <? parsedAmount i)%float = true ->
  (parsedAmount i <=? userBalance s)%float = true ->
  (forall id' c', public_cheques d !! id' = Some c' ->
                  short_id c' = generateShortId (random16 i) -> active c' <> 1) ->
  let code := generateShortId (random16 i) in
  let id := fullChequeId_of (userId s) code in
  let d1 := db (exec (handleCreateCheque s i) d fs) in
  let w2 := exec (handleActivateCheque s2 code) d1 fs2 in
  balance <$> profiles (db w2) !! userId s
    = Some (userBalance s - parsedAmount i)%float /\
  balance <$> profiles (db w2) !! userId s2
    = Some (userBalance s2 + parsedAmount i)%float /\
  active <$> public_cheques (db w2) !! id = Some 0 /\
  active <$> cheques_of (userId s) (db w2) !! id = Some 0 /\
  log w2 = [MsgBalanceUpdated (parsedAmount i); messageText (public_cheque s i)].
Proof.
  intros Hu Hu2 Hne Hfs Hfs2 Hp Hp2 Hpos Hle Hfresh code id d1 w2.
  assert (Hd1 : d1 = put_public_cheque id (public_cheque s i)
                       (put_user_cheque (userId s) id (sender_cheque s i)
                          (put_profile (userId s)
                             (set_balance (userBalance s - parsedAmount i)%float p) d))).
  { subst d1. now rewrite (handleCreateCheque_run s i d fs p). }
  assert (Hpub : public_cheques d1 !! id = Some (public_cheque s i)).
  { rewrite Hd1. cbn [public_cheques put_public_cheque]. apply lookup_insert_eq. }
  assert (Hown : cheques_of (userId s) d1 !! id = Some (sender_cheque s i)).
  { rewrite Hd1, cheques_of_put_public_cheque. apply lookup_put_user_cheque_eq. }
  assert (Hp2' : profiles d1 !! userId s2 = Some p2).
  { rewrite Hd1. cbn [profiles put_public_cheque put_user_cheque put_profile].
    now rewrite lookup_insert_ne by congruence. }
  assert (Hres : first_active (where_short_id code d1) = Some (id, public_cheque s i)).
  { apply first_active_unique; [exact Hpub | reflexivity | reflexivity |].
    intros id' c' Hc' Hcode Hact.
    destruct (decide (id' = id)) as [E | E]; [exact E | exfalso].
    rewrite Hd1 in Hc'. cbn [public_cheques put_public_cheque put_user_cheque
                              put_profile] in Hc'.
    rewrite lookup_insert_ne in Hc' by congruence.
    exact (Hfresh id' c' Hc' Hcode Hact). }
  assert (Hcode : code <> "").
  { intros E. pose proof (length_generateShortId (random16 i)) as Hlen.
    fold code in Hlen. rewrite E in Hlen. discriminate Hlen. }
  subst w2. unfold exec, start.
  rewrite (handleActivateCheque_run_from s2 code d1 fs2 [] id (public_cheque s i)
             (sender_cheque s i) p2 Hu2 Hcode Hfs2 Hres
             ltac:(cbn [owner_id public_cheque]; congruence) Hown Hp2').
  cbn [snd db log app owner_id amount public_cheque].
  split; [| split; [| split; [| split]]].
  - cbn [profiles put_profile]. rewrite lookup_insert_ne by congruence.
    cbn [profiles put_user_cheque put_public_cheque].
    rewrite Hd1. cbn [profiles put_public_cheque put_user_cheque put_profile].
    now rewrite lookup_insert_eq.
  - cbn [profiles put_profile]. now rewrite lookup_insert_eq.
  - cbn [public_cheques put_profile put_user_cheque put_public_cheque].
    now rewrite lookup_insert_eq.
  - rewrite cheques_of_put_profile, lookup_put_user_cheque_eq. reflexivity.
  - reflexivity.
Qed.

Lemma issue_then_redeem_transfers_witness :
  let d1 := db (exec (handleCreateCheque (Sample.sessionA Sample.db0) Sample.issue20)
                  Sample.db0 []) in
  let w2 := exec (handleActivateCheque (Sample.sessionB Sample.db0) Sample.code20)
              d1 [] in
  balance <$> profiles (db w2) !! "uidA" = Some 30%float /\
  balance <$> profiles (db w2) !! "uidB" = Some 25%float.
Proof.
  destruct (issue_then_redeem_transfers
              (Sample.sessionA Sample.db0) (Sample.sessionB Sample.db0)
              Sample.issue20 Sample.db0 [] [] Sample.alice Sample.bob
              ltac:(intros [=]) ltac:(intros [=]) ltac:(intros [=])
              reliable_nil reliable_nil eq_refl eq_refl eq_refl eq_refl
              ltac:(intros id' c' Hc'; vm_compute in Hc'; discriminate Hc'))
    as (Ha & Hb & _).
  split; [exact Ha | exact Hb].
Defined.

(** X19.  The deletion is not atomic: when the store accepts the update of
    the caller's document and rejects the update of the public one, the
    cheque leaves the caller's list of active cheques, the public cheque is
    as it was (an active one can still be redeemed), nothing is refunded and
    the deletion error is shown. *)
Theorem cancel_with_rejected_public_update
    (s : Session) (cheque : string * Cheque) (d : Db) (fs : list bool)
    (pc : Cheque) :
  userId s <> "" ->
  cheques_of (userId s) d !! cheque.1 = Some pc ->
  let w := exec (handleDeleteCheque s cheque) d (false :: true :: fs) in
  cheques_of (userId s) (db w) !! cheque.1 = Some (set_active 0 pc) /\
  public_cheques (db w) = public_cheques d /\
  profiles (db w) = profiles d /\
  faults w = fs /\
  log w = [MsgDeleteError].
Proof.
  intros Hu Hpc w.
  assert (E : w = mkWorld (put_user_cheque (userId s) cheque.1 (set_active 0 pc) d)
                    fs [MsgDeleteError]).
  { subst w. unfold exec, start, handleDeleteCheque.
    apply String.eqb_neq in Hu. rewrite Hu.
    unfold try_catch. rewrite bind_run.
    unfold updateDoc_active at 1. unfold write at 1.
    cbn [db faults log tail]. rewrite Hpc. cbn [mbind option_bind].
    rewrite bind_run. reflexivity. }
  rewrite E. cbn [db faults log].
  split; [apply lookup_put_user_cheque_eq |]. repeat split.
Qed.

Lemma cancel_with_rejected_public_update_witness :
  let w := exec (handleDeleteCheque (Sample.sessionA Sample.db1) Sample.cheque20)
             Sample.db1 [false; true] in
  active <$> cheques_of "uidA" (db w) !! Sample.id20 = Some 0 /\
  public_cheques (db w) = public_cheques Sample.db1 /\
  profiles (db w) = profiles Sample.db1.
Proof.
  destruct (cancel_with_rejected_public_update
              (Sample.sessionA Sample.db1) Sample.cheque20 Sample.db1 []
              (sender_cheque (Sample.sessionA Sample.db0) Sample.issue20)
              ltac:(intros [=]) eq_refl)
    as (Hc & Hpub & Hprof & _).
  split; [exact (f_equal (fmap active) Hc) | split; assumption].
Defined.

(** X20.  The debit is computed from the component's view of the balance,
    not from the store: when a user issues two cheques with different codes
    from components that hold the same view (the second has not yet received
    the snapshot of the first debit), on a store that accepts the writes,
    both cheques are ACTIVE in the public collection and the stored balance
    is the view less the second amount only. *)
Theorem issue_twice_from_one_view
    (s : Session) (i1 i2 : CreateInput) (d : Db) (fs1 fs2 : list bool)
    (p : Profile) :
  userId s <> "" ->
  reliable fs1 ->
  reliable fs2 ->
  profiles d !! userId s = Some p ->
  (0 <? parsedAmount i1)%float = true ->
  (parsedAmount i1 <=? userBalance s)%float = true ->
  (0 <? parsedAmount i2)%float = true ->
  (parsedAmount i2 <=? userBalance s)%float = true ->
  generateShortId (random16 i1) <> generateShortId (random16 i2) ->
  let d1 := db (exec (handleCreateCheque s i1) d fs1) in
  let d2 := db (exec (handleCreateCheque s i2) d1 fs2) in
  balance <$> profiles d2 !! userId s
    = Some (userBalance s - parsedAmount i2)%float /\
  public_cheques d2 !! fullChequeId_of (userId s) (generateShortId (random16 i1))
    = Some (public_cheque s i1) /\
  public_cheques d2 !! fullChequeId_of (userId s) (generateShortId (random16 i2))
    = Some (public_cheque s i2).
Proof.
  intros Hu Hfs1 Hfs2 Hp Hpos1 Hle1 Hpos2 Hle2 Hcodes d1 d2.
  assert (Hd1 : d1 = put_public_cheque
                       (fullChequeId_of (userId s) (generateShortId (random16 i1)))
                       (public_cheque s i1)
                       (put_user_cheque (userId s)
                          (fullChequeId_of (userId s) (generateShortId (random16 i1)))
                          (sender_cheque s i1)
                          (put_profile (userId s)
                             (set_balance (userBalance s - parsedAmount i1)%float p) d))).
  { subst d1. now rewrite (handleCreateCheque_run s i1 d fs1 p). }
  assert (Hp1 : profiles d1 !! userId s
                = Some (set_balance (userBalance s - parsedAmount i1)%float p)).
  { rewrite Hd1. cbn [profiles put_public_cheque put_user_cheque put_profile].
    apply lookup_insert_eq. }
  assert (Hc1 : public_cheques d1
                  !! fullChequeId_of (userId s) (generateShortId (random16 i1))
                = Some (public_cheque s i1)).
  { rewrite Hd1. cbn [public_cheques put_public_cheque]. apply lookup_insert_eq. }
  subst d2. rewrite (handleCreateCheque_run s i2 d1 fs2 _ Hu Hfs2 Hp1 Hpos2 Hle2).
  cbn [db]. split; [| split].
  - cbn [profiles put_public_cheque put_user_cheque put_profile].
    now rewrite lookup_insert_eq.
  - cbn [public_cheques put_public_cheque put_user_cheque put_profile].
    rewrite lookup_insert_ne; [exact Hc1 |].
    intros E. apply fullChequeId_of_inj in E as [_ E]; [congruence |].
    now rewrite !length_generateShortId.
  - cbn [public_cheques put_public_cheque]. apply lookup_insert_eq.
Qed.

Lemma issue_twice_from_one_view_witness :
  let s := Sample.sessionA Sample.db0 in
  let i2 := mkCreateInput 40%float false [9; 8; 7; 6; 5; 4; 3; 2; 1; 0]
              "2024-02-01T10:00:01.000Z" "2024-02-01T10:00:01.001Z" in
  let d1 := db (exec (handleCreateCheque s Sample.issue20) Sample.db0 []) in
  let d2 := db (exec (handleCreateCheque s i2) d1 []) in
  balance <$> profiles d2 !! "uidA" = Some 10%float /\
  amount <$> public_cheques d2 !! Sample.id20 = Some 20%float /\
  amount <$> public_cheques d2 !! "uidA-9876543210" = Some 40%float.
Proof.
  destruct (issue_twice_from_one_view
              (Sample.sessionA Sample.db0) Sample.issue20
              (mkCreateInput 40%float false [9; 8; 7; 6; 5; 4; 3; 2; 1; 0]
                 "2024-02-01T10:00:01.000Z" "2024-02-01T10:00:01.001Z")
              Sample.db0 [] [] Sample.alice
              ltac:(intros [=]) reliable_nil reliable_nil eq_refl
              eq_refl eq_refl eq_refl eq_refl ltac:(intros [=]))
    as (Hbal & H1 & H2).
  split; [exact Hbal | split].
  - exact (f_equal (fmap amount) H1).
  - exact (f_equal (fmap amount) H2).
Defined.

(** * Further properties: invariants of runs *)

(** X21.  In every store the application builds from a well-formed one,
    whatever the store answers to the writes, two different public cheques
    that carry the same code belong to different owners: a code is ambiguous
    only across users. *)
Theorem same_code_means_different_owners
    (cs : list Command) (w : World) (id1 id2 : string) (c1 c2 : Cheque) :
  well_formed (db w) ->
  public_cheques (db (run_commands cs w)) !! id1 = Some c1 ->
  public_cheques (db (run_commands cs w)) !! id2 = Some c2 ->
  id1 <> id2 ->
  short_id c1 = short_id c2 ->
  owner_id c1 <> owner_id c2.
Proof.
  intros Hwf H1 H2 Hne Hcode Hown.
  apply (well_formed_run_commands cs) in Hwf as [_ Hpub].
  destruct (Hpub _ _ H1) as [E1 _], (Hpub _ _ H2) as [E2 _].
  apply Hne. rewrite E1, E2. now rewrite Hown, Hcode.
Qed.

Lemma well_formed_sample_db0 : well_formed Sample.db0.
Proof. split; intros *; unfold cheques_of; simpl; now rewrite ?lookup_empty. Qed.

Lemma same_code_means_different_owners_witness : "uidA" <> "uidC".
Proof.
  exact (same_code_means_different_owners
           [mkCommand "uidA" None (IssueCheque Sample.issue20);
            mkCommand "uidC" None (IssueCheque Sample.issue003)]
           (start Sample.db0 []) Sample.id20 Sample.id003
           (public_cheque (Sample.sessionA Sample.db0) Sample.issue20)
           (public_cheque (Sample.sessionC Sample.db1) Sample.issue003)
           well_formed_sample_db0
           ltac:(vm_compute; reflexivity) ltac:(vm_compute; reflexivity)
           ltac:(intros [=]) eq_refl).
Defined.

(** X22.  No balance becomes negative: from any store whose balances and
    cheque amounts are not negative, after every sequence of sign-ins,
    issues of finite amounts, redemptions and deletions by any users, issued
    from components whose listeners are up to date, and whatever the store
    answers to the writes, every stored balance satisfies [0 <= balance]. *)
Theorem no_balance_becomes_negative
    (cs : list Command) (w : World) (u : string) (p : Profile) :
  Forall finite_input cs ->
  nonneg_store (db w) ->
  profiles (db (run_commands cs w)) !! u = Some p ->
  (0 <=? balance p)%float = true.
Proof.
  intros Hcs Hw Hp.
  destruct (nonneg_run_commands cs w Hcs Hw) as [Hbal _]. eauto.
Qed.

Lemma no_balance_becomes_negative_witness :
  (0 <=? balance (set_balance 25%float Sample.bob))%float = true.
Proof.
  apply (no_balance_becomes_negative
           [mkCommand "uidA" None (IssueCheque Sample.issue20);
            mkCommand "uidB" None (RedeemCheque Sample.code20);
            mkCommand "uidA" None (CancelCheque Sample.id20)]
           (start Sample.db0 []) "uidB").
  - repeat constructor.
  - exact nonneg_store_sample_db0.
  - vm_compute. reflexivity.
Defined.

(** ** A public cheque over its life *)

Lemma keeps_cheque_updateDoc_active id c r :
  preserves (keeps_cheque id c) (updateDoc_active r 0).
Proof.
  apply preserves_write. intros d d' Hd H. destruct r as [uid k|k].
  - destruct (cheques_of uid d !! k); simpl in H; [| discriminate].
    injection H as <-. exact Hd.
  - destruct (public_cheques d !! k) as [c0|] eqn:E; simpl in H; [| discriminate].
    injection H as <-. unfold keeps_cheque. cbn [public_cheques put_public_cheque].
    destruct (decide (k = id)) as [-> | Hne].
    + rewrite lookup_insert_eq. right.
      destruct Hd as [Hd | Hd]; rewrite Hd in E; now injection E as <-.
    + rewrite lookup_insert_ne by assumption. exact Hd.
Qed.

Lemma keeps_cheque_changeBalance id c s a :
  preserves (keeps_cheque id c) (changeBalance s a).
Proof.
  unfold changeBalance. destruct (String.eqb (userId s) ""); auto with preserves.
  apply preserves_try_catch; auto with preserves.
  apply preserves_bind; auto with preserves.
  apply preserves_write. intros d d' Hd H.
  destruct (profiles d !! userId s); simpl in H; [| discriminate].
  injection H as <-. exact Hd.
Qed.

Lemma keeps_cheque_handleCreateCheque id c s i :
  fullChequeId_of (userId s) (generateShortId (random16 i)) <> id ->
  preserves (keeps_cheque id c) (handleCreateCheque s i).
Proof.
  intros Hsp. unfold handleCreateCheque.
  destruct (String.eqb _ ""); [apply preserves_ret |].
  destruct (_ || _)%bool; [apply preserves_showMessage |].
  destruct (_ <? _)%float; [apply preserves_showMessage |].
  apply preserves_try_catch; auto with preserves. cbv zeta.
  apply preserves_bind; [apply keeps_cheque_changeBalance | intros _].
  apply preserves_bind; [| intros _; apply preserves_bind; auto with preserves].
  - apply preserves_write. intros d d' Hd [= <-]. exact Hd.
  - apply preserves_write. intros d d' Hd [= <-].
    unfold keeps_cheque. cbn [public_cheques put_public_cheque].
    rewrite lookup_insert_ne; [exact Hd | exact Hsp].
Qed.

Lemma keeps_cheque_handleActivateCheque id c s code :
  preserves (keeps_cheque id c) (handleActivateCheque s code).
Proof.
  unfold handleActivateCheque.
  destruct (String.eqb _ ""); [apply preserves_ret |].
  destruct (String.eqb code ""); [apply preserves_showMessage |].
  apply preserves_try_catch; auto with preserves.
  apply preserves_bind; [apply preserves_read | intros docs].
  destruct docs; [apply preserves_showMessage |].
  destruct (first_active _) as [[k c0]|]; [| apply preserves_showMessage].
  destruct (String.eqb _ _); [apply preserves_showMessage |].
  repeat (apply preserves_bind;
          [first [apply keeps_cheque_updateDoc_active
                 | apply keeps_cheque_changeBalance]
          | intros _]).
  apply preserves_showMessage.
Qed.

Lemma keeps_cheque_handleDeleteCheque id c s cheque :
  preserves (keeps_cheque id c) (handleDeleteCheque s cheque).
Proof.
  unfold handleDeleteCheque.
  destruct (String.eqb _ ""); [apply preserves_ret |].
  apply preserves_try_catch; auto with preserves.
  repeat (apply preserves_bind;
          [first [apply keeps_cheque_updateDoc_active
                 | apply keeps_cheque_changeBalance]
          | intros _]).
  apply preserves_showMessage.
Qed.

Lemma keeps_cheque_run_command id c cmd :
  spares id cmd -> preserves (keeps_cheque id c) (run_command cmd).
Proof.
  intros Hsp w H. unfold run_command. cbv zeta. unfold spares in Hsp.
  destruct (cmd_action cmd) as [name now|i|code|k].
  - apply preserves_try_catch; auto with preserves.
    unfold signIn. apply preserves_bind; [apply preserves_read | intros [p|]];
      auto with preserves.
    apply preserves_write. intros d d' Hd [= <-]. exact Hd.
  - now apply keeps_cheque_handleCreateCheque.
  - now apply keeps_cheque_handleActivateCheque.
  - destruct (find _ _) as [cheque|]; [| exact H].
    now apply keeps_cheque_handleDeleteCheque.
Qed.

(** X23.  A public cheque is written once: whatever the users do and
    whatever the store answers, as long as no issue draws the cheque's own
    document id again, the public cheque keeps every field it was created
    with, except that its flag may have been put to [0]; it is never
    removed. *)
Theorem public_cheque_only_loses_its_flag
    (cs : list Command) (w : World) (id : string) (c : Cheque) :
  Forall (spares id) cs ->
  public_cheques (db w) !! id = Some c ->
  public_cheques (db (run_commands cs w)) !! id = Some c \/
  public_cheques (db (run_commands cs w)) !! id = Some (set_active 0 c).
Proof.
  intros Hcs Hc. assert (H : keeps_cheque id c (db w)) by now left.
  clear Hc. revert w H.
  induction Hcs as [|cmd cs Hcmd _ IH]; intros w H; simpl; [exact H |].
  apply IH. now apply keeps_cheque_run_command.
Qed.

Lemma public_cheque_only_loses_its_flag_witness :
  let c := public_cheque (Sample.sessionA Sample.db0) Sample.issue20 in
  let w := run_commands
             [mkCommand "uidC" None (IssueCheque Sample.issue003);
              mkCommand "uidB" None (RedeemCheque Sample.code20);
              mkCommand "uidA" None (CancelCheque Sample.id20)]
             (start Sample.db1 [false; true]) in
  public_cheques (db w) !! Sample.id20 = Some c \/
  public_cheques (db w) !! Sample.id20 = Some (set_active 0 c).
Proof.
  apply (public_cheque_only_loses_its_flag
           [mkCommand "uidC" None (IssueCheque Sample.issue003);
            mkCommand "uidB" None (RedeemCheque Sample.code20);
            mkCommand "uidA" None (CancelCheque Sample.id20)]
           (start Sample.db1 [false; true]) Sample.id20).
  - repeat constructor. intros [=].
  - vm_compute. reflexivity.
Defined.

(** ** The two copies of a cheque *)

Lemma keeps_reliable_ret {A} (a : A) : keeps_reliable (mret a).
Proof. intros w H. exact H. Qed.

Lemma keeps_reliable_bind {A B} (m : M A) (k : A -> M B) :
  keeps_reliable m -> (forall a, keeps_reliable (k a)) -> keeps_reliable (m ≫= k).
Proof.
  intros Hm Hk w H. rewrite bind_run. specialize (Hm w H).
  destruct (m w) as [[a|] w']; simpl in *; [now apply Hk | assumption].
Qed.

Lemma keeps_reliable_try_catch {A} (body handler : M A) :
  keeps_reliable body -> keeps_reliable handler ->
  keeps_reliable (try_catch body handler).
Proof.
  intros Hb Hh w H. unfold try_catch. specialize (Hb w H).
  destruct (body w) as [[a|] w']; simpl in *; [assumption | now apply Hh].
Qed.

Lemma keeps_reliable_showMessage (m : Message) : keeps_reliable (showMessage m).
Proof. intros w H. exact H. Qed.

Lemma keeps_reliable_read {A} (f : Db -> A) : keeps_reliable (read f).
Proof. intros w H. exact H. Qed.

Lemma keeps_reliable_write (f : Db -> option Db) : keeps_reliable (write f).
Proof.
  intros w H. unfold write.
  destruct (faults w) as [|b fs'] eqn:E; simpl.
  - destruct (f (db w)); exact H.
  - apply reliable_tail in H. simpl in H.
    destruct b; [exact H |]. destruct (f (db w)); exact H.
Qed.

Create HintDb reliable.

#[local] Hint Resolve keeps_reliable_ret keeps_reliable_bind
  keeps_reliable_try_catch keeps_reliable_showMessage keeps_reliable_read
  keeps_reliable_write : reliable.

Lemma keeps_reliable_changeBalance s a : keeps_reliable (changeBalance s a).
Proof.
  unfold changeBalance, updateDoc_balance.
  destruct (String.eqb _ ""); auto 6 with reliable.
Qed.

(** [changeBalance] handles its own errors. *)
Lemma changeBalance_returns s a w : (changeBalance s a w).1 = Ok tt.
Proof.
  unfold changeBalance. destruct (String.eqb _ ""); [reflexivity |].
  unfold try_catch. rewrite bind_run. unfold updateDoc_balance, write.
  destruct (faults w) as [|[] fs']; simpl; try reflexivity;
    destruct (profiles (db w) !! userId s); reflexivity.
Qed.

Lemma copies_agree_changeBalance s a : preserves copies_agree (changeBalance s a).
Proof.
  unfold changeBalance. destruct (String.eqb (userId s) ""); auto with preserves.
  apply preserves_try_catch; auto with preserves.
  apply preserves_bind; auto with preserves.
  apply preserves_write. intros d d' Hd H.
  destruct (profiles d !! userId s); simpl in H; [| discriminate].
  injection H as <-. exact Hd.
Qed.

(** The handlers report an error of their body and change nothing more. *)
Lemma db_try_catch_showMessage (body : M unit) (m : Message) (w : World) :
  db (try_catch body (showMessage m) w).2 = db (body w).2.
Proof. unfold try_catch. now destruct (body w) as [[x|] w']. Qed.

Lemma put_cheques_comm (u id : string) (c pc : Cheque) (d : Db) :
  put_user_cheque u id c (put_public_cheque id pc d)
  = put_public_cheque id pc (put_user_cheque u id c d).
Proof. reflexivity. Qed.

(** Writing both copies of a cheque under its id keeps the copies in
    agreement. *)
Lemma copies_agree_put_both (d : Db) (u id : string) (c pc : Cheque) :
  well_formed d -> copies_agree d ->
  owner_id c = u -> well_formed_cheque id c -> same_cheque c pc ->
  copies_agree (put_public_cheque id pc (put_user_cheque u id c d)).
Proof.
  intros Hwf [Hpriv Hpub] Hown [Hid Hlen] Hsame. split.
  - intros u' k c'. rewrite cheques_of_put_public_cheque.
    cbn [public_cheques put_public_cheque put_user_cheque].
    destruct (decide (k = id)) as [-> | Hk].
    + rewrite lookup_insert_eq. intros Hc'. exists pc. split; [reflexivity |].
      destruct (decide (u' = u)) as [-> | Hu].
      * rewrite lookup_put_user_cheque_eq in Hc'. now injection Hc' as <-.
      * exfalso. rewrite lookup_put_user_cheque_ne in Hc' by congruence.
        destruct (proj1 Hwf _ _ _ Hc') as [Ho [Hid' Hlen']].
        rewrite Hid' in Hid.
        apply fullChequeId_of_inj in Hid as [E _]; [| congruence]. congruence.
    + rewrite lookup_insert_ne by congruence.
      rewrite lookup_put_user_cheque_ne by congruence. apply Hpriv.
  - intros k pc'. rewrite cheques_of_put_public_cheque.
    cbn [public_cheques put_public_cheque put_user_cheque].
    destruct (decide (k = id)) as [-> | Hk].
    + rewrite lookup_insert_eq. intros [= <-]. exists c.
      pose proof Hsame as (_ & Ho & _). rewrite <- Ho, Hown.
      split; [apply lookup_put_user_cheque_eq | exact Hsame].
    + rewrite lookup_insert_ne by congruence.
      rewrite lookup_put_user_cheque_ne by congruence. apply Hpub.
Qed.

Lemma same_cheque_set_active v c pc :
  same_cheque c pc -> same_cheque (set_active v c) (set_active v pc).
Proof. unfold same_cheque. simpl. tauto. Qed.

Lemma copies_agree_handleCreateCheque s i w :
  reliable (faults w) -> well_formed (db w) -> copies_agree (db w) ->
  copies_agree (db (handleCreateCheque s i w).2).
Proof.
  intros Hfs Hwf Hag. unfold handleCreateCheque.
  destruct (String.eqb (userId s) ""); [exact Hag |].
  destruct (_ || _)%bool; [exact Hag |].
  destruct (_ <? _)%float; [exact Hag |].
  cbv zeta.
  rewrite db_try_catch_showMessage. rewrite bind_run.
  pose proof (changeBalance_returns s (- parsedAmount i) w) as Hret.
  pose proof (copies_agree_changeBalance s (- parsedAmount i) w Hag) as Hag1.
  pose proof (preserves_changeBalance s (- parsedAmount i) w Hwf) as Hwf1.
  pose proof (keeps_reliable_changeBalance s (- parsedAmount i) w Hfs) as Hfs1.
  destruct (changeBalance s (- parsedAmount i) w) as [r [d1 fs1 l1]].
  simpl in Hret, Hag1, Hwf1, Hfs1. subst r.
  rewrite bind_run. unfold setDoc at 1.
  erewrite write_accepted; [| assumption | reflexivity].
  rewrite bind_run. unfold setDoc.
  erewrite write_accepted; [| now apply reliable_tail | reflexivity].
  rewrite showMessage_run. cbn [snd db].
  apply copies_agree_put_both; try assumption; try reflexivity.
  - split; [reflexivity | apply length_generateShortId].
  - repeat split.
Qed.

Lemma copies_agree_handleActivateCheque s code w :
  reliable (faults w) -> well_formed (db w) -> copies_agree (db w) ->
  copies_agree (db (handleActivateCheque s code w).2).
Proof.
  intros Hfs Hwf Hag. unfold handleActivateCheque.
  destruct (String.eqb (userId s) ""); [exact Hag |].
  destruct (String.eqb code ""); [exact Hag |].
  rewrite db_try_catch_showMessage. rewrite bind_run.
  unfold getDocs_short_id, read.
  destruct (where_short_id code (db w)) as [|x docs] eqn:Edocs; [exact Hag |].
  destruct (first_active (x :: docs)) as [[id c]|] eqn:Eact; [| exact Hag].
  destruct (String.eqb _ _); [exact Hag |].
  apply first_active_Some in Eact as [Hin _]. rewrite <- Edocs in Hin.
  apply In_where_short_id in Hin as [Hc _].
  destruct (proj2 Hag _ _ Hc) as (uc & Huc & Hsame).
  destruct (proj1 Hwf _ _ _ Huc) as [Ho Hwfc].
  destruct w as [d fs l]. cbn [db faults] in *.
  rewrite bind_run. unfold updateDoc_active at 1.
  erewrite write_accepted; [| assumption | simpl; rewrite Hc; reflexivity].
  rewrite bind_run. unfold updateDoc_active.
  erewrite write_accepted;
    [| now apply reliable_tail
     | rewrite cheques_of_put_public_cheque, Huc; reflexivity].
  rewrite put_cheques_comm.
  apply (preserves_bind copies_agree);
    [apply copies_agree_changeBalance | intros _; apply preserves_showMessage |].
  cbn [db]. apply copies_agree_put_both; try assumption.
  now apply same_cheque_set_active.
Qed.

Lemma copies_agree_handleDeleteCheque s cheque w :
  reliable (faults w) -> well_formed (db w) -> copies_agree (db w) ->
  cheques_of (userId s) (db w) !! cheque.1 = Some cheque.2 ->
  copies_agree (db (handleDeleteCheque s cheque w).2).
Proof.
  intros Hfs Hwf Hag Hc. unfold handleDeleteCheque.
  destruct (String.eqb (userId s) ""); [exact Hag |].
  rewrite db_try_catch_showMessage.
  destruct (proj1 Hag _ _ _ Hc) as (pc & Hpc & Hsame).
  destruct (proj1 Hwf _ _ _ Hc) as [Ho Hwfc].
  destruct w as [d fs l]. cbn [db faults] in *.
  rewrite bind_run. unfold updateDoc_active at 1.
  erewrite write_accepted; [| assumption | simpl; rewrite Hc; reflexivity].
  rewrite bind_run. unfold updateDoc_active.
  erewrite write_accepted;
    [| now apply reliable_tail | simpl; rewrite Hpc; reflexivity].
  apply (preserves_bind copies_agree);
    [apply copies_agree_changeBalance | intros _; apply preserves_showMessage |].
  cbn [db]. apply copies_agree_put_both; try assumption.
  now apply same_cheque_set_active.
Qed.

Lemma keeps_reliable_run_command c : keeps_reliable (run_command c).
Proof.
  intros w H. unfold run_command. cbv zeta.
  destruct (cmd_action c) as [name now|i|code|id].
  - revert w H. apply keeps_reliable_try_catch; auto with reliable.
    unfold signIn, setDoc_profile.
    apply keeps_reliable_bind; [apply keeps_reliable_read | intros [p|]];
      auto with reliable.
  - generalize (session_of (cmd_user c) (cmd_email c) (db w)). intros s.
    revert w H. unfold handleCreateCheque.
    destruct (String.eqb _ ""); [apply keeps_reliable_ret |].
    destruct (_ || _)%bool; [apply keeps_reliable_showMessage |].
    destruct (_ <? _)%float; [apply keeps_reliable_showMessage |].
    cbv zeta. unfold setDoc.
    apply keeps_reliable_try_catch; [| apply keeps_reliable_showMessage].
    repeat (apply keeps_reliable_bind;
            [first [apply keeps_reliable_changeBalance | apply keeps_reliable_write]
            | intros _]).
    apply keeps_reliable_showMessage.
  - generalize (session_of (cmd_user c) (cmd_email c) (db w)). intros s.
    revert w H. unfold handleActivateCheque.
    destruct (String.eqb _ ""); [apply keeps_reliable_ret |].
    destruct (String.eqb code ""); [apply keeps_reliable_showMessage |].
    apply keeps_reliable_try_catch; [| apply keeps_reliable_showMessage].
    apply keeps_reliable_bind; [apply keeps_reliable_read | intros docs].
    destruct docs; [apply keeps_reliable_showMessage |].
    destruct (first_active _) as [[k c0]|]; [| apply keeps_reliable_showMessage].
    destruct (String.eqb _ _); [apply keeps_reliable_showMessage |].
    unfold updateDoc_active.
    repeat (apply keeps_reliable_bind;
            [first [apply keeps_reliable_changeBalance | apply keeps_reliable_write]
            | intros _]).
    apply keeps_reliable_showMessage.
  - destruct (find _ _) as [cheque|]; [| exact H].
    generalize (session_of (cmd_user c) (cmd_email c) (db w)). intros s.
    revert w H. unfold handleDeleteCheque.
    destruct (String.eqb _ ""); [apply keeps_reliable_ret |].
    apply keeps_reliable_try_catch; [| apply keeps_reliable_showMessage].
    unfold updateDoc_active.
    repeat (apply keeps_reliable_bind;
            [first [apply keeps_reliable_changeBalance | apply keeps_reliable_write]
            | intros _]).
    apply keeps_reliable_showMessage.
Qed.

Lemma copies_agree_run_command c w :
  reliable (faults w) -> well_formed (db w) -> copies_agree (db w) ->
  copies_agree (db (run_command c w).2).
Proof.
  intros Hfs Hwf Hag. unfold run_command. cbv zeta.
  destruct (cmd_action c) as [name now|i|code|id].
  - revert w Hfs Hwf Hag. intros w _ _.
    apply (preserves_try_catch copies_agree); auto with preserves.
    unfold signIn. apply preserves_bind; [apply preserves_read | intros [p|]];
      auto with preserves.
    apply preserves_write. intros d d' Hd [= <-]. exact Hd.
  - now apply copies_agree_handleCreateCheque.
  - now apply copies_agree_handleActivateCheque.
  - destruct (find _ _) as [cheque|] eqn:E; [| exact Hag].
    apply copies_agree_handleDeleteCheque; try assumption.
    apply find_some in E as [Hin _]. cbn [activeCheques session_of onSnapshot] in Hin.
    unfold active_cheques_of in Hin. apply filter_In in Hin as [Hin _].
    destruct cheque as [k c0]. now apply In_docs_in_order in Hin.
Qed.

(** X24.  The two copies of a cheque agree: starting from a well-formed
    store in which every cheque of a user's collection has a public copy
    under the same id with the same code, owner, amount, flag and anonymity,
    and every public cheque such a copy in its owner's collection, every
    sequence of commands on a store that accepts the writes ends in a store
    with that property. *)
Theorem copies_agree_while_store_accepts
    (cs : list Command) (w : World) :
  reliable (faults w) ->
  well_formed (db w) ->
  copies_agree (db w) ->
  copies_agree (db (run_commands cs w)).
Proof.
  revert w. induction cs as [|c cs IH]; intros w Hfs Hwf Hag; simpl; [exact Hag |].
  apply IH.
  - now apply keeps_reliable_run_command.
  - now apply preserves_run_command.
  - now apply copies_agree_run_command.
Qed.

Lemma copies_agree_sample_db0 : copies_agree Sample.db0.
Proof.
  split.
  - intros u id c H. unfold cheques_of in H. simpl in H.
    rewrite lookup_empty in H. simpl in H. rewrite lookup_empty in H.
    discriminate H.
  - intros id c H. simpl in H. rewrite lookup_empty in H. discriminate H.
Qed.

Lemma copies_agree_while_store_accepts_witness :
  copies_agree
    (db (run_commands
           [mkCommand "uidA" None (IssueCheque Sample.issue20);
            mkCommand "uidC" None (IssueCheque Sample.issue003);
            mkCommand "uidB" None (RedeemCheque Sample.code20);
            mkCommand "uidC" None (CancelCheque Sample.id003)]
           (start Sample.db0 []))).
Proof.
  apply (copies_agree_while_store_accepts _ (start Sample.db0 [])).
  - exact reliable_nil.
  - exact well_formed_sample_db0.
  - exact copies_agree_sample_db0.
Defined.
